(** * xlsmuncher: field parsing, row ingestion and reconciliation

    A shallow embedding of [xlsmuncher/ingester.py],
    [xlsmuncher/database/db_model.py], [xlsmuncher/database/db_helper.py]
    and the parts of [xlsmuncher/excel] the ingester relies on, together
    with the properties of the specification that concern them.

    Conventions.
    - Python text is modelled by [string], read as a sequence of code
      points below 256.
    - A Python [dict] with text keys is a [gmap string _]; a missing key
      is [None] of the lookup, the Python value [None] is [VNone].
    - Exceptions are values of [Exn]; code that can raise returns a
      [result].  [print] appends an [Output] event to the output.
    - Dates are proleptic Gregorian ordinals ([datetime.date.toordinal]). *)

From Stdlib Require Import ZArith NArith Ascii String List Bool Lia Sorted.
From stdpp Require Import base option list gmap strings fin_maps.

#[local] Open Scope Z_scope.

(** ** Python values *)

(** The values a spreadsheet cell, a record entry or a stored column can
    hold.  Numeric cells are modelled by integers. *)
Inductive Value : Type :=
| VNone
| VBool (b : bool)
| VInt (n : Z)
| VStr (s : string)
| VDate (d : Z)
| VDateTime (d : Z) (t : Z).

#[global] Instance Value_eq_dec : EqDecision Value.
Proof. solve_decision. Defined.

(** [bool(v)]. *)
Definition truthy (v : Value) : bool :=
  match v with
  | VNone => false
  | VBool b => b
  | VInt n => negb (n =? 0)
  | VStr s => negb (String.eqb s "")
  | VDate _ | VDateTime _ _ => true
  end.

Definition is_none (v : Value) : bool :=
  match v with VNone => true | _ => false end.

(** [v in [None, '']]. *)
Definition is_blank (v : Value) : bool :=
  match v with
  | VNone => true
  | VStr s => String.eqb s ""
  | _ => false
  end.

(** [isinstance(v, datetime.date)]; [datetime.datetime] is a subclass. *)
Definition is_date_instance (v : Value) : bool :=
  match v with VDate _ | VDateTime _ _ => true | _ => false end.

(** ** Exceptions and output *)

Inductive Exn : Type :=
| KeyError
| TypeError
| IndexError
| ValueError (msg : string)
| OverflowError
| AssertionError
| NotImplementedError
| NameError
| RecursionError
| MultipleResultsFound
| IntegrityError
| StatementError.

Inductive result (A : Type) : Type :=
| Ok (a : A)
| Raise (e : Exn).
Arguments Ok {A} a.
Arguments Raise {A} e.

Definition is_ValueError (e : Exn) : bool :=
  match e with ValueError _ => true | _ => false end.

(** What the program prints, one event per [print] call. *)
Inductive Output : Type :=
| OutUnableToParseDate (value : string)
| OutIngestingSheet (title : string)
| OutHeading (col_idx : nat) (cell_text : string) (known : bool)
| OutNoRecognisedColumns (title : string)
| OutFoundColumns (cols : list (nat * string))
| OutAddCell (col_idx : nat) (db_col_name : string) (value : Value)
| OutMissingRequiredField (field : string)
| OutUpdatingExisting
| OutAddingNew
| OutIgnoringRow (row_number : Z) (e : Exn)
| OutOpeningWorkbook (file_path config_file_path : string).

#[global] Instance Exn_eq_dec : EqDecision Exn.
Proof. solve_decision. Defined.

#[global] Instance result_eq_dec {A} `{EqDecision A} : EqDecision (result A).
Proof. solve_decision. Defined.

#[global] Instance Output_eq_dec : EqDecision Output.
Proof. solve_decision. Defined.

(** A computation that prints and may raise. *)
Definition P (A : Type) : Type := list Output * result A.

Definition pret {A} (a : A) : P A := ([], Ok a).
Definition praise {A} (e : Exn) : P A := ([], Raise e).
Definition print (o : Output) : P unit := ([o], Ok tt).
Definition plift {A} (r : result A) : P A := ([], r).
Definition pbind {A B} (m : P A) (k : A -> P B) : P B :=
  match m with
  | (out, Ok a) => let '(out', r) := k a in (out ++ out', r)
  | (out, Raise e) => (out, Raise e)
  end.

Declare Scope py_scope.
Delimit Scope py_scope with py.
Notation "x <- m ;; k" := (pbind m (fun x => k))
  (at level 100, m at next level, right associativity) : py_scope.
Notation "m ;;; k" := (pbind m (fun _ => k))
  (at level 100, right associativity) : py_scope.
#[local] Open Scope py_scope.

(** ** Text operations *)

Module Str.

(** [c.isspace()] for a code point below 256. *)
Definition isspace (a : ascii) : bool :=
  let n := N_of_ascii a in
  (((9 <=? n) && (n <=? 13)) || ((28 <=? n) && (n <=? 32))
   || (n =? 133) || (n =? 160))%N.

(** [c.lower()] for a code point below 256. *)
Definition lower_char (a : ascii) : ascii :=
  let n := N_of_ascii a in
  if (((65 <=? n) && (n <=? 90))
      || ((192 <=? n) && (n <=? 222) && negb (n =? 215)))%N
  then ascii_of_N (n + 32) else a.

Fixpoint skip_space (l : list ascii) : list ascii :=
  match l with
  | a :: l' => if isspace a then skip_space l' else l
  | [] => []
  end.

(** The maximal prefix without whitespace, and the rest. *)
Fixpoint take_token (l : list ascii) : list ascii * list ascii :=
  match l with
  | a :: l' =>
      if isspace a then ([], l)
      else let '(tok, rest) := take_token l' in (a :: tok, rest)
  | [] => ([], [])
  end.

(** [str.split(maxsplit=maxcount)] on whitespace: at most [maxcount]
    tokens are cut off; what is left, without its leading whitespace,
    is kept whole as the last item when it is not empty. *)
Fixpoint split_chars (maxcount : nat) (l : list ascii) : list (list ascii) :=
  match skip_space l with
  | [] => []
  | a :: l1 =>
      match maxcount with
      | O => [a :: l1]
      | S n => let '(tok, rest) := take_token (a :: l1) in
               tok :: split_chars n rest
      end
  end.

Definition chars (s : string) : list ascii := list_ascii_of_string s.
Definition text (l : list ascii) : string := string_of_list_ascii l.

(** [s[::-1]]. *)
Definition reverse (s : string) : string := text (rev (chars s)).

(** [s.split(maxsplit=n)]. *)
Definition split (s : string) (maxsplit : nat) : list string :=
  map text (split_chars maxsplit (chars s)).

(** [s.strip()]. *)
Definition strip (s : string) : string :=
  text (rev (skip_space (rev (skip_space (chars s))))).

(** [s.lower()]. *)
Definition lower (s : string) : string := text (map lower_char (chars s)).

End Str.

(** ** The storage schema ([database/db_model.py]) *)

Inductive ColType : Type :=
| String_ (length : option nat)
| Text
| Date
| Boolean
| Integer.

(** [col.type.__class__.__name__]. *)
Definition type_name (ty : ColType) : string :=
  match ty with
  | String_ _ => "String"
  | Text => "Text"
  | Date => "Date"
  | Boolean => "Boolean"
  | Integer => "Integer"
  end.

(** [isinstance(col_type, String)]; [Text] is a subclass of [String]. *)
Definition is_String (ty : ColType) : bool :=
  match ty with String_ _ | Text => true | _ => false end.

(** The value of a column's [autoincrement] attribute: [True] when the
    declaration says so, the library's default ["auto"] otherwise. *)
Inductive Autoincrement : Type := AutoTrue | AutoFalse | AutoDefault.

Module Column.

Record t : Type := make {
  name : string;
  type_ : ColType;
  primary_key : bool;
  nullable : bool;
  autoincrement : Autoincrement;
  default : option Value
}.

(** [Column(type, primary_key=..., nullable=..., autoincrement=...,
    default=...)] bound to the attribute [name].  A column that is not
    given [nullable] is nullable exactly when it is not part of the
    primary key. *)
Definition declare (name : string) (ty : ColType)
    (primary_key : bool) (nullable : option bool)
    (autoincrement : option bool) (default : option Value) : t :=
  {| name := name;
     type_ := ty;
     primary_key := primary_key;
     nullable := match nullable with
                 | Some b => b
                 | None => negb primary_key
                 end;
     autoincrement := match autoincrement with
                      | Some true => AutoTrue
                      | Some false => AutoFalse
                      | None => AutoDefault
                      end;
     default := default |}.

(** [col.autoincrement is not True]. *)
Definition autoincrement_is_not_True (c : t) : bool :=
  match autoincrement c with AutoTrue => false | _ => true end.

End Column.

(** A table's [__table__.columns], in declaration order. *)
Definition Table : Type := list Column.t.

(** [name in table.columns]. *)
Definition has_column (table : Table) (name : string) : bool :=
  existsb (fun c => String.eqb (Column.name c) name) table.

(** [table.columns[name]]. *)
Definition get_column (table : Table) (name : string) : result Column.t :=
  match find (fun c => String.eqb (Column.name c) name) table with
  | Some c => Ok c
  | None => Raise KeyError
  end.

Module Patient.
Definition columns : Table :=
  [ Column.declare "idmrn" (String_ (Some 32%nat)) true None None None;
    Column.declare "patient_given_name" (String_ None) false (Some false) None None;
    Column.declare "patient_family_name" (String_ None) false (Some false) None None;
    Column.declare "date_of_birth" Date false (Some true) None None;
    Column.declare "nhs_number" (String_ (Some 10%nat)) false (Some true) None None;
    Column.declare "sex" Integer false (Some true) None None ].
End Patient.

Module Procedure.
Definition columns : Table :=
  [ Column.declare "procedure_id" Integer true None (Some true) None;
    Column.declare "idmrn" (String_ (Some 32%nat)) false None None None;
    Column.declare "surgical_procedure" (String_ None) false (Some false) None None;
    Column.declare "surgical_date" Date false (Some false) None None;
    Column.declare "surgical_priority" (String_ None) false (Some true) None None;
    Column.declare "surgical_consultant" (String_ None) false (Some true) None None;
    Column.declare "surgical_pathway" (String_ None) false (Some false) None None;
    Column.declare "surgical_notes" Text false (Some true) None None;
    Column.declare "pacu_request" Boolean false (Some true) None None;
    Column.declare "cancelled" Boolean false (Some false) None (Some (VBool false)) ].
End Procedure.

(** ** The spreadsheet access layer ([excel/]) as the ingester sees it *)

Module Font.
(** The four properties of a cell's font; a backend that does not
    implement one raises. *)
Record t : Type := make {
  strike : result Value;
  background : result Value;
  foreground : result Value;
  red : result Value
}.
End Font.

Module Cell.
Record t : Type := make {
  value : Value;
  row : result Z;
  col : result Z;
  font : Font.t
}.
End Cell.

Module Row.
Record t : Type := make { cells : list Cell.t }.

(** [len(row)]. *)
Definition len (r : t) : Z := Z.of_nat (length (cells r)).

(** [row.cell(idx)] for an index that is not negative. *)
Definition cell (r : t) (idx : nat) : result Cell.t :=
  match cells r !! idx with
  | Some c => Ok c
  | None => Raise IndexError
  end.
End Row.

Module Sheet.
Record t : Type := make {
  title : string;
  rows : Z -> list Row.t;            (* [rows(skip_rows)] *)
  row : Z -> result Row.t;           (* [row(idx)] *)
  cell : Z -> Z -> result Cell.t;    (* [cell(row, col)] *)
  cell_named : string -> result Cell.t  (* [cell(name=...)] *)
}.
End Sheet.

(** ** Field parsers ([ingester.py]) *)

(** The formatting that can mark a cancelled appointment. *)
Inductive Mark : Type := strike | red | background | foreground.

(** [getattr(font, mark)]. *)
Definition font_attr (f : Font.t) (m : Mark) : result Value :=
  match m with
  | strike => Font.strike f
  | red => Font.red f
  | background => Font.background f
  | foreground => Font.foreground f
  end.

(** [mark.endswith('ground')]. *)
Definition endswith_ground (m : Mark) : bool :=
  match m with
  | background | foreground => true
  | strike | red => false
  end.

Inductive InsertMethod : Type := replace | append.

Record FieldParser : Type := {
  db_col_name : string;
  db_col : Column.t;
  db_col_type : string;
  extra_column_name : option string;
  data_insert_method : InsertMethod;
  propagate_missing_values : bool;
  check_next_first : bool;
  cancellation_mark : option Mark;
  cancellation_colours : gset string;
  extra_date_formats : list string;
  day_offsets : gmap string Z;
  value_transformers : gmap string Value
}.

(** The keyword arguments of [FieldParser.__init__], with its defaults. *)
Record ParserArgs : Type := {
  arg_extra_column : option string;
  arg_data_insert_method : string;
  arg_propagate_missing_values : bool;
  arg_check_next_first : bool;
  arg_cancellation_mark : option string;
  arg_cancellation_colours : list string;
  arg_extra_date_formats : list string;
  arg_day_offsets : gmap string Z
}.

Definition default_args : ParserArgs :=
  {| arg_extra_column := None;
     arg_data_insert_method := "replace";
     arg_propagate_missing_values := false;
     arg_check_next_first := false;
     arg_cancellation_mark := None;
     arg_cancellation_colours := [];
     arg_extra_date_formats := [];
     arg_day_offsets := ∅ |}.

Definition insert_method_of (s : string) : result InsertMethod :=
  if String.eqb s "replace" then Ok replace
  else if String.eqb s "append" then Ok append
  else Raise AssertionError.

Definition mark_of (s : option string) : result (option Mark) :=
  match s with
  | None => Ok None
  | Some s =>
      if String.eqb s "strike" then Ok (Some strike)
      else if String.eqb s "red" then Ok (Some red)
      else if String.eqb s "background" then Ok (Some background)
      else if String.eqb s "foreground" then Ok (Some foreground)
      else Raise AssertionError
  end.

Definition rbind {A B} (r : result A) (k : A -> result B) : result B :=
  match r with Ok a => k a | Raise e => Raise e end.

(** [FieldParser.__init__]. *)
Definition FieldParser_init (db_col_name : string) (args : ParserArgs)
  : result FieldParser :=
  rbind (if has_column Procedure.columns db_col_name
         then get_column Procedure.columns db_col_name
         else get_column Patient.columns db_col_name) (fun col =>
  rbind (insert_method_of (arg_data_insert_method args)) (fun method =>
  rbind (mark_of (arg_cancellation_mark args)) (fun mark =>
  Ok {| db_col_name := db_col_name;
        db_col := col;
        db_col_type := type_name (Column.type_ col);
        extra_column_name := arg_extra_column args;
        data_insert_method := method;
        propagate_missing_values := arg_propagate_missing_values args;
        check_next_first := arg_check_next_first args;
        cancellation_mark := mark;
        cancellation_colours :=
          list_to_set (map Str.lower (arg_cancellation_colours args));
        extra_date_formats := arg_extra_date_formats args;
        day_offsets := arg_day_offsets args;
        value_transformers := ∅ |}))).

(** [FieldParser.set_date_basis]: one transformer per day offset, the
    date [start_date + datetime.timedelta(days=offset)].  Dates run from
    ordinal 1 (0001-01-01) to ordinal 3652059 (9999-12-31); a sum outside
    raises [OverflowError]. *)
Definition set_date_basis (self : FieldParser) (start_date : Z)
  : result FieldParser :=
  if bool_decide (map_Forall
        (fun _ offset => 1 <= start_date + offset <= 3652059)
        (day_offsets self))
  then Ok {| db_col_name := db_col_name self;
             db_col := db_col self;
             db_col_type := db_col_type self;
             extra_column_name := extra_column_name self;
             data_insert_method := data_insert_method self;
             propagate_missing_values := propagate_missing_values self;
             check_next_first := check_next_first self;
             cancellation_mark := cancellation_mark self;
             cancellation_colours := cancellation_colours self;
             extra_date_formats := extra_date_formats self;
             day_offsets := day_offsets self;
             value_transformers :=
               ((fun offset => VDate (start_date + offset))
                  <$> day_offsets self) ∪ value_transformers self |}
  else Raise OverflowError.

(** ** Reading the configuration *)

(** A value loaded from the YAML file. *)
#[warnings="-register-all"]
Inductive Yaml : Type :=
| YNull
| YBool (b : bool)
| YInt (n : Z)
| YFloat (mantissa exponent : Z)
| YStr (s : string)
| YList (items : list Yaml)
| YDict (items : list (string * Yaml))
| YDate (d : Z)
| YDateTime (d t : Z).

(** [type(y).__name__]. *)
Definition yaml_type_name (y : Yaml) : string :=
  match y with
  | YNull => "NoneType"
  | YBool _ => "bool"
  | YInt _ => "int"
  | YFloat _ _ => "float"
  | YStr _ => "str"
  | YList _ => "list"
  | YDict _ => "dict"
  | YDate _ => "date"
  | YDateTime _ _ => "datetime"
  end.

(** The types the global settings are checked against. *)
Inductive PyType : Type := py_str_type | py_list_type | py_int_type.

(** [typ.__name__]. *)
Definition py_type_name (typ : PyType) : string :=
  match typ with
  | py_str_type => "str"
  | py_list_type => "list"
  | py_int_type => "int"
  end.

(** [isinstance(y, typ)]; [bool] is a subclass of [int]. *)
Definition isinstance (y : Yaml) (typ : PyType) : bool :=
  match typ, y with
  | py_str_type, YStr _ => true
  | py_list_type, YList _ => true
  | py_int_type, YInt _ => true
  | py_int_type, YBool _ => true
  | _, _ => false
  end.

(** The recognised global settings with their types, in the order the
    loop of [read_config] visits them. *)
Definition global_settings : list (string * PyType) :=
  [ ("surgical_pathway", py_str_type);
    ("surgical_consultant", py_str_type);
    ("sheets", py_list_type);
    ("week_start_date_cell", py_str_type);
    ("heading_row", py_int_type) ].

(** One entry of the file's [columns] list.  The options are typed as
    [FieldParser.__init__] documents them; an option the entry leaves
    out has its default. *)
Record ColumnDef : Type := {
  excel_heading : option string;
  excel_column : option string;
  column_name : option string;
  parser_args : ParserArgs
}.

(** The loaded file: the top-level keys other than [columns], and the
    [columns] list (empty when the key is absent). *)
Record Contents : Type := {
  settings : gmap string Yaml;
  column_defs : list ColumnDef
}.

(** The configuration dictionary.  [config !! setting] is the entry of
    a global setting; [columns] is its [columns] entry, a dictionary
    in insertion order. *)
Record Config : Type := {
  globals : gmap string Yaml;
  columns : list (string * FieldParser)
}.

Definition wrong_type_message (setting : string) (typ : PyType) (y : Yaml)
  : string :=
  "Config setting " +:+ setting +:+ " has wrong type; expected "
    +:+ py_type_name typ +:+ ", got " +:+ yaml_type_name y.

(** The loop over the global settings. *)
Fixpoint read_globals (contents : gmap string Yaml)
    (todo : list (string * PyType)) (config : gmap string Yaml)
  : result (gmap string Yaml) :=
  match todo with
  | [] => Ok config
  | (setting, typ) :: todo' =>
      match contents !! setting with
      | Some y =>
          if isinstance y typ
          then read_globals contents todo' (<[setting := y]> config)
          else Raise (ValueError (wrong_type_message setting typ y))
      | None => read_globals contents todo' config
      end
  end.

(** [d[key] = v] on a dictionary kept in insertion order. *)
Fixpoint dict_set {K A} `{EqDecision K} (d : list (K * A)) (key : K) (v : A)
  : list (K * A) :=
  match d with
  | [] => [(key, v)]
  | (k, x) :: d' =>
      if decide (k = key) then (k, v) :: d' else (k, x) :: dict_set d' key v
  end.

(** [d.get(key)]. *)
Fixpoint dict_get {K A} `{EqDecision K} (d : list (K * A)) (key : K)
  : option A :=
  match d with
  | [] => None
  | (k, x) :: d' => if decide (k = key) then Some x else dict_get d' key
  end.

(** [config.get('heading_row', 1)]; a boolean counts as 1 or 0. *)
Definition heading_row (config : gmap string Yaml) : Z :=
  match config !! "heading_row" with
  | Some (YInt n) => n
  | Some (YBool b) => if b then 1 else 0
  | _ => 1
  end.

(** The loop that sets up the field parsers. *)
Fixpoint read_columns (headerless : bool) (defs : list ColumnDef)
    (cols : list (string * FieldParser))
  : result (list (string * FieldParser)) :=
  match defs with
  | [] => Ok cols
  | col_def :: defs' =>
      match (if headerless then excel_column col_def
             else excel_heading col_def) with
      | None => Raise KeyError
      | Some excel_name =>
          match column_name col_def with
          | None => Raise KeyError
          | Some db_name =>
              rbind (FieldParser_init db_name (parser_args col_def))
                (fun parser =>
                 read_columns headerless defs'
                   (dict_set cols (Str.strip excel_name) parser))
          end
      end
  end.

(** [read_config], applied to the loaded file. *)
Definition read_config (contents : Contents) : result Config :=
  rbind (read_globals (settings contents) global_settings
           {["sheets" := YList []]}) (fun config =>
  rbind (read_columns (heading_row config =? 0) (column_defs contents) [])
    (fun cols =>
  Ok {| globals := config; columns := cols |})).

(** ** Stored objects and the store

    The storage layer, a session of the object-relational mapper on a
    relational database, is modelled by what the ingester relies on:
    rows are looked up by equality of column values, a merge matches
    the patient by primary key and inserts the procedure, a commit
    checks the [NOT NULL] constraints the schema declares, and a
    rollback discards what was not committed.  Errors that depend on
    the database product (lengths, type affinity) are not modelled. *)

(** A mapped object: its attributes by column name.  An attribute that
    was never set reads as [None]. *)
Abbreviation obj := (gmap string Value).

Definition getattr (o : obj) (name : string) : Value :=
  default VNone (o !! name).

Definition setattr (o : obj) (name : string) (v : Value) : obj :=
  <[name := v]> o.

(** The database: the patient rows by primary key, the procedure rows
    in the order they were inserted, and the next value of the
    procedure identity. *)
Record Store : Type := {
  patients : gmap string obj;
  procedures : list obj;
  next_procedure_id : Z
}.

Definition empty_store : Store :=
  {| patients := ∅; procedures := []; next_procedure_id := 1 |}.

#[global] Instance Store_eq_dec : EqDecision Store.
Proof. solve_decision. Defined.

(** An object the session has to flush: a procedure row by position, or
    a patient by the value of its primary key. *)
Inductive Handle : Type :=
| HProcedure (i : nat)
| HPatient (idmrn : Value).

(** A session: the store as the open transaction sees it, and the
    objects changed since the last commit. *)
Record Session : Type := {
  work : Store;
  flush_list : list Handle
}.

(** A computation on the committed database that prints and may raise:
    from the database it gives what was printed, the database
    afterwards and the result. *)
Definition M (A : Type) : Type := Store -> list Output * Store * result A.

Definition mret_ {A} (a : A) : M A := fun db => ([], db, Ok a).
Definition mraise {A} (e : Exn) : M A := fun db => ([], db, Raise e).
Definition mbind_ {A B} (m : M A) (k : A -> M B) : M B :=
  fun db => match m db with
            | (out, db', Ok a) =>
                let '(out', db'', r) := k a db' in (out ++ out', db'', r)
            | (out, db', Raise e) => (out, db', Raise e)
            end.

(** Run a printing computation. *)
Definition lift {A} (p : P A) : M A := fun db => (fst p, db, snd p).

(** [try: body except (IntegrityError, StatementError) as e: handler(e)]. *)
Definition try_except {A} (body : M A) (handler : Exn -> M A) : M A :=
  fun db => match body db with
            | (out, db', Raise IntegrityError) =>
                let '(out', db'', r) := handler IntegrityError db' in
                (out ++ out', db'', r)
            | (out, db', Raise StatementError) =>
                let '(out', db'', r) := handler StatementError db' in
                (out ++ out', db'', r)
            | other => other
            end.

Declare Scope world_scope.
Delimit Scope world_scope with world.
Notation "x <~ m ;; k" := (mbind_ m (fun x => k))
  (at level 100, m at next level, right associativity) : world_scope.
Notation "m ~;; k" := (mbind_ m (fun _ => k))
  (at level 100, right associativity) : world_scope.

(** The rows satisfy the table's [NOT NULL] constraints. *)
Definition not_null_ok (table : Table) (row : obj) : bool :=
  forallb (fun c => Column.nullable c
                    || negb (is_none (getattr row (Column.name c)))) table.

(** A column default fills an attribute that was never set. *)
Definition apply_defaults (table : Table) (row : obj) : obj :=
  fold_left (fun row c =>
               match Column.default c, row !! Column.name c with
               | Some v, None => <[Column.name c := v]> row
               | _, _ => row
               end) table row.

Module Db.

Definition open_session (db : Store) : Session :=
  {| work := db; flush_list := [] |}.

(** The constraints the database checks when an object is flushed. *)
Definition flush_ok (s : Store) (h : Handle) : bool :=
  match h with
  | HProcedure i =>
      match procedures s !! i with
      | Some row => not_null_ok Procedure.columns row
      | None => false
      end
  | HPatient (VStr k) =>
      match patients s !! k with
      | Some row => not_null_ok Patient.columns row
      | None => false
      end
  | HPatient _ => false
  end.

(** [session.commit()]: flush, then make the transaction's view the
    database.  A violated constraint raises [IntegrityError]. *)
Definition commit (session : Session) : M Session :=
  fun db =>
    if forallb (flush_ok (work session)) (flush_list session)
    then ([], work session, Ok {| work := work session; flush_list := [] |})
    else ([], db, Raise IntegrityError).

(** [session.rollback()]. *)
Definition rollback (session : Session) : M Session :=
  fun db => ([], db, Ok (open_session db)).

(** SQL equality of a stored value with a Python value: comparing
    with [None] is [IS NULL], and [NULL] equals no value. *)
Definition sql_eq (stored wanted : Value) : bool :=
  match wanted with
  | VNone => is_none stored
  | _ => bool_decide (stored = wanted)
  end.

(** A new procedure row: column defaults fill what was not set and
    the identity is generated. *)
Definition new_row (s : Store) (attrs : obj) : obj :=
  setattr (apply_defaults Procedure.columns attrs)
    "procedure_id" (VInt (next_procedure_id s)).

(** [session.merge(procedure)] for a procedure that has no identity
    yet, with its patient.  The patient is matched by primary key: an
    existing row receives the attributes that are set on the given
    patient, otherwise the patient is inserted.  The procedure is
    inserted as a new row.  The result is the position of that row. *)
Definition merge (session : Session) (attrs patient : obj)
  : Session * nat :=
  let s := work session in
  let idmrn := getattr patient "idmrn" in
  let patients' :=
    match idmrn with
    | VStr k =>
        match patients s !! k with
        | Some existing => <[k := patient ∪ existing]> (patients s)
        | None => <[k := apply_defaults Patient.columns patient]> (patients s)
        end
    | _ => patients s
    end in
  ({| work := {| patients := patients';
                 procedures := procedures s ++ [new_row s attrs];
                 next_procedure_id := next_procedure_id s + 1 |};
      flush_list := flush_list session
                      ++ [HPatient idmrn; HProcedure (length (procedures s))] |},
   length (procedures s)).

(** [session.add(procedure)]: the procedure and its patient are both
    inserted; a patient whose key is already stored violates the
    primary key when flushed. *)
Definition add (session : Session) (attrs patient : obj) : Session :=
  let s := work session in
  let idmrn := getattr patient "idmrn" in
  match idmrn with
  | VStr k =>
      match patients s !! k with
      | Some _ =>
          {| work := s; flush_list := flush_list session ++ [HPatient VNone] |}
      | None => fst (merge session attrs patient)
      end
  | _ => fst (merge session attrs patient)
  end.

End Db.

(** ** Parsing one cell *)

Section Ingester.

(** The date library.  [strptime s fmt] is
    [datetime.datetime.strptime(s, fmt)] and [parse_date s dayfirst] is
    [dateutil.parser.parse(s, ignoretz=True, dayfirst=dayfirst,
    fuzzy=False)] (time zones never reach the date that is kept); both
    give the date and the time of day, or raise.  [date_str] is
    [str] of a date and [datetime_str] of a timestamp. *)
Variable strptime : string -> string -> result (Z * Z).
Variable parse_date : string -> bool -> result (Z * Z).
Variable date_str : Z -> string.
Variable datetime_str : Z -> Z -> string.

(** [openpyxl.utils.column_index_from_string]: the 1-based index of a
    column letter, [ValueError] for what is not one. *)
Variable column_index_from_string : string -> result positive.

(** [str(v)]. *)
Definition py_str (v : Value) : string :=
  match v with
  | VNone => "None"
  | VBool true => "True"
  | VBool false => "False"
  | VInt n => pretty.pretty n
  | VStr s => s
  | VDate d => date_str d
  | VDateTime d t => datetime_str d t
  end.

#[local] Abbreviation record := (gmap string Value).

(** [record[key]]. *)
Definition getitem (r : record) (key : string) : result Value :=
  match r !! key with
  | Some v => Ok v
  | None => Raise KeyError
  end.

(** [record.get(key, None)]. *)
Definition get (r : record) (key : string) : Value :=
  default VNone (r !! key).

(** Step 1, [self.value_transformers[value]] when there are
    transformers and the value is truthy.  The keys are texts, so a
    value that is not a text is never found. *)
Definition transform_value (self : FieldParser) (value : Value)
  : result Value :=
  if negb (bool_decide (value_transformers self = ∅)) && truthy value
  then match value with
       | VStr s => match value_transformers self !! s with
                   | Some v => Ok v
                   | None => Raise KeyError
                   end
       | _ => Raise KeyError
       end
  else Ok value.

(** The [for ... else] loop over the explicit formats: the date of the
    first format [strptime] accepts, [None] when every format raises
    [ValueError]. *)
Fixpoint try_date_formats (s : string) (formats : list string)
  : result (option Z) :=
  match formats with
  | [] => Ok None
  | date_format :: formats' =>
      match strptime (Str.strip s) date_format with
      | Ok (d, _) => Ok (Some d)
      | Raise e =>
          if is_ValueError e then try_date_formats s formats'
          else Raise e
      end
  end.

(** Step 2, malformed dates.  [Ok None] stands for the [return] that
    ends [parse_cell] after the message is printed. *)
Definition recover_date (self : FieldParser) (value : Value)
  : P (option Value) :=
  match value with
  | VStr s =>
      if String.eqb (db_col_type self) "Date" && truthy value then
        match try_date_formats s (extra_date_formats self) with
        | Ok (Some d) => pret (Some (VDate d))
        | Ok None =>
            match parse_date s true with
            | Ok (d, _) => pret (Some (VDate d))
            | Raise e =>
                if is_ValueError e
                then print (OutUnableToParseDate s) ;;; pret None
                else praise e
            end
        | Raise e => praise e
        end
      else pret (Some value)
  | _ => pret (Some value)
  end.

(** Step 3, [value.date()] for a timestamp in a date column. *)
Definition coerce_datetime (self : FieldParser) (value : Value) : Value :=
  match value with
  | VDateTime d _ =>
      if String.eqb (db_col_type self) "Date" then VDate d else value
  | _ => value
  end.

(** Step 4, booleans written as text. *)
Definition coerce_boolean (self : FieldParser) (value : Value) : Value :=
  match value with
  | VStr s =>
      if String.eqb (db_col_type self) "Boolean" then
        if bool_decide (Str.lower s ∈ ["n"; "no"]) then VBool false
        else if bool_decide (Str.lower s ∈ ["y"; "yes"]) then VBool true
        else value
      else value
  | _ => value
  end.

(** Step 5, append to or replace the record's entry.
    [record[col] += ' ' + value] needs two texts. *)
Definition assign_value (self : FieldParser) (value : Value) (r : record)
  : result record :=
  match data_insert_method self with
  | append =>
      if truthy (get r (db_col_name self)) && truthy value then
        match get r (db_col_name self), value with
        | VStr old, VStr s =>
            Ok (<[db_col_name self := VStr (old +:+ " " +:+ s)]> r)
        | _, _ => Raise TypeError
        end
      else Ok (<[db_col_name self := value]> r)
  | replace => Ok (<[db_col_name self := value]> r)
  end.

(** Step 6, a value split across two columns. *)
Definition split_value (self : FieldParser) (value : Value) (r : record)
  : result record :=
  match extra_column_name self with
  | Some extra =>
      if negb (String.eqb extra "") && truthy value then
        match value with
        | VStr s =>
            let parts := map Str.reverse (Str.split (Str.reverse s) 1) in
            match parts !! 0%nat with
            | Some part0 =>
                let r := <[db_col_name self := VStr part0]> r in
                match (parts ++ [" "]) !! 1%nat with
                | Some part1 => Ok (<[extra := VStr part1]> r)
                | None => Raise IndexError
                end
            | None => Raise IndexError
            end
        | _ => Raise TypeError
        end
      else Ok r
  | None => Ok r
  end.

(** Step 8, cancellation marks. *)
Definition detect_cancellation (self : FieldParser) (cell : Cell.t)
    (r : record) : result record :=
  match cancellation_mark self with
  | Some m =>
      rbind (font_attr (Cell.font cell) m) (fun mark =>
      if truthy mark then
        if negb (endswith_ground m)
           || match mark with
              | VStr s => bool_decide (s ∈ cancellation_colours self)
              | _ => false
              end
        then Ok (<["cancelled" := VBool true]> r)
        else Ok r
      else Ok r)
  | None => Ok r
  end.

(** [cell.sheet.cell(cell.row + 1, cell.col)]. *)
Definition next_cell (sheet : Sheet.t) (cell : Cell.t) : result Cell.t :=
  rbind (Cell.row cell) (fun row =>
  rbind (Cell.col cell) (fun col =>
  Sheet.cell sheet (row + 1) col)).

(** The last part of step 7: copy the previous record's value. *)
Definition copy_previous (self : FieldParser) (r : record)
    (previous_record : option record) : result record :=
  rbind (getitem r (db_col_name self)) (fun v =>
  match previous_record with
  | Some previous =>
      if is_blank v
         && negb (bool_decide (previous = ∅))
         && negb (is_none (get previous (db_col_name self)))
      then rbind (getitem previous (db_col_name self)) (fun pv =>
           Ok (<[db_col_name self := pv]> r))
      else Ok r
  | None => Ok r
  end).

(** The body of [FieldParser.parse_cell]; [sheet] is [cell.sheet] and
    [parse_next next r] is the nested call
    [self.parse_cell(next_cell, record, None)].  The record is returned
    instead of being changed in place. *)
Definition parse_cell_body (parse_next : Cell.t -> record -> P record)
    (self : FieldParser) (sheet : Sheet.t) (cell : Cell.t) (r : record)
    (previous_record : option record) : P record :=
  value <- plift (transform_value self (Cell.value cell)) ;;
  recovered <- recover_date self value ;;
  match recovered with
  | None => pret r
  | Some value =>
      let value := coerce_datetime self value in
      let value := coerce_boolean self value in
      r <- plift (assign_value self value r) ;;
      r <- plift (split_value self value r) ;;
      r <- (if propagate_missing_values self then
              current <- plift (getitem r (db_col_name self)) ;;
              if is_blank current then
                r <- (if check_next_first self
                         && bool_decide (previous_record <> None)
                      then
                        next <- plift (next_cell sheet cell) ;;
                        parse_next next r
                      else pret r) ;;
                plift (copy_previous self r previous_record)
              else pret r
            else pret r) ;;
      plift (detect_cancellation self cell r)
  end.

(** [FieldParser.parse_cell] with a bound on the nesting of calls. *)
Fixpoint parse_cell_at (depth : nat) (self : FieldParser)
    (sheet : Sheet.t) (cell : Cell.t) (r : record)
    (previous_record : option record) : P record :=
  match depth with
  | O => praise RecursionError
  | S depth' =>
      parse_cell_body
        (fun next r => parse_cell_at depth' self sheet next r None)
        self sheet cell r previous_record
  end.

(** One nested call is all [parse_cell] ever makes. *)
Definition parse_cell := parse_cell_at 2.

(** ** Reconciliation ([database/db_model.py], [database/db_helper.py]) *)

(** [all_db_columns()]. *)
Definition all_db_columns : Table := Procedure.columns ++ Patient.columns.

(** The test [has_required_fields] applies to a column. *)
Definition is_required (field : Column.t) : bool :=
  negb (Column.nullable field)
  && Column.autoincrement_is_not_True field
  && bool_decide (Column.default field = None).

(** The loop of [has_required_fields]. *)
Fixpoint check_required_fields (fields : Table) (procedure : record)
    (verbose : Z) : P bool :=
  match fields with
  | [] => pret true
  | field :: fields' =>
      if is_required field && negb (truthy (get procedure (Column.name field)))
      then (if 3 <=? verbose
            then print (OutMissingRequiredField (Column.name field))
            else pret tt) ;;; pret false
      else check_required_fields fields' procedure verbose
  end.

Definition has_required_fields (procedure : record) (verbose : Z) : P bool :=
  check_required_fields all_db_columns procedure verbose.

(** [augment_argument_map]: the entry added to [data], if any. *)
Definition augment_argument_map (name : string) (value : Value)
    (table : Table) : option Value :=
  match find (fun c => String.eqb (Column.name c) name) table with
  | Some c =>
      let col_type := Column.type_ c in
      if is_String col_type then Some (VStr (py_str value))
      else match col_type with
           | Boolean => Some (VBool (truthy value))
           | Date => if is_date_instance value then Some value
                     else Some VNone
           | _ => Some value
           end
  | None => None
  end.

(** A procedure with the patient it belongs to. *)
Record ProcedureObj : Type := {
  attrs : obj;
  patient : obj
}.

(** [procedure_constructor], called with the record as its keyword
    arguments. *)
Definition procedure_constructor (r : record) : ProcedureObj :=
  let pacu_request := default VNone (r !! "pacu_request") in
  let cancelled := default (VBool false) (r !! "cancelled") in
  let kwargs := <["cancelled" := cancelled]>
                  (<["pacu_request" := pacu_request]> r) in
  let args (table : Table) : obj :=
    map_imap (fun name value =>
                if is_none value then None
                else augment_argument_map name value table) kwargs in
  {| attrs := args Procedure.columns; patient := args Patient.columns |}.

(** The filter of [find_existing]. *)
Definition same_procedure (self row : obj) : bool :=
  Db.sql_eq (getattr row "idmrn") (getattr self "idmrn")
  && Db.sql_eq (getattr row "surgical_procedure")
       (getattr self "surgical_procedure")
  && Db.sql_eq (getattr row "surgical_date") (getattr self "surgical_date").

(** The positions, from [i] on, of the rows the filter keeps. *)
Fixpoint matching_rows (self : obj) (rows : list obj) (i : nat) : list nat :=
  match rows with
  | [] => []
  | row :: rows' =>
      if same_procedure self row
      then i :: matching_rows self rows' (S i)
      else matching_rows self rows' (S i)
  end.

(** [Procedure.find_existing]: the stored procedure with the same
    natural key, or else the result of merging this one. *)
Definition find_existing (self : ProcedureObj) (session : Session)
  : M (Session * option nat) :=
  match matching_rows self.(attrs) (procedures (work session)) 0 with
  | [] =>
      let '(session, i) := Db.merge session self.(attrs) self.(patient) in
      mret_ (session, Some i)
  | [i] => mret_ (session, Some i)
  | _ => mraise MultipleResultsFound
  end.

(** [Procedure.update]: the loop over the table's columns. *)
Definition update (self other : obj) : obj :=
  fold_left (fun self col =>
               if Column.autoincrement_is_not_True col then
                 let new_val := getattr other (Column.name col) in
                 if negb (is_none new_val)
                 then setattr self (Column.name col) new_val
                 else self
               else self) Procedure.columns self.

(** [existing.update(procedure)] on the row at position [i]. *)
Definition update_existing (session : Session) (i : nat) (other : obj)
  : Session :=
  let s := work session in
  {| work := {| patients := patients s;
                procedures := alter (fun row => update row other) i
                                (procedures s);
                next_procedure_id := next_procedure_id s |};
     flush_list := flush_list session |}.

(** ** Ingesting a sheet ([ingester.py]) *)

#[local] Open Scope world_scope.

(** [column_name_to_index] ([excel/common.py]). *)
Definition column_name_to_index (name : string) : result nat :=
  rbind (column_index_from_string name) (fun i => Ok (Pos.to_nat i - 1)%nat).

Definition print_if (condition : bool) (o : Output) : P unit :=
  if condition then print o else pret tt.

(** The loop over the heading row.  [col_map] maps a 0-based column
    index to the key of its parser in the configuration's [columns]:
    the parser objects are shared with the configuration. *)
Fixpoint map_headings (cols : list (string * FieldParser))
    (cells : list Cell.t) (col_idx : nat) (verbose : Z)
    (col_map : list (nat * string)) : P (list (nat * string)) :=
  match cells with
  | [] => pret col_map
  | cell :: cells' =>
      let cell_text := Str.strip (py_str (Cell.value cell)) in
      let known := bool_decide (is_Some (dict_get cols cell_text)) in
      print_if (2 <=? verbose) (OutHeading col_idx cell_text known) ;;;
      map_headings cols cells' (S col_idx) verbose
        (if known then dict_set col_map col_idx cell_text else col_map)
  end.

(** The loop over the configured column letters of a sheet without
    heading row. *)
Fixpoint map_letters (cols : list (string * FieldParser))
    (col_map : list (nat * string)) : result (list (nat * string)) :=
  match cols with
  | [] => Ok col_map
  | (name, _) :: cols' =>
      rbind (column_name_to_index name) (fun col_idx =>
      map_letters cols' (dict_set col_map col_idx name))
  end.

(** The loop that sets the base date on the parsers of [col_map] that
    have day offsets. *)
Fixpoint set_date_bases (col_map : list (nat * string)) (start_date : Z)
    (cols : list (string * FieldParser))
  : result (list (string * FieldParser)) :=
  match col_map with
  | [] => Ok cols
  | (_, name) :: col_map' =>
      match dict_get cols name with
      | Some parser =>
          if bool_decide (day_offsets parser = ∅)
          then set_date_bases col_map' start_date cols
          else rbind (set_date_basis parser start_date) (fun parser' =>
               set_date_bases col_map' start_date (dict_set cols name parser'))
      | None => set_date_bases col_map' start_date cols
      end
  end.

(** The record a row starts from: the fixed values of the
    configuration ([read_config] only stores texts there). *)
Definition seed_record (config : gmap string Yaml) : record :=
  fold_left (fun (r : record) field =>
               match config !! field with
               | Some (YStr s) => <[field := VStr s]> r
               | _ => r
               end) ["surgical_pathway"; "surgical_consultant"] ∅.

(** The loop over the mapped columns of one row. *)
Fixpoint parse_row (cols : list (string * FieldParser)) (sheet : Sheet.t)
    (row : Row.t) (col_map : list (nat * string)) (verbose : Z)
    (r last_record : record) : P record :=
  match col_map with
  | [] => pret r
  | (col_idx, name) :: col_map' =>
      if Z.of_nat col_idx >=? Row.len row
      then parse_row cols sheet row col_map' verbose r last_record
      else
        match dict_get cols name with
        | Some parser =>
            cell <- plift (Row.cell row col_idx) ;;
            print_if (4 <=? verbose)
              (OutAddCell col_idx (db_col_name parser) (Cell.value cell)) ;;;
            r <- parse_cell parser sheet cell r (Some last_record) ;;
            parse_row cols sheet row col_map' verbose r last_record
        | None => praise KeyError
        end
  end.

(** What [ingest_sheet] does with a finished record. *)
Definition persist_record (r : record) (session : Session) (verbose : Z)
    (row_number : Z) : M Session :=
  complete <~ lift (has_required_fields r verbose) ;;
  if complete : bool then
    let procedure := procedure_constructor r in
    found <~ find_existing procedure session ;;
    let '(session, existing) := found in
    try_except
      (session <~
         match existing with
         | Some i =>
             lift (print_if (1 <=? verbose) OutUpdatingExisting) ~;;
             mret_ (update_existing session i procedure.(attrs))
         | None =>
             lift (print_if (1 <=? verbose) OutAddingNew) ~;;
             mret_ (Db.add session procedure.(attrs) procedure.(patient))
         end ;;
       Db.commit session)
      (fun e =>
         lift (print (OutIgnoringRow row_number e)) ~;;
         Db.rollback session)
  else mret_ session.

(** The loop over the data rows. *)
Fixpoint ingest_rows (cols : list (string * FieldParser)) (sheet : Sheet.t)
    (config : gmap string Yaml) (col_map : list (nat * string))
    (verbose row_offset : Z) (rows : list Row.t) (row_idx : nat)
    (last_record : record) (session : Session) : M Session :=
  match rows with
  | [] => mret_ session
  | row :: rows' =>
      procedure_record <~
        lift (parse_row cols sheet row col_map verbose
                (seed_record config) last_record) ;;
      session <~ persist_record procedure_record session verbose
                   (row_offset + Z.of_nat row_idx) ;;
      ingest_rows cols sheet config col_map verbose row_offset rows'
        (S row_idx) procedure_record session
  end.

(** [ingest_sheet].  The parsers, which [set_date_basis] changes in
    place, and the session are returned. *)
Definition ingest_sheet (sheet : Sheet.t) (config : Config)
    (session : Session) (verbose : Z) : M (Config * Session) :=
  lift (print_if (1 <=? verbose) (OutIngestingSheet (Sheet.title sheet))) ~;;
  let header_row_number := heading_row (globals config) in
  col_map <~
    (if 0 <? header_row_number then
       header_row <~ lift (plift (Sheet.row sheet (header_row_number - 1))) ;;
       lift (map_headings (columns config) (Row.cells header_row)
               0 verbose [])
     else lift (plift (map_letters (columns config) []))) ;;
  match col_map with
  | [] =>
      lift (print (OutNoRecognisedColumns (Sheet.title sheet))) ~;;
      mret_ (config, session)
  | _ :: _ =>
      lift (print_if (1 <=? verbose) (OutFoundColumns col_map)) ~;;
      cols <~
        match globals config !! "week_start_date_cell" with
        | Some (YStr name) =>
            cell <~ lift (plift (Sheet.cell_named sheet name)) ;;
            let start_date := Cell.value cell in
            if truthy start_date then
              match start_date with
              | VStr s =>
                  parsed <~ lift (plift (parse_date s false)) ;;
                  lift (plift (set_date_bases col_map (fst parsed)
                                 (columns config)))
              | _ => mraise TypeError
              end
            else mret_ (columns config)
        | _ => mret_ (columns config)
        end ;;
      let row_offset := header_row_number + 1 in
      session <~ ingest_rows cols sheet (globals config) col_map verbose
                   row_offset (Sheet.rows sheet (row_offset - 1)) 0 ∅
                   session ;;
      mret_ ({| globals := globals config; columns := cols |}, session)
  end.

(** [with Session.scope() as session: body]: a session on the
    database, committed when the body ends; an exception discards
    what was not committed and goes on up. *)
Definition session_scope {A} (body : Session -> M (A * Session)) : M A :=
  fun db =>
    match body (Db.open_session db) db with
    | (out, db', Ok (a, session)) =>
        match Db.commit session db' with
        | (out', db'', Ok _) => (out ++ out', db'', Ok a)
        | (out', db'', Raise e) => (out ++ out', db'', Raise e)
        end
    | (out, db', Raise e) => (out, db', Raise e)
    end.

(** [not config['sheets'] or sheet.title.strip() in config['sheets']]. *)
Definition sheet_selected (config : gmap string Yaml) (sheet : Sheet.t)
  : bool :=
  match config !! "sheets" with
  | Some (YList items) =>
      match items with
      | [] => true
      | _ => existsb (fun item =>
                        match item with
                        | YStr s => String.eqb s (Str.strip (Sheet.title sheet))
                        | _ => false
                        end) items
      end
  | _ => true
  end.

(** The loop of [ingest_file] over the sheets of the workbook. *)
Fixpoint ingest_sheets (config : Config) (sheets : list Sheet.t)
    (verbose : Z) : M unit :=
  match sheets with
  | [] => mret_ tt
  | sheet :: sheets' =>
      if sheet_selected (globals config) sheet then
        config' <~ session_scope (fun session =>
                     ingest_sheet sheet config session verbose) ;;
        ingest_sheets config' sheets' verbose
      else ingest_sheets config sheets' verbose
  end.

(** [ingest_file], applied to the loaded configuration file and the
    sheets of the opened workbook. *)
Definition ingest_file (file_path config_file_path : string)
    (contents : Contents) (book : list Sheet.t) (verbose : Z) : M unit :=
  lift (print_if (1 <=? verbose)
          (OutOpeningWorkbook file_path config_file_path)) ~;;
  config <~ lift (plift (read_config contents)) ;;
  ingest_sheets config book verbose.

End Ingester.

(** ** The [.xlsx] backend ([excel/xlsx.py]) *)

Module Xlsx.

(** A font colour as the spreadsheet library gives it. *)
Inductive Colour : Type :=
| RgbColour (rgb : string)
| IndexedColour (indexed : nat)
| ThemeColour (theme : nat) (tint : Z).

(** What the spreadsheet library holds for a cell. *)
Record RawCell : Type := {
  raw_value : Value;
  font_strike : Value;
  font_color : option Colour
}.

Definition blank_cell : RawCell :=
  {| raw_value := VNone; font_strike := VNone; font_color := None |}.

Record RawSheet : Type := {
  raw_title : string;
  raw_rows : list (list RawCell)
}.

Section Workbook.

(** The library's table of indexed colours, the theme colours after
    the tint is applied (floating point arithmetic that is not
    modelled), and [openpyxl.utils.coordinate_to_tuple]. *)
Variable COLOR_INDEX : list string.
Variable theme_colour : nat -> Z -> string.
Variable coordinate_to_tuple : string -> result (positive * positive).

(** [s[2:]]. *)
Definition drop_alpha (s : string) : string :=
  Str.text (drop 2 (Str.chars s)).

(** [Workbook.convert_colour]. *)
Definition convert_colour (colour : option Colour) : result string :=
  match colour with
  | None => Ok "ffffff"
  | Some (RgbColour rgb) => Ok (drop_alpha rgb)
  | Some (IndexedColour indexed) =>
      match COLOR_INDEX !! indexed with
      | Some c => Ok (drop_alpha c)
      | None => Raise IndexError
      end
  | Some (ThemeColour theme tint) => Ok (theme_colour theme tint)
  end.

(** [Font]: the strike and foreground properties are implemented. *)
Definition font (c : RawCell) : Font.t :=
  {| Font.strike := Ok (font_strike c);
     Font.background := Raise NotImplementedError;
     Font.foreground := rbind (convert_colour (font_color c))
                          (fun hex => Ok (VStr hex));
     Font.red := Raise NotImplementedError |}.

(** [Cell] for the raw cell at a 0-based position. *)
Definition cell (row col : Z) (c : RawCell) : Cell.t :=
  {| Cell.value := raw_value c;
     Cell.row := Ok row;
     Cell.col := Ok col;
     Cell.font := font c |}.

Definition row (idx : nat) (cells : list RawCell) : Row.t :=
  {| Row.cells := imap (fun col c => cell (Z.of_nat idx) (Z.of_nat col) c)
                    cells |}.

(** The raw cell at a 0-based position; the library makes an empty
    cell where the sheet has none. *)
Definition raw_cell (s : RawSheet) (r c : nat) : RawCell :=
  default blank_cell (raw_rows s !! r ≫= fun cells => cells !! c).

(** [Sheet]. *)
Definition sheet (s : RawSheet) : Sheet.t :=
  {| Sheet.title := raw_title s;
     Sheet.rows := fun skip_rows =>
       drop (Z.to_nat skip_rows) (imap row (raw_rows s));
     Sheet.row := fun idx =>
       if idx <? 0 then Raise IndexError
       else Ok (row (Z.to_nat idx)
                  (default [] (raw_rows s !! Z.to_nat idx)));
     Sheet.cell := fun r c =>
       if (r <? 0) || (c <? 0) then Raise (ValueError "")
       else Ok (cell r c (raw_cell s (Z.to_nat r) (Z.to_nat c)));
     Sheet.cell_named := fun name =>
       rbind (coordinate_to_tuple name) (fun rc =>
       let r := (Pos.to_nat (fst rc) - 1)%nat in
       let c := (Pos.to_nat (snd rc) - 1)%nat in
       Ok (cell (Z.of_nat r) (Z.of_nat c) (raw_cell s r c))) |}.

End Workbook.

End Xlsx.

(** ** Colour codes ([excel/common.py]) *)

Module Common.

(** The digit of a value below 16, in lower case. *)
Definition hex_char (d : Z) : ascii :=
  ascii_of_N (Z.to_N (if d <? 10 then 48 + d else 87 + d)).

(** The digits of [n], most significant first, in front of [acc]. *)
Fixpoint hex_chars (fuel : nat) (n : Z) (acc : list ascii) : list ascii :=
  match fuel with
  | O => acc
  | S fuel' =>
      let acc' := hex_char (n mod 16) :: acc in
      if n / 16 =? 0 then acc' else hex_chars fuel' (n / 16) acc'
  end.

(** [format(n, 'x')] for [n] that is not negative. *)
Definition format_x (n : Z) : list ascii :=
  hex_chars (S (Z.to_nat (Z.log2 n))) n [].

(** ['{:02x}'.format(n)]: zeros fill up to two characters, the sign
    included. *)
Definition format_02x (n : Z) : list ascii :=
  if n <? 0 then "-"%char :: format_x (- n)
  else match format_x n with
       | [d] => ["0"%char; d]
       | ds => ds
       end.

(** [rgb2hex]. *)
Definition rgb2hex (colour : Z * Z * Z) : string :=
  let '(r, g, b) := colour in
  Str.text (format_02x r ++ format_02x g ++ format_02x b).

(** The value of a hexadecimal digit. *)
Definition hex_digit (a : ascii) : option Z :=
  let n := Z.of_N (N_of_ascii a) in
  if (48 <=? n) && (n <=? 57) then Some (n - 48)
  else if (97 <=? n) && (n <=? 102) then Some (n - 87)
  else if (65 <=? n) && (n <=? 70) then Some (n - 55)
  else None.

(** The whitespace [int] skips around a literal. *)
Definition int_space (a : ascii) : bool :=
  let n := N_of_ascii a in
  (((9 <=? n) && (n <=? 13)) || (n =? 32) || (n =? 133) || (n =? 160))%N.

Fixpoint skip_int_space (l : list ascii) : list ascii :=
  match l with
  | a :: l' => if int_space a then skip_int_space l' else l
  | [] => []
  end.

(** The digits after the first one; one underscore may stand between
    two digits. *)
Fixpoint more_digits (l : list ascii) (acc : Z) : option Z :=
  match l with
  | [] => Some acc
  | a :: l' =>
      match hex_digit a with
      | Some d => more_digits l' (16 * acc + d)
      | None =>
          if Ascii.eqb a "_" then
            match l' with
            | b :: l'' =>
                match hex_digit b with
                | Some d => more_digits l'' (16 * acc + d)
                | None => None
                end
            | [] => None
            end
          else None
      end
  end.

(** [int(s, 16)]: whitespace around the literal, a sign, the prefix
    [0x] and single underscores between digits are accepted.  The text
    of the error is not modelled. *)
Definition int16 (s : string) : result Z :=
  let l := rev (skip_int_space (rev (skip_int_space (Str.chars s)))) in
  let '(negative, l) :=
    match l with
    | a :: l' =>
        if Ascii.eqb a "-" then (true, l')
        else if Ascii.eqb a "+" then (false, l')
        else (false, l)
    | [] => (false, l)
    end in
  let l :=
    match l with
    | a :: x :: l' =>
        if Ascii.eqb a "0" && (Ascii.eqb x "x" || Ascii.eqb x "X") then
          match l' with
          | u :: l'' => if Ascii.eqb u "_" then l'' else l'
          | [] => l'
          end
        else l
    | _ => l
    end in
  match l with
  | a :: l' =>
      match hex_digit a with
      | Some d =>
          match more_digits l' d with
          | Some n => Ok (if negative : bool then - n else n)
          | None => Raise (ValueError "invalid literal for int() with base 16")
          end
      | None => Raise (ValueError "invalid literal for int() with base 16")
      end
  | [] => Raise (ValueError "invalid literal for int() with base 16")
  end.

(** [s[i:j]] for bounds that are not negative. *)
Definition slice (s : string) (i j : nat) : string :=
  Str.text (take (j - i) (drop i (Str.chars s))).

(** [hex2rgb]. *)
Definition hex2rgb (colour : string) : result (Z * Z * Z) :=
  let hex2int (offset : nat) := int16 (slice colour offset (offset + 2)) in
  rbind (hex2int 0%nat) (fun r =>
  rbind (hex2int 2%nat) (fun g =>
  rbind (hex2int 4%nat) (fun b =>
  Ok (r, g, b)))).

End Common.


(** ** The [.xls] backend ([excel/xls.py]) *)

Module Xls.

(** What the spreadsheet library holds for a workbook read with its
    formatting: the fonts, the cell formats and the colour map, whose
    entries are RGB triples or [None]. *)
Record XFont : Type := {
  struck_out : Z;
  colour_index : Z
}.

Record XFBackground : Type := {
  fill_pattern : Z;
  background_colour_index : Z;
  pattern_colour_index : Z
}.

Record XF : Type := {
  font_index : nat;
  xf_background : XFBackground
}.

Record Book : Type := {
  font_list : list XFont;
  xf_list : list XF;
  colour_map : gmap Z (option (Z * Z * Z));
  datemode : Z
}.

(** A cell of the library: its type code, its value, its format. *)
Record RawCell : Type := {
  ctype : Z;
  raw_value : Value;
  xf_index : nat
}.

Definition XL_CELL_DATE : Z := 3.
Definition XL_CELL_BOOLEAN : Z := 4.

Section Workbook.

(** [xlrd.xldate_as_tuple], of which the year, the month and the day
    are used, and [datetime.date], which gives the date of a year, a
    month and a day or raises. *)
Variable xldate_as_tuple : Value -> Z -> result (Z * Z * Z).
Variable date : Z -> Z -> Z -> result Z.

Variable book : Book.

(** [l[i]] for an index that is not negative. *)
Definition item {A} (l : list A) (i : nat) : result A :=
  match l !! i with
  | Some x => Ok x
  | None => Raise IndexError
  end.

(** [book.font_list[book.xf_list[cell.xf_index].font_index]]. *)
Definition cell_font (c : RawCell) : result XFont :=
  rbind (item (xf_list book) (xf_index c)) (fun xf =>
  item (font_list book) (font_index xf)).

(** [book.colour_map[index]]. *)
Definition colour_at (index : Z) : result (option (Z * Z * Z)) :=
  match colour_map book !! index with
  | Some colour => Ok colour
  | None => Raise KeyError
  end.

(** [Font.strike]. *)
Definition strike (c : RawCell) : result Value :=
  rbind (cell_font c) (fun font =>
  Ok (VBool (negb (struck_out font =? 0)))).

(** [Font.background]. *)
Definition background (c : RawCell) : result Value :=
  rbind (item (xf_list book) (xf_index c)) (fun xf =>
  let bg := xf_background xf in
  rbind (if fill_pattern bg =? 0
         then colour_at (background_colour_index bg)
         else if fill_pattern bg =? 1
         then colour_at (pattern_colour_index bg)
         else Ok None) (fun colour =>
  match colour with
  | Some rgb => Ok (VStr (Common.rgb2hex rgb))
  | None => Ok (VStr "ffffff")
  end)).

(** [Font.foreground]: the function it calls, [_rgb2hex], is not
    defined anywhere. *)
Definition foreground (c : RawCell) : result Value :=
  rbind (cell_font c) (fun font =>
  rbind (colour_at (colour_index font)) (fun colour =>
  Raise NameError)).

(** [Font.red], [colour and colour[0] > 200]. *)
Definition red (c : RawCell) : result Value :=
  rbind (cell_font c) (fun font =>
  rbind (colour_at (colour_index font)) (fun colour =>
  match colour with
  | Some (r, _, _) => Ok (VBool (200 <? r))
  | None => Ok VNone
  end)).

Definition font (c : RawCell) : Font.t :=
  {| Font.strike := strike c;
     Font.background := background c;
     Font.foreground := foreground c;
     Font.red := red c |}.

(** [Cell.value]. *)
Definition value (c : RawCell) : result Value :=
  if ctype c =? XL_CELL_DATE then
    rbind (xldate_as_tuple (raw_value c) (datemode book)) (fun ymd =>
    let '(y, m, d) := ymd in
    rbind (date y m d) (fun ordinal => Ok (VDate ordinal)))
  else if ctype c =? XL_CELL_BOOLEAN then Ok (VBool (truthy (raw_value c)))
  else Ok (raw_value c).

(** [Cell] for a cell whose value can be read.  The position of a
    cell is not implemented. *)
Definition cell (c : RawCell) : result Cell.t :=
  rbind (value c) (fun v =>
  Ok {| Cell.value := v;
        Cell.row := Raise NotImplementedError;
        Cell.col := Raise NotImplementedError;
        Cell.font := font c |}).

End Workbook.

End Xls.

(** ** Sample library functions and sheets

    Finite stand-ins for the date library and the spreadsheet library,
    enough to run the definitions on concrete files. *)

Module Sample.

(** 2024-01-05 is ordinal 738890. *)
Definition strptime (s fmt : string) : result (Z * Z) :=
  if String.eqb fmt "%Y-%m-%d" && String.eqb s "2024-01-05"
  then Ok (738890, 0)
  else if String.eqb fmt "%d.%m.%Y" && String.eqb s "05.01.2024"
  then Ok (738890, 0)
  else Raise (ValueError "time data does not match format").

Definition parse_date (s : string) (dayfirst : bool) : result (Z * Z) :=
  if String.eqb s "5 Jan 2024" then Ok (738890, 0)
  else if String.eqb s "2024-01-01" then Ok (738886, 0)
  else if String.eqb s "2024-01-05" then Ok (738890, 0)
  else Raise (ValueError "Unknown string format").

Definition date_str (d : Z) : string :=
  if d =? 738890 then "2024-01-05" else "date " +:+ pretty.pretty d.

Definition datetime_str (d t : Z) : string :=
  date_str d +:+ " " +:+ pretty.pretty t.

Definition column_index_from_string (name : string) : result positive :=
  match name with
  | String a EmptyString =>
      let n := N_of_ascii (Str.lower_char a) in
      if ((97 <=? n) && (n <=? 122))%N
      then Ok (N.succ_pos (n - 97))
      else Raise (ValueError "not a valid column name")
  | _ => Raise (ValueError "not a valid column name")
  end.

Definition coordinate_to_tuple (name : string)
  : result (positive * positive) :=
  if String.eqb name "A1" then Ok (1%positive, 1%positive)
  else Raise (ValueError "not a valid coordinate").

Definition xlsx_sheet : Xlsx.RawSheet -> Sheet.t :=
  Xlsx.sheet [] (fun _ _ => "000000") coordinate_to_tuple.

Definition xlsx_cell : Z -> Z -> Xlsx.RawCell -> Cell.t :=
  Xlsx.cell [] (fun _ _ => "000000").

(** A cell with text and default formatting. *)
Definition text_cell (s : string) : Xlsx.RawCell :=
  {| Xlsx.raw_value := VStr s;
     Xlsx.font_strike := VNone;
     Xlsx.font_color := None |}.

Definition parse_cell :=
  parse_cell strptime parse_date.

Definition parser (db_col_name : string) (args : ParserArgs) : FieldParser :=
  match FieldParser_init db_col_name args with
  | Ok p => p
  | Raise _ =>
      {| db_col_name := db_col_name;
         db_col := Column.declare db_col_name Text false None None None;
         db_col_type := "Text";
         extra_column_name := None;
         data_insert_method := replace;
         propagate_missing_values := false;
         check_next_first := false;
         cancellation_mark := None;
         cancellation_colours := ∅;
         extra_date_formats := [];
         day_offsets := ∅;
         value_transformers := ∅ |}
  end.

End Sample.

(** ** Notions used to state the properties *)

(** The database and the result a computation ends with. *)
Definition run {A} (m : M A) (db : Store) : Store * result A :=
  (snd (fst (m db)), snd (m db)).

(** The natural key of a stored procedure row. *)
Definition key_of (row : obj) : Value * Value * Value :=
  (getattr row "idmrn", getattr row "surgical_procedure",
   getattr row "surgical_date").

(** The completeness check as a boolean. *)
Definition complete (r : gmap string Value) : bool :=
  forallb (fun field => negb (is_required field)
                        || truthy (get r (Column.name field)))
    all_db_columns.

(** What reconciliation does to the database for a candidate, on a
    session without pending changes: the matching row is updated; when
    there is none, the candidate is merged and committed, or rolled
    back when the commit fails. *)
Definition reconcile (procedure : ProcedureObj) (db : Store)
  : Store * result unit :=
  match matching_rows procedure.(attrs) (procedures db) 0 with
  | [] =>
      let session := fst (Db.merge (Db.open_session db) procedure.(attrs)
                            procedure.(patient)) in
      if forallb (Db.flush_ok (work session)) (flush_list session)
      then (work session, Ok tt)
      else (db, Ok tt)
  | [i] =>
      (work (update_existing (Db.open_session db) i procedure.(attrs)), Ok tt)
  | _ => (db, Raise MultipleResultsFound)
  end.

(** [db1] is a later state of [db]: the rows of [db] are still there
    with their natural keys, a key that is found in [db] is found in
    the same rows of [db1], and no row was added without a date. *)
Record evolves (db db1 : Store) : Prop := {
  evolves_prefix :
    exists extra,
      map key_of (procedures db1) = map key_of (procedures db) ++ extra;
  evolves_found :
    forall self,
      matching_rows self (procedures db) 0 <> [] ->
      matching_rows self (procedures db1) 0
      = matching_rows self (procedures db) 0;
  evolves_null_date :
    forall self,
      getattr self "surgical_date" = VNone ->
      matching_rows self (procedures db1) 0
      = matching_rows self (procedures db) 0
}.

(** While a file is ingested again on the database [db1] that its first
    ingestion gave: [dbT] is the database of the second pass at the
    point where the first pass had the database [db].  The two passes
    agree on the patients and the identities, and every attribute of a
    procedure row of [dbT] is the one [db1] has or the one [db] has. *)
Record tracks (db1 db dbT : Store) : Prop := {
  tracks_patients : patients dbT = patients db1;
  tracks_next_id : next_procedure_id dbT = next_procedure_id db1;
  tracks_length : length (procedures dbT) = length (procedures db1);
  tracks_rows :
    forall i t s1 name,
      procedures dbT !! i = Some t ->
      procedures db1 !! i = Some s1 ->
      t !! name = s1 !! name
      \/ exists s, procedures db !! i = Some s /\ t !! name = s !! name
}.

(** What reconciliation relies on in a candidate: its patient has a
    text as key and satisfies the constraints of the patient table,
    alone or merged into a stored row, and the procedure satisfies the
    constraints of its table exactly when it has a date. *)
Definition valid_candidate (c : ProcedureObj) : Prop :=
  (exists k, getattr c.(patient) "idmrn" = VStr k)
  /\ (forall existing,
        not_null_ok Patient.columns (c.(patient) ∪ existing) = true)
  /\ not_null_ok Patient.columns c.(patient) = true
  /\ (forall db,
        not_null_ok Procedure.columns (Db.new_row db c.(attrs))
        = negb (is_none (getattr c.(attrs) "surgical_date"))).

(** A computation [F] on the database is replayed by the second pass:
    when the first pass takes [db] to [db'] with result [b], then [db']
    is a later state of [db], and from every database [dbT] that tracks
    the first pass at [db], the second pass ends normally in a database
    that tracks the first pass at [db'].  Its result is [b] with the
    session, if there is one, that belongs to its own database. *)
Definition replays {B} (retarget : B -> Store -> B)
    (F : Store -> Store * result B) : Prop :=
  forall db db' b,
    F db = (db', Ok b) ->
    b = retarget b db'
    /\ evolves db db'
    /\ forall db1 dbT,
         evolves db' db1 -> tracks db1 db dbT ->
         exists dbT',
           F dbT = (dbT', Ok (retarget b dbT')) /\ tracks db1 db' dbT'.

(** [F], and then [K] on its result. *)
Definition and_then {A B} (F : Store -> Store * result A)
    (K : A -> Store -> Store * result B) (db : Store) : Store * result B :=
  match F db with
  | (db', Ok a) => K a db'
  | (db', Raise e) => (db', Raise e)
  end.

(** A computation that leaves the database alone and does not depend
    on it. *)
Definition pure {A} (m : M A) : Prop :=
  exists res, forall db, run m db = (db, res).

(** The entries a parser may change, and how: its own column and its
    second column freely, the flag [cancelled] only by setting it. *)
Definition changes_within (self : FieldParser) (r r' : gmap string Value)
  : Prop :=
  forall key,
    key <> db_col_name self -> extra_column_name self <> Some key ->
    r' !! key = r !! key
    \/ (key = "cancelled" /\ r' !! key = Some (VBool true)).

(** The key under which [read_config] files a column definition. *)
Definition excel_name (headerless : bool) (col_def : ColumnDef)
  : option string :=
  Str.strip <$> (if headerless then excel_column col_def
                 else excel_heading col_def).

(** The text [ingest_sheet] compares with the configured headings. *)
Definition heading_text (date_str : Z -> string)
    (datetime_str : Z -> Z -> string) (cell : Cell.t) : string :=
  Str.strip (py_str date_str datetime_str (Cell.value cell)).

(** The entries the loop over the heading row adds to the column map:
    the cells whose text is a configured heading, with their
    positions. *)
Fixpoint heading_entries (date_str : Z -> string)
    (datetime_str : Z -> Z -> string) (cols : list (string * FieldParser))
    (cells : list Cell.t) (col_idx : nat) : list (nat * string) :=
  match cells with
  | [] => []
  | cell :: cells' =>
      (if bool_decide (is_Some (dict_get cols
                                  (heading_text date_str datetime_str cell)))
       then [(col_idx, heading_text date_str datetime_str cell)] else [])
      ++ heading_entries date_str datetime_str cols cells' (S col_idx)
  end.

(** A value a column of the given type can hold once
    [augment_argument_map] has converted it. *)
Definition value_fits (ty : ColType) (v : Value) : bool :=
  match ty, v with
  | (String_ _ | Text), VStr _ => true
  | Boolean, VBool _ => true
  | Date, (VDate _ | VDateTime _ _ | VNone) => true
  | Integer, v => negb (is_none v)
  | _, _ => false
  end.


(** ** Sample parsers and cells *)

Definition args_with_dates : ParserArgs :=
  {| arg_extra_column := None;
     arg_data_insert_method := "replace";
     arg_propagate_missing_values := false;
     arg_check_next_first := false;
     arg_cancellation_mark := Some "strike";
     arg_cancellation_colours := [];
     arg_extra_date_formats := ["%d.%m.%Y"; "%Y-%m-%d"];
     arg_day_offsets := ∅ |}.



Definition empty_sheet : Sheet.t :=
  Sample.xlsx_sheet {| Xlsx.raw_title := "Sheet1"; Xlsx.raw_rows := [] |}.

Definition args_propagating (check_next_first : bool) : ParserArgs :=
  {| arg_extra_column := None;
     arg_data_insert_method := "replace";
     arg_propagate_missing_values := true;
     arg_check_next_first := check_next_first;
     arg_cancellation_mark := None;
     arg_cancellation_colours := [];
     arg_extra_date_formats := [];
     arg_day_offsets := ∅ |}.

(** A propagating parser for the consultant. *)
Definition consultant_parser (check_next_first : bool) : FieldParser :=
  Sample.parser "surgical_consultant" (args_propagating check_next_first).


Definition args_split : ParserArgs :=
  {| arg_extra_column := Some "patient_family_name";
     arg_data_insert_method := "replace";
     arg_propagate_missing_values := false;
     arg_check_next_first := false;
     arg_cancellation_mark := None;
     arg_cancellation_colours := [];
     arg_extra_date_formats := [];
     arg_day_offsets := ∅ |}.

(** A parser that splits a name cell into given and family name. *)
Definition name_parser : FieldParser :=
  Sample.parser "patient_given_name" args_split.

Definition args_foreground : ParserArgs :=
  {| arg_extra_column := None;
     arg_data_insert_method := "replace";
     arg_propagate_missing_values := false;
     arg_check_next_first := false;
     arg_cancellation_mark := Some "foreground";
     arg_cancellation_colours := ["FF0000"];
     arg_extra_date_formats := [];
     arg_day_offsets := ∅ |}.

(** A parser for which red text marks a cancellation. *)
Definition red_text_parser : FieldParser :=
  Sample.parser "surgical_procedure" args_foreground.

(** A cell whose font colour is stored as the RGB value [FFFF0000]. *)
Definition red_cell (s : string) : Xlsx.RawCell :=
  {| Xlsx.raw_value := VStr s;
     Xlsx.font_strike := VNone;
     Xlsx.font_color := Some (Xlsx.RgbColour "FFFF0000") |}.

Definition args_day_offsets : ParserArgs :=
  {| arg_extra_column := None;
     arg_data_insert_method := "replace";
     arg_propagate_missing_values := false;
     arg_check_next_first := false;
     arg_cancellation_mark := None;
     arg_cancellation_colours := [];
     arg_extra_date_formats := [];
     arg_day_offsets := {[ "Mon" := 0; "Tue" := 1 ]} |}.

(** A parser for the procedure date of a one-week-per-sheet layout,
    after the week's start date 2024-01-01 (ordinal 738886) is set. *)
Definition weekday_parser : FieldParser :=
  match set_date_basis (Sample.parser "surgical_date" args_day_offsets)
          738886 with
  | Ok p => p
  | Raise _ => Sample.parser "surgical_date" args_day_offsets
  end.

(** ** A sample workbook *)

Definition column_def (heading db_name : string) (args : ParserArgs)
  : ColumnDef :=
  {| excel_heading := Some heading;
     excel_column := None;
     column_name := Some db_name;
     parser_args := args |}.

(** A configuration with a fixed pathway and five columns: the name is
    split into given and family name, the date has explicit formats. *)
Definition sample_contents : Contents :=
  {| settings := {[ "surgical_pathway" := YStr "ortho" ]};
     column_defs :=
       [ column_def "Name" "patient_given_name" args_split;
         column_def "MRN" "idmrn" default_args;
         column_def "Date" "surgical_date" args_with_dates;
         column_def "Op" "surgical_procedure" default_args;
         column_def "Notes" "surgical_notes" default_args ] |}.

(** One sheet: a heading row, two rows for the same procedure of one
    patient, a row for another patient, and a row whose date cannot be
    read. *)
Definition sample_book : list Sheet.t :=
  [ Sample.xlsx_sheet
      {| Xlsx.raw_title := "Sheet1";
         Xlsx.raw_rows :=
           map (map Sample.text_cell)
             [ ["Name"; "MRN"; "Date"; "Op"; "Notes"];
               ["Smith Alice"; "001"; "2024-01-05"; "Knee"; "first"];
               ["Smith Alice"; "001"; "05.01.2024"; "Knee"; "revised"];
               ["Jones Bob"; "002"; "2024-01-05"; "Hip"; "left"];
               ["Jones Bob"; "002"; "soon"; "Hip"; "right"] ] |} ].

Definition sample_ingest (db : Store) : list Output * Store * result unit :=
  ingest_file Sample.strptime Sample.parse_date Sample.date_str
    Sample.datetime_str Sample.column_index_from_string
    "list.xlsx" "list.yaml" sample_contents sample_book 0 db.

(** The database after the sample workbook is ingested into an empty
    one. *)
Definition sample_store : Store := snd (fst (sample_ingest empty_store)).

(** ** More sample parsers, cells and sheets *)

Definition args_background : ParserArgs :=
  {| arg_extra_column := None;
     arg_data_insert_method := "replace";
     arg_propagate_missing_values := false;
     arg_check_next_first := false;
     arg_cancellation_mark := Some "background";
     arg_cancellation_colours := ["FF0000"];
     arg_extra_date_formats := [];
     arg_day_offsets := ∅ |}.

Definition shaded_date_parser : FieldParser :=
  Sample.parser "surgical_date" args_background.

Definition shaded_procedure_parser : FieldParser :=
  Sample.parser "surgical_procedure" args_background.

(** A workbook in the legacy format with two fonts, the second struck
    out, and three cell formats: plain, patterned with colour 10, and
    plain with the second font. *)
Definition sample_xls_book : Xls.Book :=
  {| Xls.font_list :=
       [ {| Xls.struck_out := 0; Xls.colour_index := 8 |};
         {| Xls.struck_out := 1; Xls.colour_index := 10 |} ];
     Xls.xf_list :=
       [ {| Xls.font_index := 0%nat;
            Xls.xf_background :=
              {| Xls.fill_pattern := 0;
                 Xls.background_colour_index := 65;
                 Xls.pattern_colour_index := 64 |} |};
         {| Xls.font_index := 0%nat;
            Xls.xf_background :=
              {| Xls.fill_pattern := 1;
                 Xls.background_colour_index := 64;
                 Xls.pattern_colour_index := 10 |} |};
         {| Xls.font_index := 1%nat;
            Xls.xf_background :=
              {| Xls.fill_pattern := 0;
                 Xls.background_colour_index := 65;
                 Xls.pattern_colour_index := 64 |} |} ];
     Xls.colour_map :=
       {[ 8 := Some (0, 0, 0); 10 := Some (255, 0, 0);
          64 := None; 65 := None ]};
     Xls.datemode := 0 |}.

Definition xls_text_cell (s : string) (xf_index : nat) : Xls.RawCell :=
  {| Xls.ctype := 1; Xls.raw_value := VStr s; Xls.xf_index := xf_index |}.

(** The cell of the sample workbook for a raw cell whose value can be
    read, a cell without value otherwise. *)
Definition sample_xls_cell (c : Xls.RawCell) : Cell.t :=
  match Xls.cell (fun _ _ => Raise (ValueError "not a date"))
          (fun _ _ _ => Raise (ValueError "not a date")) sample_xls_book c with
  | Ok cell => cell
  | Raise _ =>
      {| Cell.value := VNone;
         Cell.row := Raise NotImplementedError;
         Cell.col := Raise NotImplementedError;
         Cell.font := Xls.font sample_xls_book c |}
  end.

Definition args_foreground_plain : ParserArgs :=
  {| arg_extra_column := None;
     arg_data_insert_method := "replace";
     arg_propagate_missing_values := false;
     arg_check_next_first := false;
     arg_cancellation_mark := Some "foreground";
     arg_cancellation_colours := ["FF0000"];
     arg_extra_date_formats := [];
     arg_day_offsets := ∅ |}.

Definition args_bad_mark : ParserArgs :=
  {| arg_extra_column := None;
     arg_data_insert_method := "replace";
     arg_propagate_missing_values := false;
     arg_check_next_first := false;
     arg_cancellation_mark := Some "bold";
     arg_cancellation_colours := [];
     arg_extra_date_formats := [];
     arg_day_offsets := ∅ |}.

Definition args_unknown_extra : ParserArgs :=
  {| arg_extra_column := Some "patient_surname";
     arg_data_insert_method := "append";
     arg_propagate_missing_values := false;
     arg_check_next_first := false;
     arg_cancellation_mark := None;
     arg_cancellation_colours := [];
     arg_extra_date_formats := [];
     arg_day_offsets := ∅ |}.

(** The same parser after the next sheet has set the start date
    2024-01-08 (ordinal 738893). *)
Definition weekday_parser_next_week : FieldParser :=
  match set_date_basis weekday_parser 738893 with
  | Ok p => p
  | Raise _ => weekday_parser
  end.

Definition args_append : ParserArgs :=
  {| arg_extra_column := None;
     arg_data_insert_method := "append";
     arg_propagate_missing_values := false;
     arg_check_next_first := false;
     arg_cancellation_mark := None;
     arg_cancellation_colours := [];
     arg_extra_date_formats := [];
     arg_day_offsets := ∅ |}.

(** A parser that collects the notes of several columns. *)
Definition notes_parser : FieldParser :=
  Sample.parser "surgical_notes" args_append.

Definition pacu_parser : FieldParser :=
  Sample.parser "pacu_request" default_args.

(** The configuration of the sample workbook. *)
Definition sample_config : Config :=
  match read_config sample_contents with
  | Ok config => config
  | Raise _ => {| globals := ∅; columns := [] |}
  end.

(** A row of the sample workbook's only sheet. *)
Definition sample_row (idx : nat) (texts : list string) : Row.t :=
  Xlsx.row [] (fun _ _ => "000000") idx (map Sample.text_cell texts).

Definition sample_col_map : list (nat * string) :=
  [ (0%nat, "Name"); (1%nat, "MRN"); (2%nat, "Date"); (3%nat, "Op");
    (4%nat, "Notes") ].

(** A sheet whose headings the sample configuration does not know. *)
Definition unknown_headings_sheet : Sheet.t :=
  Sample.xlsx_sheet
    {| Xlsx.raw_title := "Notes";
       Xlsx.raw_rows := map (map Sample.text_cell)
                          [ ["Ward"; "Bed"]; ["A"; "12"] ] |}.

(** A one-week-per-sheet layout whose start-of-week cell [A1] holds a
    date instead of text. *)
Definition weekly_contents : Contents :=
  {| settings := {[ "heading_row" := YInt 2;
                    "week_start_date_cell" := YStr "A1" ]};
     column_defs :=
       [ column_def "MRN" "idmrn" default_args;
         column_def "Day" "surgical_date" args_day_offsets ] |}.

Definition weekly_config : Config :=
  match read_config weekly_contents with
  | Ok config => config
  | Raise _ => {| globals := ∅; columns := [] |}
  end.

Definition weekly_sheet : Sheet.t :=
  Sample.xlsx_sheet
    {| Xlsx.raw_title := "Week 1";
       Xlsx.raw_rows :=
         [ [ {| Xlsx.raw_value := VDate 738886;
                Xlsx.font_strike := VNone;
                Xlsx.font_color := None |} ];
           map Sample.text_cell ["MRN"; "Day"];
           map Sample.text_cell ["001"; "Mon"] ] |}.

(** A complete record whose procedure date is a number. *)
Definition numeric_date_record : gmap string Value :=
  {[ "idmrn" := VStr "001"; "patient_given_name" := VStr "Alice";
     "patient_family_name" := VStr "Smith";
     "surgical_procedure" := VStr "Knee";
     "surgical_pathway" := VStr "ortho";
     "surgical_date" := VInt 20240105 ]}.

(** A stored procedure by its natural key, a database that holds it
    twice, and a candidate with the same key. *)
Definition knee_row : obj :=
  {[ "idmrn" := VStr "001"; "surgical_procedure" := VStr "Knee";
     "surgical_date" := VDate 738890 ]}.

Definition twin_store : Store :=
  {| patients := ∅;
     procedures := [knee_row; knee_row];
     next_procedure_id := 3 |}.

Definition knee_candidate : ProcedureObj :=
  {| attrs := knee_row; patient := {[ "idmrn" := VStr "001" ]} |}.

Definition knee_record : gmap string Value :=
  {[ "idmrn" := VStr "001"; "patient_given_name" := VStr "Alice";
     "patient_family_name" := VStr "Smith";
     "surgical_procedure" := VStr "Knee";
     "surgical_pathway" := VStr "ortho";
     "surgical_date" := VDate 738890 ]}.

(** * Properties *)

(** ** Basic facts about dictionaries and objects *)

Lemma getattr_setattr_eq (o : obj) (name : string) (v : Value) :
  getattr (setattr o name v) name = v.
Proof. unfold getattr, setattr. by rewrite lookup_insert_eq. Qed.

Lemma getattr_setattr_ne (o : obj) (name name' : string) (v : Value) :
  name <> name' -> getattr (setattr o name v) name' = getattr o name'.
Proof. intros Hne. unfold getattr, setattr. by rewrite lookup_insert_ne. Qed.

Lemma is_none_true (v : Value) : is_none v = true <-> v = VNone.
Proof. destruct v; simpl; split; congruence. Qed.

Lemma is_none_false (v : Value) : is_none v = false <-> v <> VNone.
Proof. destruct v; simpl; split; congruence. Qed.

Lemma truthy_not_blank (v : Value) :
  truthy v = true -> v <> VNone /\ v <> VStr "".
Proof. destruct v; simpl; try (split; congruence).
  destruct (String.eqb_spec s ""); simpl; [congruence|].
  intros _. split; congruence.
Qed.

(** ** Update semantics of reconciliation *)

Section Update.

Variable other : obj.

Let step (self : obj) (col : Column.t) : obj :=
  if Column.autoincrement_is_not_True col then
    let new_val := getattr other (Column.name col) in
    if negb (is_none new_val)
    then setattr self (Column.name col) new_val
    else self
  else self.

(** The loop of [update] over any list of columns: an attribute is
    replaced exactly when it names a column of the list that is not
    the generated identity and the other object holds a value for it. *)
Lemma update_loop_lookup (cols : Table) (self : obj) (name : string) :
  fold_left step cols self !! name =
    if existsb (fun c => String.eqb (Column.name c) name
                         && Column.autoincrement_is_not_True c) cols
       && negb (is_none (getattr other name))
    then Some (getattr other name)
    else self !! name.
Proof.
  revert self. induction cols as [|c cols IH]; intros self; simpl.
  - done.
  - rewrite IH. unfold step.
    destruct (String.eqb_spec (Column.name c) name) as [->|Hne]; simpl.
    + destruct (Column.autoincrement_is_not_True c); simpl.
      * destruct (is_none (getattr other name)) eqn:Hn; simpl.
        -- by rewrite andb_false_r.
        -- rewrite andb_true_r. unfold setattr. rewrite lookup_insert_eq.
           by destruct (existsb _ cols).
      * done.
    + destruct (Column.autoincrement_is_not_True c); simpl; [|done].
      destruct (is_none (getattr other (Column.name c))); simpl; [done|].
      unfold setattr. by rewrite lookup_insert_ne.
Qed.

End Update.

Lemma update_lookup (self other : obj) (name : string) :
  update self other !! name =
    if existsb (fun c => String.eqb (Column.name c) name
                         && Column.autoincrement_is_not_True c)
         Procedure.columns
       && negb (is_none (getattr other name))
    then Some (getattr other name)
    else self !! name.
Proof. unfold update. apply update_loop_lookup. Qed.

(** C3.  [Procedure.update] on an existing record and a candidate: for
    every column of the procedure table other than the generated
    identity, the candidate's value is copied exactly when it is not
    null, and a null value of the candidate leaves the stored value as
    it was; the identity column, which is [procedure_id] alone, is
    never written. *)
Theorem update_copies_exactly_non_null (self other : obj) (col : Column.t) :
  In col Procedure.columns ->
  (Column.autoincrement col <> AutoTrue ->
   getattr other (Column.name col) <> VNone ->
   update self other !! Column.name col
     = Some (getattr other (Column.name col)))
  /\ (Column.autoincrement col <> AutoTrue ->
      getattr other (Column.name col) = VNone ->
      update self other !! Column.name col = self !! Column.name col)
  /\ (Column.autoincrement col = AutoTrue ->
      Column.name col = "procedure_id"
      /\ update self other !! Column.name col = self !! Column.name col).
Proof.
  intros Hin. rewrite update_lookup.
  simpl in Hin.
  repeat (destruct Hin as [<-|Hin]; [
    simpl; (split; [|split]); intros; simpl in *; try congruence;
    try (destruct (is_none (getattr other _)) eqn:Hn; simpl;
         [apply is_none_true in Hn; congruence | done]);
    try (destruct (is_none (getattr other _)) eqn:Hn; simpl;
         [done | apply is_none_false in Hn; congruence]);
    try (split; [done|]); done |]).
  destruct Hin.
Qed.

Lemma update_copies_exactly_non_null_witness :
  update {[ "surgical_notes" := VStr "old"; "cancelled" := VBool true ]}
         {[ "cancelled" := VBool false ]} !! "surgical_notes"
    = Some (VStr "old")
  /\ update {[ "surgical_notes" := VStr "old"; "cancelled" := VBool true ]}
            {[ "cancelled" := VBool false ]} !! "cancelled"
       = Some (VBool false).
Proof.
  split.
  - destruct (update_copies_exactly_non_null
                {[ "surgical_notes" := VStr "old"; "cancelled" := VBool true ]}
                {[ "cancelled" := VBool false ]}
                (Column.declare "surgical_notes" Text false (Some true)
                   None None)) as (_ & H & _).
    + simpl. tauto.
    + cbn [Column.name Column.declare Column.autoincrement] in H.
      rewrite H; [reflexivity | discriminate | reflexivity].
  - destruct (update_copies_exactly_non_null
                {[ "surgical_notes" := VStr "old"; "cancelled" := VBool true ]}
                {[ "cancelled" := VBool false ]}
                (Column.declare "cancelled" Boolean false (Some false) None
                   (Some (VBool false)))) as (H & _ & _).
    + simpl. tauto.
    + cbn [Column.name Column.declare Column.autoincrement] in H.
      rewrite H; [reflexivity | discriminate | vm_compute; discriminate].
Defined.

(** ** Configuration errors *)

Lemma read_globals_mistyped (contents : gmap string Yaml)
    (todo : list (string * PyType)) (config : gmap string Yaml) :
  (exists setting typ y,
      In (setting, typ) todo /\ contents !! setting = Some y
      /\ isinstance y typ = false) ->
  exists setting typ y,
    In (setting, typ) todo /\ contents !! setting = Some y
    /\ isinstance y typ = false
    /\ read_globals contents todo config
         = Raise (ValueError (wrong_type_message setting typ y)).
Proof.
  revert config. induction todo as [|[setting typ] todo IH]; intros config.
  - intros (? & ? & ? & [] & _).
  - intros (setting' & typ' & y' & Hin & Hy' & Hbad). simpl.
    destruct (contents !! setting) as [y|] eqn:Hy.
    + destruct (isinstance y typ) eqn:Hok.
      * destruct Hin as [Heq|Hin]; [congruence|].
        destruct (IH (<[setting:=y]> config)) as (s & t & v & ? & ? & ? & ?).
        { eauto 6. }
        exists s, t, v. auto.
      * exists setting, typ, y. auto.
    + destruct Hin as [Heq|Hin]; [congruence|].
      destruct (IH config) as (s & t & v & ? & ? & ? & ?).
      { eauto 6. }
      exists s, t, v. auto.
Qed.

(** The loop over the global settings reads the recognised keys only. *)
Lemma read_globals_ignores (contents contents' : gmap string Yaml)
    (todo : list (string * PyType)) (config : gmap string Yaml) :
  (forall setting typ, In (setting, typ) todo ->
     contents' !! setting = contents !! setting) ->
  read_globals contents' todo config = read_globals contents todo config.
Proof.
  revert config. induction todo as [|[setting typ] todo IH]; intros config H.
  - done.
  - simpl. rewrite (H setting typ) by (left; done).
    destruct (contents !! setting) as [y|]; [destruct (isinstance y typ)|];
      try done; apply IH; intros s' t' Hin'; apply (H s' t'); right; done.
Qed.

(** The recognised settings of a loaded file. *)
Definition recognised_only (contents : Contents) : Contents :=
  {| settings := filter (fun kv => In (fst kv) (map fst global_settings))
                   (settings contents);
     column_defs := column_defs contents |}.

Lemma read_config_recognised_only (contents : Contents) :
  read_config (recognised_only contents) = read_config contents.
Proof.
  unfold read_config, recognised_only; cbn [settings column_defs].
  rewrite (read_globals_ignores (settings contents)); [done|].
  intros setting typ Hin.
  destruct (settings contents !! setting) as [y|] eqn:Hy.
  - apply map_lookup_filter_Some. split; [done|]. simpl.
    apply (in_map fst) in Hin. exact Hin.
  - apply map_lookup_filter_None. left. done.
Qed.

Section ConfigurationErrors.

Variable strptime : string -> string -> result (Z * Z).
Variable parse_date : string -> bool -> result (Z * Z).
Variable date_str : Z -> string.
Variable datetime_str : Z -> Z -> string.
Variable column_index_from_string : string -> result positive.

(** A failing [read_config] ends [ingest_file] before the database is
    touched. *)
Lemma ingest_file_config_error (file_path config_file_path : string)
    (contents : Contents) (book : list Sheet.t) (verbose : Z) (e : Exn)
    (db : Store) :
  read_config contents = Raise e ->
  exists out,
    ingest_file strptime parse_date date_str datetime_str
      column_index_from_string file_path config_file_path contents book
      verbose db
    = (out, db, Raise e).
Proof.
  intros Hcfg. unfold ingest_file, mbind_, lift, plift, print_if.
  rewrite Hcfg. destruct (1 <=? verbose); simpl; eexists; reflexivity.
Qed.

(** C8, as amended.  Whenever a recognised global setting
    ([surgical_pathway], [surgical_consultant], [sheets],
    [week_start_date_cell], [heading_row]) has a value of the wrong
    type, [read_config] raises a [ValueError] whose message names the
    setting, the expected and the actual type, and [ingest_file] ends
    with that error before the database is touched.  A setting that
    is not recognised is ignored: the file reads as it does without
    it. *)
Theorem read_config_rejects_mistyped_settings (contents : Contents) :
  (exists setting typ y,
      In (setting, typ) global_settings
      /\ settings contents !! setting = Some y
      /\ isinstance y typ = false) ->
  (exists setting typ y,
      In (setting, typ) global_settings
      /\ settings contents !! setting = Some y
      /\ isinstance y typ = false
      /\ read_config contents
           = Raise (ValueError
                      ("Config setting " +:+ setting
                         +:+ " has wrong type; expected "
                         +:+ py_type_name typ +:+ ", got "
                         +:+ yaml_type_name y))
      /\ forall file_path config_file_path book verbose db,
           exists out,
             ingest_file strptime parse_date date_str datetime_str
               column_index_from_string file_path config_file_path
               contents book verbose db
             = (out, db,
                Raise (ValueError (wrong_type_message setting typ y))))
  /\ read_config (recognised_only contents) = read_config contents.
Proof.
  intros Hbad. split; [|apply read_config_recognised_only].
  destruct (read_globals_mistyped (settings contents) global_settings
              {["sheets" := YList []]} Hbad)
    as (setting & typ & y & Hin & Hy & Hty & Hraise).
  exists setting, typ, y. repeat split; try done.
  - unfold read_config. rewrite Hraise. reflexivity.
  - intros. apply ingest_file_config_error.
    unfold read_config. rewrite Hraise. reflexivity.
Qed.

End ConfigurationErrors.

Definition mistyped_contents : Contents :=
  {| settings := {[ "heading_row" := YStr "2"; "theatre" := YInt 7 ]};
     column_defs := [] |}.

Lemma read_config_rejects_mistyped_settings_witness :
  exists setting typ y,
    In (setting, typ) global_settings
    /\ settings mistyped_contents !! setting = Some y
    /\ isinstance y typ = false
    /\ read_config mistyped_contents
         = Raise (ValueError (wrong_type_message setting typ y)).
Proof.
  destruct (read_config_rejects_mistyped_settings
              Sample.strptime Sample.parse_date Sample.date_str
              Sample.datetime_str Sample.column_index_from_string
              mistyped_contents)
    as [(setting & typ & y & Hin & Hy & Hty & Hraise & _) _].
  - exists "heading_row", py_int_type, (YStr "2").
    split; [simpl; tauto|]. split; reflexivity.
  - exists setting, typ, y. auto.
Defined.

Example mistyped_heading_row_message :
  read_config mistyped_contents
    = Raise (ValueError
               "Config setting heading_row has wrong type; expected int, got str").
Proof. reflexivity. Qed.

Definition unknown_setting_contents : Contents :=
  {| settings := {[ "theatre" := YInt 7 ]}; column_defs := [] |}.

(** C8, as stated, fails: a file whose only global setting is unknown
    is read without error. *)
Lemma unknown_setting_is_accepted :
  settings unknown_setting_contents !! "theatre" = Some (YInt 7)
  /\ ~ In "theatre" (map fst global_settings)
  /\ read_config unknown_setting_contents
     = Ok {| globals := {[ "sheets" := YList [] ]}; columns := [] |}.
Proof.
  split; [reflexivity|]. split; [|reflexivity].
  simpl. intros H. repeat (destruct H as [H|H]; [discriminate H|]). exact H.
Qed.

(** ** Parsing one cell *)

Lemma pbind_ret {A B} (a : A) (k : A -> P B) : pbind (pret a) k = k a.
Proof. unfold pbind, pret. destruct (k a). reflexivity. Qed.

Lemma pbind_lift_ok {A B} (a : A) (k : A -> P B) :
  pbind (plift (Ok a)) k = k a.
Proof. apply pbind_ret. Qed.

Lemma pbind_lift_raise {A B} (e : Exn) (k : A -> P B) :
  pbind (plift (Raise e)) k = praise e.
Proof. reflexivity. Qed.

Lemma pbind_raise {A B} (e : Exn) (k : A -> P B) :
  pbind (praise e) k = praise e.
Proof. reflexivity. Qed.

Lemma pbind_assoc {A B C} (m : P A) (f : A -> P B) (g : B -> P C) :
  pbind (pbind m f) g = pbind m (fun a => pbind (f a) g).
Proof.
  unfold pbind. destruct m as [out [a|e]]; [|reflexivity].
  destruct (f a) as [out1 [b|e]]; [|reflexivity].
  destruct (g b) as [out2 r]. by rewrite app_assoc.
Qed.

Lemma pbind_plift {A B} (x : result A) (k : A -> P B) :
  pbind (plift x) k = match x with Ok a => k a | Raise e => praise e end.
Proof. destruct x; [apply pbind_lift_ok | reflexivity]. Qed.

Arguments pbind : simpl never.
Arguments pret : simpl never.
Arguments plift : simpl never.
Arguments praise : simpl never.

Section ParseCell.

Variable strptime : string -> string -> result (Z * Z).
Variable parse_date : string -> bool -> result (Z * Z).

Lemma parse_cell_at_S (depth : nat) (self : FieldParser) (sheet : Sheet.t)
    (cell : Cell.t) (r : gmap string Value)
    (previous_record : option (gmap string Value)) :
  parse_cell_at strptime parse_date (S depth) self sheet cell r
    previous_record
  = parse_cell_body strptime parse_date
      (fun next r =>
         parse_cell_at strptime parse_date depth self sheet next r None)
      self sheet cell r previous_record.
Proof. reflexivity. Qed.

(** *** Malformed dates *)



Lemma truthy_text (s : string) : s <> "" -> truthy (VStr s) = true.
Proof. intros Hne. simpl. by destruct (String.eqb_spec s ""). Qed.





(** *** Propagation *)

Lemma is_blank_cases (v : Value) :
  is_blank v = true -> v = VNone \/ v = VStr "".
Proof.
  destruct v; simpl; try discriminate; [by left|].
  destruct (String.eqb_spec s ""); [subst; by right | discriminate].
Qed.

(** A call whose previous record is [None] makes no nested call and
    does not look at the sheet. *)
Lemma parse_cell_body_no_previous
    (f g : Cell.t -> gmap string Value -> P (gmap string Value))
    (self : FieldParser) (sheet sheet' : Sheet.t) (cell : Cell.t)
    (r : gmap string Value) :
  parse_cell_body strptime parse_date f self sheet cell r None
  = parse_cell_body strptime parse_date g self sheet' cell r None.
Proof.
  unfold parse_cell_body.
  replace (bool_decide (@None (gmap string Value) <> None)) with false
    by (symmetry; apply bool_decide_eq_false; intros H; by apply H).
  rewrite andb_false_r. reflexivity.
Qed.

Lemma parse_cell_at_no_previous (depth : nat) (self : FieldParser)
    (sheet sheet' : Sheet.t) (cell : Cell.t) (r : gmap string Value) :
  parse_cell_at strptime parse_date (S depth) self sheet cell r None
  = parse_cell strptime parse_date self sheet' cell r None.
Proof.
  unfold parse_cell. rewrite !parse_cell_at_S.
  apply parse_cell_body_no_previous.
Qed.


(** [parse_cell] on a blank cell of a propagating column. *)
Lemma parse_cell_blank (self : FieldParser) (sheet : Sheet.t)
    (cell : Cell.t) (r : gmap string Value)
    (previous_record : option (gmap string Value)) :
  propagate_missing_values self = true ->
  is_blank (Cell.value cell) = true ->
  parse_cell strptime parse_date self sheet cell r previous_record
  = (r <- (if check_next_first self
              && bool_decide (previous_record <> None)
           then
             next <- plift (next_cell sheet cell) ;;
             parse_cell strptime parse_date self sheet next
               (<[db_col_name self := Cell.value cell]> r) None
           else pret (<[db_col_name self := Cell.value cell]> r)) ;;
     r <- plift (copy_previous self r previous_record) ;;
     plift (detect_cancellation self cell r)).
Proof.
  intros Hprop Hblank.
  unfold parse_cell at 1. rewrite parse_cell_at_S. unfold parse_cell_body.
  assert (truthy (Cell.value cell) = false) as Hfalsy.
  { destruct (is_blank_cases _ Hblank) as [-> | ->]; reflexivity. }
  unfold transform_value. rewrite Hfalsy, andb_false_r, pbind_lift_ok.
  assert (recover_date strptime parse_date self (Cell.value cell)
          = pret (Some (Cell.value cell))) as ->.
  { unfold recover_date.
    destruct (is_blank_cases _ Hblank) as [-> | ->]; [done|].
    by rewrite andb_false_r. }
  rewrite pbind_ret.
  assert (coerce_boolean self (coerce_datetime self (Cell.value cell))
          = Cell.value cell) as ->.
  { destruct (is_blank_cases _ Hblank) as [-> | ->]; [done|].
    unfold coerce_datetime, coerce_boolean.
    by destruct (String.eqb (db_col_type self) "Boolean"). }
  assert (assign_value self (Cell.value cell) r
          = Ok (<[db_col_name self := Cell.value cell]> r)) as ->.
  { unfold assign_value. rewrite Hfalsy, andb_false_r.
    by destruct (data_insert_method self). }
  rewrite pbind_lift_ok.
  assert (forall r0, split_value self (Cell.value cell) r0 = Ok r0) as ->.
  { intros r0. unfold split_value. rewrite Hfalsy.
    destruct (extra_column_name self); [|done]. by rewrite andb_false_r. }
  rewrite pbind_lift_ok, Hprop.
  unfold getitem at 1. rewrite lookup_insert_eq, pbind_lift_ok, Hblank.
  rewrite pbind_assoc.
  destruct (check_next_first self && bool_decide (previous_record <> None));
    [|reflexivity].
  destruct (next_cell sheet cell) as [next|e]; [|reflexivity].
  rewrite !pbind_lift_ok.
  by rewrite (parse_cell_at_no_previous 0 self sheet sheet).
Qed.

End ParseCell.

Section Propagation.

Variable strptime : string -> string -> result (Z * Z).
Variable parse_date : string -> bool -> result (Z * Z).



End Propagation.

(** ** More on the steps of [parse_cell] *)

Lemma pbind_ext {A B} (m : P A) (k k' : A -> P B) :
  (forall a, k a = k' a) -> pbind m k = pbind m k'.
Proof.
  intros H. unfold pbind. destruct m as [out [a|e]]; [|done]. by rewrite H.
Qed.

Section Steps.

Variable strptime : string -> string -> result (Z * Z).
Variable parse_date : string -> bool -> result (Z * Z).

Lemma parse_cell_body_ext
    (f g : Cell.t -> gmap string Value -> P (gmap string Value))
    (self : FieldParser) (sheet : Sheet.t) (cell : Cell.t)
    (r : gmap string Value) (previous_record : option (gmap string Value)) :
  (forall next r', f next r' = g next r') ->
  parse_cell_body strptime parse_date f self sheet cell r previous_record
  = parse_cell_body strptime parse_date g self sheet cell r previous_record.
Proof.
  intros H. unfold parse_cell_body.
  apply pbind_ext. intros value. apply pbind_ext. intros [v|]; [|done].
  apply pbind_ext. intros r1. apply pbind_ext. intros r2.
  f_equal. destruct (propagate_missing_values self); [|done].
  apply pbind_ext. intros current. destruct (is_blank current); [|done].
  f_equal. destruct (_ && _); [|done].
  apply pbind_ext. intros next. apply H.
Qed.

(** The bound on the nesting of calls is never reached: from depth 2
    on, [parse_cell_at] is [parse_cell]. *)
Lemma parse_cell_at_enough (depth : nat) (self : FieldParser)
    (sheet : Sheet.t) (cell : Cell.t) (r : gmap string Value)
    (previous_record : option (gmap string Value)) :
  parse_cell_at strptime parse_date (S (S depth)) self sheet cell r
    previous_record
  = parse_cell strptime parse_date self sheet cell r previous_record.
Proof.
  unfold parse_cell. rewrite !(parse_cell_at_S _ _ (S _)).
  apply parse_cell_body_ext. intros next r'.
  rewrite (parse_cell_at_no_previous strptime parse_date depth self sheet
             sheet).
  by rewrite (parse_cell_at_no_previous strptime parse_date 0 self sheet
                sheet).
Qed.

(** *** Value transformers *)

(** With transformers configured, a text that is one of the keys is
    replaced by the key's date; any other text that is not empty
    raises [KeyError]. *)
Lemma transform_value_text (self : FieldParser) (s : string) :
  value_transformers self <> ∅ -> s <> "" ->
  transform_value self (VStr s)
  = match value_transformers self !! s with
    | Some v => Ok v
    | None => Raise KeyError
    end.
Proof.
  intros Hne Hs. unfold transform_value.
  rewrite (bool_decide_eq_false_2 _ Hne), (truthy_text s Hs). reflexivity.
Qed.

Lemma parse_cell_unmatched_text (self : FieldParser) (sheet : Sheet.t)
    (cell : Cell.t) (r : gmap string Value)
    (previous_record : option (gmap string Value)) (s : string) :
  value_transformers self <> ∅ -> Cell.value cell = VStr s -> s <> "" ->
  value_transformers self !! s = None ->
  parse_cell strptime parse_date self sheet cell r previous_record
  = ([], Raise KeyError).
Proof.
  intros Hne Hvalue Hs Hkey. unfold parse_cell. rewrite parse_cell_at_S.
  unfold parse_cell_body.
  by rewrite Hvalue, (transform_value_text self s Hne Hs), Hkey.
Qed.

Lemma set_date_basis_transformers (self self' : FieldParser)
    (start_date : Z) (key : string) (offset : Z) :
  set_date_basis self start_date = Ok self' ->
  day_offsets self !! key = Some offset ->
  value_transformers self' !! key = Some (VDate (start_date + offset)).
Proof.
  unfold set_date_basis. destruct (bool_decide _); [|discriminate].
  intros [= <-] Hkey. cbn [value_transformers].
  apply lookup_union_Some_l. by rewrite lookup_fmap, Hkey.
Qed.

(** *** Cancellation marks *)

(** In the colour modes the flag is set exactly when the colour, as
    the font gives it, is one of the lower-cased trigger colours. *)
Lemma detect_cancellation_colour (self : FieldParser) (cell : Cell.t)
    (r : gmap string Value) (m : Mark) (s : string) :
  cancellation_mark self = Some m -> endswith_ground m = true ->
  font_attr (Cell.font cell) m = Ok (VStr s) ->
  detect_cancellation self cell r
  = Ok (if negb (String.eqb s "")
           && bool_decide (s ∈ cancellation_colours self)
        then <["cancelled" := VBool true]> r else r).
Proof.
  intros Hm Hground Hfont. unfold detect_cancellation.
  rewrite Hm, Hfont, Hground. simpl.
  by destruct (String.eqb s ""), (bool_decide _).
Qed.

(** In the other modes any truthy reading sets the flag. *)
Lemma detect_cancellation_truthy (self : FieldParser) (cell : Cell.t)
    (r : gmap string Value) (m : Mark) (mark : Value) :
  cancellation_mark self = Some m -> endswith_ground m = false ->
  font_attr (Cell.font cell) m = Ok mark ->
  detect_cancellation self cell r
  = Ok (if truthy mark then <["cancelled" := VBool true]> r else r).
Proof.
  intros Hm Hground Hfont. unfold detect_cancellation.
  rewrite Hm, Hfont, Hground. simpl. by destruct (truthy mark).
Qed.

(** The step writes [True] or nothing. *)
Lemma detect_cancellation_writes_true (self : FieldParser) (cell : Cell.t)
    (r r' : gmap string Value) :
  detect_cancellation self cell r = Ok r' ->
  r' = r \/ r' = <["cancelled" := VBool true]> r.
Proof.
  unfold detect_cancellation.
  destruct (cancellation_mark self) as [m|]; [|intros [= <-]; by left].
  destruct (font_attr _ m) as [mark|e]; [|discriminate]. simpl.
  destruct (truthy mark); [|intros [= <-]; by left].
  destruct (_ || _); intros [= <-]; [by right | by left].
Qed.

End Steps.

(** *** Splitting a value *)

Module SplitFacts.

Import Str.

Lemma chars_text (l : list ascii) : chars (text l) = l.
Proof. apply list_ascii_of_string_of_list_ascii. Qed.

Lemma skip_space_spaces (ws l : list ascii) :
  forallb isspace ws = true -> skip_space (ws ++ l) = skip_space l.
Proof.
  induction ws as [|a ws IH]; [done|]. simpl.
  intros [Ha Hws]%andb_true_iff. rewrite Ha. by apply IH.
Qed.

Lemma take_token_app (tok rest : list ascii) :
  forallb (fun a => negb (isspace a)) tok = true ->
  match rest with [] => True | b :: _ => isspace b = true end ->
  take_token (tok ++ rest) = (tok, rest).
Proof.
  intros Htok Hrest. induction tok as [|a tok IH]; simpl.
  - destruct rest as [|b rest]; [done|]. simpl. by rewrite Hrest.
  - simpl in Htok. apply andb_true_iff in Htok as [Ha Htok].
    apply negb_true_iff in Ha. rewrite Ha, (IH Htok). reflexivity.
Qed.

Lemma rev_nonempty {A} (l : list A) : l <> [] -> rev l <> [].
Proof.
  intros Hl Hr. apply (f_equal (@rev _)) in Hr.
  by rewrite rev_involutive in Hr.
Qed.

Lemma forallb_rev {A} (f : A -> bool) (l : list A) :
  forallb f l = true -> forallb f (rev l) = true.
Proof.
  rewrite !forallb_forall. intros H a Ha%in_rev. by apply H.
Qed.

(** The list that [value[::-1].split(maxsplit=1)] gives, each part
    reversed again, for a value that ends with a token. *)
Lemma split_last_token (before ws token trailing : list ascii) :
  token <> [] ->
  forallb (fun a => negb (isspace a)) token = true ->
  forallb isspace trailing = true ->
  forallb isspace ws = true ->
  (before = [] \/ (ws <> [] /\ skip_space (rev before) = rev before)) ->
  map reverse (split (reverse (text (before ++ ws ++ token ++ trailing))) 1)
  = text token :: match before with
                  | [] => []
                  | _ :: _ => [text before]
                  end.
Proof.
  intros Htoken Hnospace Htrailing Hws Hbefore.
  unfold split, reverse. rewrite !chars_text, !rev_app_distr, <- !app_assoc.
  pose proof (forallb_rev _ _ Hnospace) as Hrtok.
  pose proof (forallb_rev _ _ Htrailing) as Hrtrail.
  pose proof (forallb_rev _ _ Hws) as Hrws.
  pose proof (rev_nonempty _ Htoken) as Hrev.
  destruct (rev token) as [|a tl] eqn:Htok; [done|]. clear Hrev.
  assert (isspace a = false) as Ha.
  { simpl in Hrtok. apply andb_true_iff in Hrtok as [H _].
    by apply negb_true_iff. }
  unfold split_chars at 1. rewrite (skip_space_spaces _ _ Hrtrail).
  cbn [app skip_space]. rewrite Ha.
  change (a :: tl ++ rev ws ++ rev before)
    with ((a :: tl) ++ rev ws ++ rev before).
  rewrite (take_token_app (a :: tl) (rev ws ++ rev before) Hrtok).
  2:{ destruct Hbefore as [-> | [Hne _]].
      - simpl. rewrite app_nil_r. destruct (rev ws) as [|b tlw]; [done|].
        simpl in Hrws. by apply andb_true_iff in Hrws as [Hb _].
      - pose proof (rev_nonempty _ Hne) as Hrne.
        destruct (rev ws) as [|b tlw]; [done|].
        simpl in Hrws. by apply andb_true_iff in Hrws as [Hb _]. }
  cbn [map]. rewrite chars_text, <- Htok, rev_involutive. f_equal.
  unfold split_chars. rewrite (skip_space_spaces _ _ Hrws).
  destruct Hbefore as [-> | [_ Hlast]]; [done|]. rewrite Hlast.
  destruct before as [|b0 before0]; [done|].
  pose proof (rev_nonempty (b0 :: before0) ltac:(done)) as Hrne.
  destruct (rev (b0 :: before0)) as [|x l] eqn:Hrb; [done|].
  cbn [map]. by rewrite chars_text, <- Hrb, rev_involutive.
Qed.

End SplitFacts.

(** X1.  The split step on a text that ends with a token (possibly
    followed by whitespace): the token is the primary value; what stands before
    the whitespace in front of the token is the secondary value, a
    single space when nothing stands there. *)
Lemma split_value_last_token (self : FieldParser) (extra : string)
    (r : gmap string Value) (before ws token trailing : list ascii) :
  extra_column_name self = Some extra -> extra <> "" ->
  token <> [] ->
  forallb (fun a => negb (Str.isspace a)) token = true ->
  forallb Str.isspace trailing = true ->
  forallb Str.isspace ws = true ->
  (before = []
   \/ (ws <> [] /\ Str.skip_space (rev before) = rev before)) ->
  split_value self (VStr (Str.text (before ++ ws ++ token ++ trailing))) r
  = Ok (<[extra := VStr (match before with
                         | [] => " "
                         | _ :: _ => Str.text before
                         end)]>
          (<[db_col_name self := VStr (Str.text token)]> r)).
Proof.
  intros Hextra Hne Htoken Hnospace Htrailing Hws Hbefore.
  unfold split_value. rewrite Hextra.
  assert (String.eqb extra "" = false) as -> by by apply String.eqb_neq.
  assert (truthy (VStr (Str.text (before ++ ws ++ token ++ trailing))) = true)
    as ->.
  { apply truthy_text. intros Hempty.
    apply (f_equal Str.chars) in Hempty.
    rewrite SplitFacts.chars_text in Hempty. simpl in Hempty.
    destruct before, ws, token; simpl in *; congruence. }
  cbn [negb andb].
  rewrite (SplitFacts.split_last_token before ws token trailing) by done.
  by destruct before.
Qed.

(** ** Witnesses and evaluations on sample cells *)




(** C9, at the failing input: the week's parser on a cell whose text
    is not one of the configured day codes raises [KeyError]; a cell
    with a configured code gives the base date plus the offset. *)
Theorem unmatched_day_code_raises_KeyError :
  parse_cell Sample.strptime Sample.parse_date weekday_parser empty_sheet
    (Sample.xlsx_cell 1 0 (Sample.text_cell "Wed")) ∅ (Some ∅)
  = ([], Raise KeyError)
  /\ parse_cell Sample.strptime Sample.parse_date weekday_parser empty_sheet
       (Sample.xlsx_cell 1 0 (Sample.text_cell "Tue")) ∅ (Some ∅)
     = ([], Ok {[ "surgical_date" := VDate 738887 ]}).
Proof. split; vm_compute; reflexivity. Qed.

(** C7, at the failing input: with a secondary column configured, a
    cell that holds a single space raises [IndexError]; the two values
    of the specification are split as it says. *)
Theorem whitespace_only_value_raises_IndexError :
  parse_cell Sample.strptime Sample.parse_date name_parser empty_sheet
    (Sample.xlsx_cell 1 0 (Sample.text_cell " ")) ∅ (Some ∅)
  = ([], Raise IndexError)
  /\ parse_cell Sample.strptime Sample.parse_date name_parser empty_sheet
       (Sample.xlsx_cell 1 0 (Sample.text_cell "Smith John")) ∅ (Some ∅)
     = ([], Ok {[ "patient_given_name" := VStr "John";
                  "patient_family_name" := VStr "Smith" ]})
  /\ parse_cell Sample.strptime Sample.parse_date name_parser empty_sheet
       (Sample.xlsx_cell 1 0 (Sample.text_cell "Solo")) ∅ (Some ∅)
     = ([], Ok {[ "patient_given_name" := VStr "Solo";
                  "patient_family_name" := VStr " " ]}).
Proof. repeat split; vm_compute; reflexivity. Qed.

(** C5, at the failing input: the trigger colour [FF0000] is
    configured for the foreground mode and the cell's font colour is
    the RGB value [FFFF0000], which the [.xlsx] backend reads as
    [FF0000]; the two are equal without regard to case, and the
    cancelled flag is not set. *)
Theorem upper_case_colour_is_not_matched :
  Font.foreground (Cell.font (Sample.xlsx_cell 1 0 (red_cell "Knee")))
    = Ok (VStr "FF0000")
  /\ Str.lower "FF0000" ∈ cancellation_colours red_text_parser
  /\ parse_cell Sample.strptime Sample.parse_date red_text_parser empty_sheet
       (Sample.xlsx_cell 1 0 (red_cell "Knee")) ∅ (Some ∅)
     = ([], Ok {[ "surgical_procedure" := VStr "Knee" ]}).
Proof.
  split; [reflexivity|]. split; [|vm_compute; reflexivity].
  vm_compute. set_solver.
Qed.

(** ** The required-field gate *)

Lemma check_required_fields_result (fields : Table) (r : gmap string Value)
    (verbose : Z) :
  exists out b,
    check_required_fields fields r verbose = (out, Ok b)
    /\ (b = true <->
        forall field, In field fields -> is_required field = true ->
          truthy (get r (Column.name field)) = true).
Proof.
  induction fields as [|field fields IH]; simpl.
  - exists [], true. split; [reflexivity|]. split; [intros _ ? []|done].
  - destruct (is_required field) eqn:Hreq; simpl.
    + destruct (truthy (get r (Column.name field))) eqn:Htruthy; simpl.
      * destruct IH as (out & b & -> & Hb). exists out, b.
        split; [reflexivity|]. rewrite Hb. split.
        -- intros H f [<-|Hin] Hf; [exact Htruthy | by apply H].
        -- intros H f Hin Hf. apply H; [by right | exact Hf].
      * exists (if 3 <=? verbose
                then [OutMissingRequiredField (Column.name field)] else []),
               false.
        split; [by destruct (3 <=? verbose)|]. split; [discriminate|].
        intros H. rewrite (H field) in Htruthy; [discriminate|by left|done].
    + destruct IH as (out & b & -> & Hb). exists out, b.
      split; [reflexivity|]. rewrite Hb. split.
      * intros H f [<-|Hin] Hf; [congruence | by apply H].
      * intros H f Hin Hf. apply H; [by right | exact Hf].
Qed.

Lemma is_required_iff (field : Column.t) :
  is_required field = true <->
  Column.nullable field = false
  /\ Column.autoincrement field <> AutoTrue
  /\ Column.default field = None.
Proof.
  unfold is_required, Column.autoincrement_is_not_True.
  rewrite !andb_true_iff, negb_true_iff, bool_decide_eq_true.
  destruct (Column.autoincrement field); intuition congruence.
Qed.

Section RequiredFields.

Variable date_str : Z -> string.
Variable datetime_str : Z -> Z -> string.

(** A record that fails the completeness check is dropped: neither the
    database nor the session changes. *)
Lemma persist_record_incomplete (r : gmap string Value) (session : Session)
    (verbose row_number : Z) (db : Store) (out : list Output) :
  has_required_fields r verbose = (out, Ok false) ->
  persist_record date_str datetime_str r session verbose row_number db
  = (out, db, Ok session).
Proof.
  intros Hcheck. unfold persist_record, mbind_, lift, mret_.
  rewrite Hcheck. simpl. by rewrite app_nil_r.
Qed.

(** C2.  A record is persisted only if it is complete.  When the record
    lacks a value, or holds [None] or the empty text, for a column that
    is not nullable, not auto-generated and without default, the
    record is dropped whatever its other entries are: the database and
    the session are left as they were.  So whenever handling a record
    changes the database or the session, or raises, the record holds a
    present, non-empty value for every such column. *)
Theorem required_field_gate (r : gmap string Value) (session : Session)
    (verbose row_number : Z) (db : Store) :
  (forall field,
      In field all_db_columns ->
      Column.nullable field = false ->
      Column.autoincrement field <> AutoTrue ->
      Column.default field = None ->
      r !! Column.name field = None
      \/ r !! Column.name field = Some VNone
      \/ r !! Column.name field = Some (VStr "") ->
      exists out,
        persist_record date_str datetime_str r session verbose row_number db
        = (out, db, Ok session))
  /\ (forall out db' res,
        persist_record date_str datetime_str r session verbose row_number db
          = (out, db', res) ->
        db' <> db \/ res <> Ok session ->
        forall field,
          In field all_db_columns ->
          Column.nullable field = false ->
          Column.autoincrement field <> AutoTrue ->
          Column.default field = None ->
          exists v, r !! Column.name field = Some v
                    /\ v <> VNone /\ v <> VStr "").
Proof.
  destruct (check_required_fields_result all_db_columns r verbose)
    as (out & b & Hcheck & Hb).
  split.
  - intros field Hin Hnull Hauto Hdef Hmissing.
    exists out. apply persist_record_incomplete.
    unfold has_required_fields. rewrite Hcheck.
    destruct b; [|reflexivity]. exfalso.
    assert (truthy (get r (Column.name field)) = true) as Htruthy.
    { apply Hb; [reflexivity | exact Hin |]. by apply is_required_iff. }
    unfold get in Htruthy.
    destruct Hmissing as [H|[H|H]]; rewrite H in Htruthy; discriminate.
  - intros out' db' res Hrun Hchanged field Hin Hnull Hauto Hdef.
    destruct b.
    + assert (truthy (get r (Column.name field)) = true) as Htruthy.
      { apply Hb; [reflexivity | exact Hin |]. by apply is_required_iff. }
      unfold get in Htruthy.
      destruct (r !! Column.name field) as [v|]; [|discriminate].
      exists v. split; [reflexivity|]. by apply truthy_not_blank.
    + exfalso.
      rewrite (persist_record_incomplete r session verbose row_number db out)
        in Hrun by exact Hcheck.
      injection Hrun as _ <- <-. by destruct Hchanged.
Qed.

End RequiredFields.

Lemma required_field_gate_witness :
  exists out,
    persist_record Sample.date_str Sample.datetime_str
      {[ "idmrn" := VStr "001"; "patient_given_name" := VStr "Alice";
         "patient_family_name" := VStr "A";
         "surgical_procedure" := VStr "Knee";
         "surgical_date" := VDate 738890 ]}
      (Db.open_session empty_store) 0 2 empty_store
    = (out, empty_store, Ok (Db.open_session empty_store)).
Proof.
  destruct (required_field_gate Sample.date_str Sample.datetime_str
              {[ "idmrn" := VStr "001"; "patient_given_name" := VStr "Alice";
                 "patient_family_name" := VStr "A";
                 "surgical_procedure" := VStr "Knee";
                 "surgical_date" := VDate 738890 ]}
              (Db.open_session empty_store) 0 2 empty_store) as [Hdrop _].
  apply (Hdrop (Column.declare "surgical_pathway" (String_ None) false
                  (Some false) None None)).
  - simpl. tauto.
  - reflexivity.
  - discriminate.
  - reflexivity.
  - left. vm_compute. reflexivity.
Defined.

(** ** Idempotence of ingestion *)

Lemma run_spec {A} (m : M A) (db db' : Store) (r : result A) :
  run m db = (db', r) <-> exists out, m db = (out, db', r).
Proof.
  unfold run. destruct (m db) as [[out d] x]; simpl. split.
  - intros [= -> ->]. by exists out.
  - intros [out' [= _ -> ->]]. reflexivity.
Qed.

Lemma run_ret {A} (a : A) (db : Store) : run (mret_ a) db = (db, Ok a).
Proof. reflexivity. Qed.

Lemma run_raise {A} (e : Exn) (db : Store) :
  run (@mraise A e) db = (db, Raise e).
Proof. reflexivity. Qed.

Lemma run_lift {A} (p : P A) (db : Store) : run (lift p) db = (db, snd p).
Proof. reflexivity. Qed.

Lemma run_bind {A B} (m : M A) (k : A -> M B) (db : Store) :
  run (mbind_ m k) db
  = match run m db with
    | (db', Ok a) => run (k a) db'
    | (db', Raise e) => (db', Raise e)
    end.
Proof.
  unfold run, mbind_. destruct (m db) as [[out db'] [a|e]]; simpl; [|done].
  by destruct (k a db') as [[out' db''] r].
Qed.

Lemma run_try_except {A} (body : M A) (handler : Exn -> M A) (db : Store) :
  run (try_except body handler) db
  = match run body db with
    | (db', Raise IntegrityError) => run (handler IntegrityError) db'
    | (db', Raise StatementError) => run (handler StatementError) db'
    | other => other
    end.
Proof.
  unfold run, try_except.
  destruct (body db) as [[out db'] [a|e]]; simpl; [done|].
  destruct e; try done.
  - by destruct (handler IntegrityError db') as [[? ?] ?].
  - by destruct (handler StatementError db') as [[? ?] ?].
Qed.

(** *** The filter of [find_existing] and natural keys *)

Lemma same_procedure_key (self row row' : obj) :
  key_of row = key_of row' ->
  same_procedure self row = same_procedure self row'.
Proof.
  unfold key_of, same_procedure. intros [= -> -> ->]. reflexivity.
Qed.

Lemma matching_rows_keys (self : obj) (rows rows' : list obj) (i : nat) :
  map key_of rows = map key_of rows' ->
  matching_rows self rows i = matching_rows self rows' i.
Proof.
  revert rows' i. induction rows as [|row rows IH]; intros [|row' rows'] i;
    simpl; try done.
  intros H.
  pose proof (f_equal (hd (key_of row)) H) as Hkey.
  pose proof (f_equal (@tl _) H) as Hrest. simpl in Hkey, Hrest.
  rewrite (same_procedure_key self row row' Hkey), (IH rows' (S i) Hrest).
  reflexivity.
Qed.

Lemma matching_rows_app (self : obj) (rows rows' : list obj) (i : nat) :
  matching_rows self (rows ++ rows') i
  = matching_rows self rows i
    ++ matching_rows self rows' (i + length rows)%nat.
Proof.
  revert i. induction rows as [|row rows IH]; intros i; simpl.
  - by rewrite Nat.add_0_r.
  - rewrite IH. replace (S i + length rows)%nat with (i + S (length rows))%nat
      by lia.
    by destruct (same_procedure self row).
Qed.

Lemma matching_rows_elem (self : obj) (rows : list obj) (i j : nat) :
  j ∈ matching_rows self rows i <->
  exists row, (i <= j)%nat /\ rows !! (j - i)%nat = Some row
              /\ same_procedure self row = true.
Proof.
  revert i. induction rows as [|row rows IH]; intros i; simpl.
  - split; [by intros ?%elem_of_nil|]. by intros (? & _ & ? & _).
  - assert (j ∈ matching_rows self rows (S i) <->
            exists row', (i <= j)%nat /\ j <> i
              /\ rows !! (j - S i)%nat = Some row'
              /\ same_procedure self row' = true) as Htail.
    { rewrite IH. split.
      - intros (row' & Hle & Hrow & Hsame). exists row'.
        repeat split; try done; lia.
      - intros (row' & Hle & Hne & Hrow & Hsame). exists row'.
        repeat split; try done; lia. }
    destruct (same_procedure self row) eqn:Hsame.
    + rewrite elem_of_cons, Htail. split.
      * intros [->|(row' & Hle & Hne & Hrow & Hsame')].
        -- exists row. rewrite Nat.sub_diag. done.
        -- exists row'. split; [done|]. split; [|done].
           replace (j - i)%nat with (S (j - S i)) by lia. done.
      * intros (row' & Hle & Hrow & Hsame').
        destruct (decide (j = i)) as [->|Hne]; [by left|]. right.
        exists row'. repeat split; try done.
        replace (j - i)%nat with (S (j - S i)) in Hrow by lia. done.
    + rewrite Htail. split.
      * intros (row' & Hle & Hne & Hrow & Hsame'). exists row'.
        split; [done|]. split; [|done].
        replace (j - i)%nat with (S (j - S i)) by lia. done.
      * intros (row' & Hle & Hrow & Hsame').
        destruct (decide (j = i)) as [->|Hne].
        -- rewrite Nat.sub_diag in Hrow. simpl in Hrow. congruence.
        -- exists row'. repeat split; try done.
           replace (j - i)%nat with (S (j - S i)) in Hrow by lia. done.
Qed.

Lemma matching_rows_lookup (self : obj) (rows : list obj) (i : nat)
    (rest : list nat) :
  matching_rows self rows 0 = i :: rest ->
  exists row, rows !! i = Some row /\ same_procedure self row = true.
Proof.
  intros Hm.
  assert (i ∈ matching_rows self rows 0) as Hin by (rewrite Hm; left).
  apply matching_rows_elem in Hin as (row & _ & Hrow & Hsame).
  rewrite Nat.sub_0_r in Hrow. by exists row.
Qed.

Lemma sql_eq_refl (v : Value) : Db.sql_eq v v = true.
Proof. unfold Db.sql_eq. destruct v; simpl; try done; by apply bool_decide_eq_true. Qed.

Lemma sql_eq_true (stored wanted : Value) :
  Db.sql_eq stored wanted = true -> stored = wanted.
Proof.
  unfold Db.sql_eq. destruct wanted; try (by intros ?%bool_decide_eq_true).
  by intros ?%is_none_true.
Qed.

Lemma same_procedure_true (self row : obj) :
  same_procedure self row = true <-> key_of row = key_of self.
Proof.
  unfold same_procedure, key_of. rewrite !andb_true_iff. split.
  - intros [[H1 H2] H3].
    by rewrite (sql_eq_true _ _ H1), (sql_eq_true _ _ H2), (sql_eq_true _ _ H3).
  - intros [= -> -> ->]. by rewrite !sql_eq_refl.
Qed.

Lemma evolves_refl (db : Store) : evolves db db.
Proof.
  split; try done. exists []. by rewrite app_nil_r.
Qed.

Lemma evolves_trans (db db' db'' : Store) :
  evolves db db' -> evolves db' db'' -> evolves db db''.
Proof.
  intros [[e1 Hp1] Hf1 Hn1] [[e2 Hp2] Hf2 Hn2]. split.
  - exists (e1 ++ e2). by rewrite Hp2, Hp1, app_assoc.
  - intros self Hne. rewrite <- (Hf1 self Hne). apply Hf2.
    by rewrite (Hf1 self Hne).
  - intros self Hnull. by rewrite (Hn2 self Hnull), (Hn1 self Hnull).
Qed.

Lemma getattr_update (self other : obj) (name : string) :
  getattr (update self other) name
  = if existsb (fun c => String.eqb (Column.name c) name
                         && Column.autoincrement_is_not_True c)
         Procedure.columns
       && negb (is_none (getattr other name))
    then getattr other name
    else getattr self name.
Proof.
  unfold getattr at 1. rewrite update_lookup. by destruct (_ && _).
Qed.

(** Updating a row with a candidate that has its natural key keeps the
    key. *)
Lemma update_key (row other : obj) :
  same_procedure other row = true -> key_of (update row other) = key_of row.
Proof.
  intros Hsame%same_procedure_true. unfold key_of in *.
  rewrite !getattr_update. injection Hsame as H1 H2 H3.
  rewrite H1, H2, H3.
  by repeat match goal with |- context [if ?b then _ else _] => destruct b end.
Qed.

Lemma apply_defaults_procedure (o : obj) :
  apply_defaults Procedure.columns o
  = match o !! "cancelled" with
    | None => <["cancelled" := VBool false]> o
    | Some _ => o
    end.
Proof. reflexivity. Qed.

Lemma apply_defaults_patient (o : obj) :
  apply_defaults Patient.columns o = o.
Proof. reflexivity. Qed.

Lemma key_of_new_row (db : Store) (attrs : obj) :
  key_of (Db.new_row db attrs) = key_of attrs.
Proof.
  unfold key_of, Db.new_row. rewrite apply_defaults_procedure.
  rewrite !getattr_setattr_ne by done.
  destruct (attrs !! "cancelled"); [done|].
  unfold getattr. by rewrite !lookup_insert_ne.
Qed.

Lemma not_null_ok_date (row : obj) :
  not_null_ok Procedure.columns row = true ->
  getattr row "surgical_date" <> VNone.
Proof.
  unfold not_null_ok. rewrite forallb_forall. intros H.
  specialize (H (Column.declare "surgical_date" Date false (Some false)
                   None None)).
  simpl in H. apply is_none_false. apply negb_true_iff. apply H. tauto.
Qed.

(** *** One reconciliation *)

Lemma update_existing_work (db : Store) (i : nat) (other : obj) :
  work (update_existing (Db.open_session db) i other)
  = {| patients := patients db;
       procedures := alter (fun row => update row other) i (procedures db);
       next_procedure_id := next_procedure_id db |}.
Proof. reflexivity. Qed.

Lemma merge_procedures (db : Store) (attrs patient : obj) :
  procedures (work (fst (Db.merge (Db.open_session db) attrs patient)))
  = procedures db ++ [Db.new_row db attrs].
Proof. reflexivity. Qed.

Lemma merge_flush_list (db : Store) (attrs patient : obj) :
  flush_list (fst (Db.merge (Db.open_session db) attrs patient))
  = [HPatient (getattr patient "idmrn"); HProcedure (length (procedures db))].
Proof. reflexivity. Qed.

Lemma lookup_new_row (db : Store) (attrs : obj) :
  (procedures db ++ [Db.new_row db attrs]) !! length (procedures db)
  = Some (Db.new_row db attrs).
Proof. by rewrite list_lookup_middle. Qed.

(** A merge that is committed inserted a row with a date. *)
Lemma merge_flush_date (db : Store) (attrs patient : obj) :
  forallb (Db.flush_ok (work (fst (Db.merge (Db.open_session db) attrs
                                     patient))))
    (flush_list (fst (Db.merge (Db.open_session db) attrs patient))) = true ->
  getattr (Db.new_row db attrs) "surgical_date" <> VNone.
Proof.
  rewrite merge_flush_list. cbn [forallb].
  rewrite andb_true_r, andb_true_iff.
  intros [_ Hproc]. unfold Db.flush_ok in Hproc.
  rewrite merge_procedures, lookup_new_row in Hproc.
  by apply not_null_ok_date.
Qed.

(** Whether the merge of a valid candidate can be committed depends on
    the candidate alone. *)
Lemma merge_flush_valid (c : ProcedureObj) (db : Store) :
  valid_candidate c ->
  forallb (Db.flush_ok (work (fst (Db.merge (Db.open_session db) c.(attrs)
                                     c.(patient)))))
    (flush_list (fst (Db.merge (Db.open_session db) c.(attrs) c.(patient))))
  = negb (is_none (getattr c.(attrs) "surgical_date")).
Proof.
  intros ((k & Hk) & Hmerged & Halone & Hrow).
  rewrite merge_flush_list. cbn [forallb]. rewrite andb_true_r.
  unfold Db.flush_ok at 2. rewrite merge_procedures, lookup_new_row, Hrow.
  assert (Db.flush_ok
            (work (fst (Db.merge (Db.open_session db) c.(attrs) c.(patient))))
            (HPatient (getattr c.(patient) "idmrn")) = true) as ->; [|done].
  unfold Db.flush_ok, Db.merge. simpl. rewrite Hk.
  destruct (patients db !! k) as [existing|]; simpl;
    rewrite lookup_insert_eq; [apply Hmerged | exact Halone].
Qed.

Lemma map_key_of_alter (rows : list obj) (i : nat) (other : obj) :
  (forall row, rows !! i = Some row -> same_procedure other row = true) ->
  map key_of (alter (fun row => update row other) i rows) = map key_of rows.
Proof.
  revert i. induction rows as [|row rows IH]; intros i Hsame; [done|].
  destruct i as [|i]; simpl.
  - rewrite update_key; [done|]. by apply Hsame.
  - f_equal. apply IH. intros row' Hrow'. by apply Hsame.
Qed.

Lemma matching_rows_nonempty (self : obj) (rows : list obj) :
  matching_rows self rows 0 <> [] ->
  exists row, row ∈ rows /\ key_of row = key_of self.
Proof.
  destruct (matching_rows self rows 0) as [|i rest] eqn:Hm; [done|].
  intros _. destruct (matching_rows_lookup self rows i rest Hm)
    as (row & Hrow & Hsame).
  exists row. split; [by eapply list_elem_of_lookup_2|].
  by apply same_procedure_true.
Qed.

Lemma matching_rows_none (self : obj) (rows : list obj) (row : obj) :
  matching_rows self rows 0 = [] -> row ∈ rows ->
  key_of row <> key_of self.
Proof.
  intros Hm Hin Hkey.
  apply list_elem_of_lookup_1 in Hin as [j Hj].
  assert (j ∈ matching_rows self rows 0) as Hmem.
  { apply matching_rows_elem. exists row. rewrite Nat.sub_0_r.
    split; [lia|]. split; [done|]. by apply same_procedure_true. }
  rewrite Hm in Hmem. by apply elem_of_nil in Hmem.
Qed.

Lemma matching_rows_single (self row : obj) (i : nat) :
  matching_rows self [row] i = if same_procedure self row then [i] else [].
Proof. reflexivity. Qed.

(** A reconciliation leads to a later state. *)
Lemma reconcile_evolves (c : ProcedureObj) (db db' : Store) :
  reconcile c db = (db', Ok tt) -> evolves db db'.
Proof.
  unfold reconcile.
  destruct (matching_rows c.(attrs) (procedures db) 0) as [|i [|]] eqn:Hm;
    [| |discriminate].
  - destruct (forallb _ _) eqn:Hflush; intros [= <-]; [|apply evolves_refl].
    pose proof (merge_flush_date db _ _ Hflush) as Hdate.
    split; cbn [procedures].
    + exists [key_of (Db.new_row db c.(attrs))]. by rewrite map_app.
    + intros self Hfound. rewrite matching_rows_app, matching_rows_single.
      destruct (same_procedure self (Db.new_row db c.(attrs))) eqn:Hsame;
        [|by rewrite app_nil_r].
      exfalso. apply same_procedure_true in Hsame.
      rewrite key_of_new_row in Hsame.
      destruct (matching_rows_nonempty self _ Hfound) as (row & Hin & Hkey).
      apply (matching_rows_none c.(attrs) (procedures db) row Hm Hin).
      congruence.
    + intros self Hnull. rewrite matching_rows_app, matching_rows_single.
      destruct (same_procedure self (Db.new_row db c.(attrs))) eqn:Hsame;
        [|by rewrite app_nil_r].
      exfalso. apply same_procedure_true in Hsame.
      unfold key_of in Hsame. congruence.
  - intros [= <-].
    assert (map key_of (alter (fun row => update row c.(attrs)) i
                          (procedures db))
            = map key_of (procedures db)) as Hkeys.
    { apply map_key_of_alter. intros row Hrow.
      destruct (matching_rows_lookup _ _ _ _ Hm) as (row' & Hrow' & Hsame).
      congruence. }
    split; simpl.
    + exists []. by rewrite app_nil_r.
    + intros self _. by apply matching_rows_keys.
    + intros self _. by apply matching_rows_keys.
Qed.

(** The second pass sees the natural keys of the final database. *)
Lemma tracks_keys (db1 db dbT : Store) :
  evolves db db1 -> tracks db1 db dbT ->
  map key_of (procedures dbT) = map key_of (procedures db1).
Proof.
  intros [[extra Hpre] _ _] [_ _ Hlen Hrows].
  change (key_of <$> procedures dbT = key_of <$> procedures db1).
  apply list_eq. intros i. rewrite !list_lookup_fmap.
  destruct (procedures dbT !! i) as [t|] eqn:Ht,
           (procedures db1 !! i) as [s1|] eqn:Hs1; simpl.
  - f_equal.
    assert (forall name,
              In name ["idmrn"; "surgical_procedure"; "surgical_date"] ->
              getattr t name = getattr s1 name) as Hattr.
    { intros name Hname.
      destruct (Hrows i t s1 name Ht Hs1) as [H|(s & Hs & H)];
        unfold getattr at 1; rewrite H; [done|].
      assert (key_of s1 = key_of s) as Hkey.
      { assert ((key_of <$> procedures db1) !! i = Some (key_of s1)) as H1
          by (by rewrite list_lookup_fmap, Hs1).
        change (key_of <$> procedures db1) with (map key_of (procedures db1))
          in H1.
        rewrite Hpre in H1.
        assert ((map key_of (procedures db) ++ extra) !! i = Some (key_of s))
          as H2.
        { apply lookup_app_l_Some.
          change (map key_of (procedures db)) with (key_of <$> procedures db).
          by rewrite list_lookup_fmap, Hs. }
        congruence. }
      unfold key_of in Hkey. injection Hkey as K1 K2 K3.
      simpl in Hname. destruct Hname as [<-|[<-|[<-|[]]]]; symmetry; assumption. }
    unfold key_of.
    rewrite (Hattr "idmrn"), (Hattr "surgical_procedure"),
      (Hattr "surgical_date"); simpl; tauto.
  - apply lookup_lt_Some in Ht. apply lookup_ge_None in Hs1. lia.
  - apply lookup_lt_Some in Hs1. apply lookup_ge_None in Ht. lia.
  - done.
Qed.

Lemma update_lookup_cases (self other : obj) (name : string) :
  (update self other !! name = Some (getattr other name)
   /\ (forall self', update self' other !! name = Some (getattr other name))
   /\ other !! name = Some (getattr other name)
   /\ name <> "procedure_id")
  \/ (forall self', update self' other !! name = self' !! name).
Proof.
  destruct (existsb (fun c => String.eqb (Column.name c) name
                              && Column.autoincrement_is_not_True c)
              Procedure.columns
            && negb (is_none (getattr other name))) eqn:Hcond.
  - left. apply andb_true_iff in Hcond as [Hcol Hval].
    split; [|split; [|split]].
    + by rewrite update_lookup, Hcol, Hval.
    + intros self'. by rewrite update_lookup, Hcol, Hval.
    + apply negb_true_iff, is_none_false in Hval. unfold getattr in *.
      by destruct (other !! name).
    + intros ->. simpl in Hcol. discriminate.
  - right. intros self'. by rewrite update_lookup, Hcond.
Qed.

Lemma new_row_lookup (db : Store) (attrs : obj) (name : string) (v : Value) :
  name <> "procedure_id" -> attrs !! name = Some v ->
  Db.new_row db attrs !! name = Some v.
Proof.
  intros Hne Hv. unfold Db.new_row, setattr.
  rewrite lookup_insert_ne by done. rewrite apply_defaults_procedure.
  destruct (attrs !! "cancelled") eqn:Hc; [done|].
  rewrite lookup_insert_ne; [done|]. intros <-. congruence.
Qed.

(** The second pass replays a reconciliation of the first pass: where
    the first pass found, or inserted, a row, the second pass finds the
    row and updates it. *)
Lemma reconcile_replay (c : ProcedureObj) (db db' db1 dbT : Store) :
  valid_candidate c ->
  reconcile c db = (db', Ok tt) ->
  evolves db' db1 ->
  tracks db1 db dbT ->
  exists dbT', reconcile c dbT = (dbT', Ok tt) /\ tracks db1 db' dbT'.
Proof.
  intros Hvalid Hrec Hev Htr.
  pose proof (reconcile_evolves c db db' Hrec) as Hstep.
  pose proof (evolves_trans _ _ _ Hstep Hev) as Hev0.
  pose proof (tracks_keys _ _ _ Hev0 Htr) as Hkeys.
  assert (forall self, matching_rows self (procedures dbT) 0
                       = matching_rows self (procedures db1) 0) as HmT.
  { intros self. by apply matching_rows_keys. }
  destruct Htr as [Hpat Hnext Hlen Hrows].
  unfold reconcile in Hrec |- *. rewrite HmT.
  destruct (matching_rows c.(attrs) (procedures db) 0) as [|i [|]] eqn:Hm;
    [| |discriminate].
  - rewrite (merge_flush_valid c db Hvalid) in Hrec.
    destruct (is_none (getattr c.(attrs) "surgical_date")) eqn:Hdate;
      cbn [negb] in Hrec; injection Hrec as <-.
    + (* the commit fails in both passes *)
      apply is_none_true in Hdate.
      rewrite (evolves_null_date _ _ Hev _ Hdate), Hm.
      rewrite (merge_flush_valid c dbT Hvalid).
      apply is_none_true in Hdate. rewrite Hdate. simpl.
      exists dbT. split; [done|]. by split.
    + (* inserted by the first pass, found by the second *)
      set (i := length (procedures db)).
      assert (matching_rows c.(attrs)
                (procedures db ++ [Db.new_row db c.(attrs)]) 0 = [i]) as Hm'.
      { rewrite matching_rows_app, Hm, matching_rows_single. simpl.
        assert (same_procedure c.(attrs) (Db.new_row db c.(attrs)) = true)
          as ->; [|done].
        apply same_procedure_true, key_of_new_row. }
      pose proof (evolves_found _ _ Hev c.(attrs)) as Hfound.
      cbn [procedures] in Hfound. rewrite Hm' in Hfound.
      rewrite Hfound by done.
      eexists. split; [reflexivity|]. rewrite update_existing_work.
      split; cbn [patients procedures next_procedure_id]; try done.
      * by rewrite length_alter.
      * intros j t' s1 name Ht' Hs1.
        destruct (decide (i = j)) as [<-|Hne].
        -- rewrite list_lookup_alter_eq in Ht'.
           destruct (procedures dbT !! i) as [t|] eqn:Ht; [|done].
           injection Ht' as <-.
           destruct (update_lookup_cases t c.(attrs) name)
             as [(Hupd & _ & Hattr & Hname)|Hsame].
           ++ right. exists (Db.new_row db c.(attrs)).
              split; [apply lookup_new_row|].
              rewrite Hupd. symmetry. by apply new_row_lookup.
           ++ rewrite Hsame.
              destruct (Hrows i t s1 name Ht Hs1) as [H|(s & Hs & H)];
                [by left|].
              apply lookup_lt_Some in Hs. unfold i in Hs. lia.
        -- rewrite list_lookup_alter_ne in Ht' by done.
           destruct (Hrows j t' s1 name Ht' Hs1) as [H|(s & Hs & H)];
             [by left|].
           right. exists s. split; [|done]. by apply lookup_app_l_Some.
  - (* found by both passes *)
    injection Hrec as <-.
    assert (map key_of (alter (fun row => update row c.(attrs)) i
                          (procedures db))
            = map key_of (procedures db)) as Hkeys'.
    { apply map_key_of_alter. intros row Hrow.
      destruct (matching_rows_lookup _ _ _ _ Hm) as (row' & Hrow' & Hsame).
      congruence. }
    pose proof (evolves_found _ _ Hev c.(attrs)) as Hfound.
    cbn [procedures work update_existing Db.open_session] in Hfound.
    rewrite (matching_rows_keys _ _ _ 0%nat Hkeys'), Hm in Hfound.
    rewrite Hfound by done.
    eexists. split; [reflexivity|]. rewrite update_existing_work.
    split; cbn [patients procedures next_procedure_id]; try done.
    + by rewrite length_alter.
    + intros j t' s1 name Ht' Hs1.
      destruct (decide (i = j)) as [<-|Hne].
      * rewrite list_lookup_alter_eq in Ht'.
        destruct (procedures dbT !! i) as [t|] eqn:Ht; [|done].
        injection Ht' as <-.
        destruct (matching_rows_lookup _ _ _ _ Hm) as (s0 & Hs0 & _).
        destruct (update_lookup_cases t c.(attrs) name)
          as [(Hupd & Hall & _ & _)|Hsame].
        -- right. exists (update s0 c.(attrs)).
           split; [by rewrite list_lookup_alter_eq, Hs0|].
           by rewrite Hupd, Hall.
        -- rewrite Hsame.
           destruct (Hrows i t s1 name Ht Hs1) as [H|(s & Hs & H)];
             [by left|].
           right. exists (update s c.(attrs)).
           split; [by rewrite list_lookup_alter_eq, Hs|].
           by rewrite Hsame.
      * rewrite list_lookup_alter_ne in Ht' by done.
        destruct (Hrows j t' s1 name Ht' Hs1) as [H|(s & Hs & H)];
          [by left|].
        right. exists s. split; [|done].
        by rewrite list_lookup_alter_ne.
Qed.

(** *** Candidates built from complete records *)

Lemma check_required_fields_complete (fields : Table) (r : gmap string Value)
    (verbose : Z) :
  snd (check_required_fields fields r verbose)
  = Ok (forallb (fun field => negb (is_required field)
                              || truthy (get r (Column.name field))) fields).
Proof.
  induction fields as [|field fields IH]; [done|]. simpl.
  destruct (is_required field); simpl; [|exact IH].
  destruct (truthy (get r (Column.name field))); simpl; [exact IH|].
  by destruct (3 <=? verbose).
Qed.

Lemma has_required_fields_complete (r : gmap string Value) (verbose : Z) :
  snd (has_required_fields r verbose) = Ok (complete r).
Proof. apply check_required_fields_complete. Qed.

Lemma complete_required (r : gmap string Value) (name : string) :
  complete r = true ->
  In name ["surgical_procedure"; "surgical_date"; "surgical_pathway";
           "idmrn"; "patient_given_name"; "patient_family_name"] ->
  exists v, r !! name = Some v /\ truthy v = true.
Proof.
  unfold complete. rewrite forallb_forall. intros H Hin.
  assert (truthy (get r name) = true) as Htruthy.
  { simpl in Hin.
    destruct Hin as [<-|[<-|[<-|[<-|[<-|[<-|[]]]]]]].
    - apply (H (Column.declare "surgical_procedure" (String_ None) false
                  (Some false) None None)). simpl. tauto.
    - apply (H (Column.declare "surgical_date" Date false (Some false)
                  None None)). simpl. tauto.
    - apply (H (Column.declare "surgical_pathway" (String_ None) false
                  (Some false) None None)). simpl. tauto.
    - apply (H (Column.declare "idmrn" (String_ (Some 32%nat)) true None
                  None None)). simpl. tauto.
    - apply (H (Column.declare "patient_given_name" (String_ None) false
                  (Some false) None None)). simpl. tauto.
    - apply (H (Column.declare "patient_family_name" (String_ None) false
                  (Some false) None None)). simpl. tauto. }
  unfold get in Htruthy. destruct (r !! name) as [v|]; [|discriminate].
  by exists v.
Qed.

Lemma truthy_not_none (v : Value) : truthy v = true -> is_none v = false.
Proof. by destruct v. Qed.

Arguments procedure_constructor : simpl never.
Arguments Db.new_row : simpl never.

Section Candidates.

Variable date_str : Z -> string.
Variable datetime_str : Z -> Z -> string.

Lemma constructor_attrs_lookup (r : gmap string Value) (name : string) :
  name <> "cancelled" -> name <> "pacu_request" ->
  attrs (procedure_constructor date_str datetime_str r) !! name
  = r !! name ≫= fun v =>
      if is_none v then None
      else augment_argument_map date_str datetime_str name v Procedure.columns.
Proof.
  intros H1 H2. unfold procedure_constructor. cbn [attrs].
  rewrite map_lookup_imap. by rewrite !lookup_insert_ne.
Qed.

Lemma constructor_patient_lookup (r : gmap string Value) (name : string) :
  name <> "cancelled" -> name <> "pacu_request" ->
  patient (procedure_constructor date_str datetime_str r) !! name
  = r !! name ≫= fun v =>
      if is_none v then None
      else augment_argument_map date_str datetime_str name v Patient.columns.
Proof.
  intros H1 H2. unfold procedure_constructor. cbn [patient].
  rewrite map_lookup_imap. by rewrite !lookup_insert_ne.
Qed.

Lemma constructor_cancelled (r : gmap string Value) :
  attrs (procedure_constructor date_str datetime_str r) !! "cancelled" = None
  \/ exists b,
       attrs (procedure_constructor date_str datetime_str r) !! "cancelled"
       = Some (VBool b).
Proof.
  unfold procedure_constructor. cbn [attrs].
  rewrite map_lookup_imap, lookup_insert_eq. simpl.
  destruct (is_none _); [by left|]. right. by eexists.
Qed.

(** The candidate made from a complete record is valid. *)
Lemma complete_valid (r : gmap string Value) :
  complete r = true ->
  valid_candidate (procedure_constructor date_str datetime_str r).
Proof.
  intros Hc.
  assert (forall name,
            In name ["idmrn"; "patient_given_name"; "patient_family_name"] ->
            exists s, patient (procedure_constructor date_str datetime_str r)
                        !! name = Some (VStr s)) as Hpat.
  { intros name Hin.
    destruct (complete_required r name Hc) as (v & Hv & Ht);
      [simpl in *; tauto|].
    simpl in Hin. destruct Hin as [<-|[<-|[<-|[]]]]; eexists;
      rewrite constructor_patient_lookup, Hv by done; simpl;
      rewrite (truthy_not_none v Ht); reflexivity. }
  assert (forall name,
            In name ["surgical_procedure"; "surgical_pathway"] ->
            exists s, attrs (procedure_constructor date_str datetime_str r)
                        !! name = Some (VStr s)) as Hproc.
  { intros name Hin.
    destruct (complete_required r name Hc) as (v & Hv & Ht);
      [simpl in *; tauto|].
    simpl in Hin. destruct Hin as [<-|[<-|[]]]; eexists;
      rewrite constructor_attrs_lookup, Hv by done; simpl;
      rewrite (truthy_not_none v Ht); reflexivity. }
  destruct (Hpat "idmrn") as [k Hk]; [simpl; tauto|].
  destruct (Hpat "patient_given_name") as [g Hg]; [simpl; tauto|].
  destruct (Hpat "patient_family_name") as [f Hf]; [simpl; tauto|].
  destruct (Hproc "surgical_procedure") as [p Hp]; [simpl; tauto|].
  destruct (Hproc "surgical_pathway") as [w Hw]; [simpl; tauto|].
  pose proof (constructor_cancelled r) as Hcancelled.
  clear Hpat Hproc.
  set (c := procedure_constructor date_str datetime_str r) in *.
  clearbody c.
  split; [|split; [|split]].
  - exists k. unfold getattr. by rewrite Hk.
  - intros existing. unfold not_null_ok, getattr. simpl.
    by rewrite (lookup_union_Some_l _ _ _ _ Hk),
      (lookup_union_Some_l _ _ _ _ Hg), (lookup_union_Some_l _ _ _ _ Hf).
  - unfold not_null_ok, getattr. simpl. by rewrite Hk, Hg, Hf.
  - intros db. unfold not_null_ok.
    cbn [forallb Procedure.columns Column.nullable Column.name Column.declare
         negb orb andb].
    assert (getattr (Db.new_row db (attrs c)) "procedure_id"
            = VInt (next_procedure_id db)) as ->
      by apply getattr_setattr_eq.
    assert (getattr (Db.new_row db (attrs c)) "surgical_procedure" = VStr p)
      as ->.
    { unfold getattr. by rewrite (new_row_lookup db _ "surgical_procedure" _
                                    ltac:(done) Hp). }
    assert (getattr (Db.new_row db (attrs c)) "surgical_pathway" = VStr w)
      as ->.
    { unfold getattr. by rewrite (new_row_lookup db _ "surgical_pathway" _
                                    ltac:(done) Hw). }
    assert (is_none (getattr (Db.new_row db (attrs c)) "cancelled") = false)
      as ->.
    { unfold Db.new_row. rewrite getattr_setattr_ne by done.
      rewrite apply_defaults_procedure. unfold getattr.
      destruct Hcancelled as [H | [b H]]; rewrite H; cbv beta iota.
      - by rewrite lookup_insert_eq.
      - by rewrite H. }
    cbn [is_none negb andb]. rewrite andb_true_r. f_equal. f_equal.
    unfold Db.new_row, getattr, setattr.
    rewrite lookup_insert_ne by done. rewrite apply_defaults_procedure.
    destruct (_ !! "cancelled"); [done|]. by rewrite lookup_insert_ne.
Qed.

End Candidates.

(** *** Replaying a whole ingestion *)

Lemma replays_ext {B} (retarget : B -> Store -> B)
    (F G : Store -> Store * result B) :
  (forall db, F db = G db) -> replays retarget F -> replays retarget G.
Proof.
  intros Hext HF db db' b HG. rewrite <- Hext in HG.
  destruct (HF db db' b HG) as (Hb & Hev & Hrep).
  split; [done|]. split; [done|]. intros db1 dbT Hev1 Htr.
  destruct (Hrep db1 dbT Hev1 Htr) as (dbT' & HFT & HtrT).
  exists dbT'. by rewrite <- Hext.
Qed.

Lemma replays_and_then {A B} (rtA : A -> Store -> A) (rtB : B -> Store -> B)
    (F : Store -> Store * result A) (K : A -> Store -> Store * result B) :
  replays rtA F ->
  (forall a, replays rtB (fun db => K (rtA a db) db)) ->
  replays rtB (and_then F K).
Proof.
  intros HF HK db db' b Hrun. unfold and_then in Hrun.
  destruct (F db) as [dbm [a|e]] eqn:HFm; [|discriminate].
  destruct (HF db dbm a HFm) as (Ha & Hev1 & Hrep1).
  rewrite Ha in Hrun.
  destruct (HK a dbm db' b Hrun) as (Hb & Hev2 & Hrep2).
  split; [done|]. split; [by eapply evolves_trans|].
  intros db1 dbT Hev Htr.
  destruct (Hrep1 db1 dbT (evolves_trans _ _ _ Hev2 Hev) Htr)
    as (dbTm & HFT & HtrT).
  destruct (Hrep2 db1 dbTm Hev HtrT) as (dbT' & HKT & HtrT').
  exists dbT'. split; [|done]. unfold and_then. by rewrite HFT.
Qed.

(** A computation that leaves the database alone and does not depend
    on it is replayed as it is. *)
Lemma replays_pure {A} (res : result A) :
  replays (fun a _ => a) (fun db => (db, res)).
Proof.
  intros db db' a [= <- ->]. split; [done|]. split; [apply evolves_refl|].
  intros db1 dbT _ Htr. by exists dbT.
Qed.

Lemma replays_const {A B} (retarget : B -> Store -> B) (res : result A)
    (K : A -> Store -> Store * result B) :
  (forall a, replays retarget (K a)) ->
  replays retarget (and_then (fun db => (db, res)) K).
Proof.
  intros HK. apply (replays_and_then (fun a _ => a)); [apply replays_pure|].
  intros a. apply (replays_ext _ (K a)); [done | apply HK].
Qed.

Lemma merge_pair (db : Store) (attrs patient : obj) :
  Db.merge (Db.open_session db) attrs patient
  = (fst (Db.merge (Db.open_session db) attrs patient),
     length (procedures db)).
Proof. reflexivity. Qed.

(** Updating the row that was just merged with the candidate it was
    merged from changes nothing. *)
Lemma update_merged (db : Store) (attrs patient : obj) :
  update_existing (fst (Db.merge (Db.open_session db) attrs patient))
    (length (procedures db)) attrs
  = fst (Db.merge (Db.open_session db) attrs patient).
Proof.
  unfold update_existing.
  set (session := fst (Db.merge (Db.open_session db) attrs patient)).
  assert (alter (fun row => update row attrs) (length (procedures db))
            (procedures (work session)) = procedures (work session)) as ->.
  { unfold session. rewrite merge_procedures.
    apply list_eq. intros j.
    destruct (decide (length (procedures db) = j)) as [<-|Hne].
    - rewrite list_lookup_alter_eq, lookup_new_row.
      cbn [fmap option_fmap option_map]. f_equal.
      apply map_eq. intros name.
      destruct (update_lookup_cases (Db.new_row db attrs) attrs name)
        as [(Hupd & _ & Hattr & Hname)|Hsame].
      + rewrite Hupd. symmetry. by apply new_row_lookup.
      + apply Hsame.
    - by rewrite list_lookup_alter_ne. }
  by destruct session as [[] ?].
Qed.

Lemma pure_ret {A} (a : A) : pure (mret_ a).
Proof. by exists (Ok a). Qed.

Lemma pure_raise {A} (e : Exn) : pure (@mraise A e).
Proof. by exists (Raise e). Qed.

Lemma pure_lift {A} (p : P A) : pure (lift p).
Proof. by exists (snd p). Qed.

Lemma pure_bind {A B} (m : M A) (k : A -> M B) :
  pure m -> (forall a, pure (k a)) -> pure (mbind_ m k).
Proof.
  intros [res Hm] Hk. destruct res as [a|e].
  - destruct (Hk a) as [res' Hka]. exists res'. intros db.
    by rewrite run_bind, Hm, Hka.
  - exists (Raise e). intros db. by rewrite run_bind, Hm.
Qed.

(** After a pure computation, what follows decides. *)
Lemma replays_after_pure {A B} (retarget : B -> Store -> B) (m : M A)
    (k : A -> Store -> M B) :
  pure m ->
  (forall a, replays retarget (fun db => run (k a db) db)) ->
  replays retarget (fun db => run (mbind_ m (fun a => k a db)) db).
Proof.
  intros [res Hm] Hk.
  apply (replays_ext _ (and_then (fun db => (db, res))
                          (fun a db => run (k a db) db))).
  - intros db. rewrite run_bind, Hm. reflexivity.
  - by apply replays_const.
Qed.

Lemma replays_ret_session {A} (a : A) :
  replays (fun (b : A * Session) db => (fst b, Db.open_session db))
    (fun db => run (mret_ (a, Db.open_session db)) db).
Proof.
  intros db db' b [= <- <-]. split; [done|]. split; [apply evolves_refl|].
  intros db1 dbT _ Htr. by exists dbT.
Qed.

Lemma run_session_scope {A} (body : Session -> M (A * Session)) (db : Store) :
  run (session_scope body) db
  = match run (body (Db.open_session db)) db with
    | (db', Ok (a, session)) =>
        match run (Db.commit session) db' with
        | (db'', Ok _) => (db'', Ok a)
        | (db'', Raise e) => (db'', Raise e)
        end
    | (db', Raise e) => (db', Raise e)
    end.
Proof.
  unfold run, session_scope.
  destruct (body (Db.open_session db) db) as [[out db'] [[a session]|e]];
    [|done].
  cbn [fst snd]. by destruct (Db.commit session db') as [[out' db''] [s|e]].
Qed.

Lemma session_scope_replays {A} (body : Session -> M (A * Session)) :
  replays (fun (b : A * Session) db => (fst b, Db.open_session db))
    (fun db => run (body (Db.open_session db)) db) ->
  replays (fun a _ => a) (fun db => run (session_scope body) db).
Proof.
  intros Hbody db db' a Hrun. rewrite run_session_scope in Hrun.
  destruct (run (body (Db.open_session db)) db) as [dbm [[a' s]|e]] eqn:Hb;
    [|discriminate].
  destruct (Hbody db dbm (a', s) Hb) as (Heq & Hev & Hrep).
  cbn [fst] in Heq. injection Heq as ->.
  change (run (Db.commit (Db.open_session dbm)) dbm)
    with (dbm, Ok (Db.open_session dbm)) in Hrun.
  injection Hrun as <- <-. split; [done|]. split; [done|].
  intros db1 dbT Hev1 Htr.
  destruct (Hrep db1 dbT Hev1 Htr) as (dbT' & HbT & HtrT).
  exists dbT'. split; [|done]. rewrite run_session_scope, HbT. reflexivity.
Qed.

Lemma tracks_start (db1 db : Store) : tracks db1 db db1.
Proof.
  split; try done. intros i t s1 name Ht Hs1. left. congruence.
Qed.

Lemma tracks_final (db1 dbT : Store) : tracks db1 db1 dbT -> dbT = db1.
Proof.
  intros [Hpat Hnext Hlen Hrows].
  destruct dbT as [patT procT nextT], db1 as [pat1 proc1 next1].
  cbn [patients procedures next_procedure_id] in *. subst. f_equal.
  apply list_eq. intros i.
  destruct (procT !! i) as [t|] eqn:Ht, (proc1 !! i) as [s1|] eqn:Hs1.
  - f_equal. apply map_eq. intros name.
    destruct (Hrows i t s1 name Ht Hs1) as [H|(s & Hs & H)]; [done|].
    congruence.
  - apply lookup_lt_Some in Ht. apply lookup_ge_None in Hs1. lia.
  - apply lookup_lt_Some in Hs1. apply lookup_ge_None in Ht. lia.
  - done.
Qed.

Ltac solve_pure :=
  repeat first
    [ apply pure_lift
    | apply pure_ret
    | apply pure_raise
    | apply pure_bind; [|intros]
    | match goal with
      | |- pure (if ?b then _ else _) => destruct b
      | |- pure (match ?x with _ => _ end) => destruct x
      end ].

Section Replay.

Variable strptime : string -> string -> result (Z * Z).
Variable parse_date : string -> bool -> result (Z * Z).
Variable date_str : Z -> string.
Variable datetime_str : Z -> Z -> string.
Variable column_index_from_string : string -> result positive.

(** On a session without pending changes, handling a record is a
    reconciliation of the candidate when the record is complete. *)
Lemma run_persist_record (r : gmap string Value) (verbose row_number : Z)
    (db : Store) :
  run (persist_record date_str datetime_str r (Db.open_session db) verbose
         row_number) db
  = if complete r then
      match reconcile (procedure_constructor date_str datetime_str r) db with
      | (db', Ok _) => (db', Ok (Db.open_session db'))
      | (db', Raise e) => (db', Raise e)
      end
    else (db, Ok (Db.open_session db)).
Proof.
  unfold persist_record. rewrite run_bind, run_lift.
  rewrite has_required_fields_complete.
  destruct (complete r); [|reflexivity].
  rewrite run_bind. unfold find_existing, reconcile.
  cbn [work Db.open_session].
  destruct (matching_rows _ (procedures db) 0) as [|i [|]]; [| |reflexivity].
  - rewrite merge_pair. cbv beta iota.
    rewrite run_ret. cbn [fst]. rewrite run_try_except, run_bind, run_bind,
      run_lift.
    destruct (print_if (1 <=? verbose) OutUpdatingExisting) as [out [[]|e]]
      eqn:Hprint; [|by destruct (1 <=? verbose)].
    cbn [snd]. rewrite run_ret, update_merged.
    unfold run, Db.commit.
    destruct (forallb _ _); cbn [fst snd]; [reflexivity|].
    unfold mbind_, lift, Db.rollback. cbn [fst snd]. reflexivity.
  - rewrite run_ret. rewrite run_try_except, run_bind, run_bind, run_lift.
    destruct (print_if (1 <=? verbose) OutUpdatingExisting) as [out [[]|e]]
      eqn:Hprint; [|by destruct (1 <=? verbose)].
    cbn [snd]. rewrite run_ret. reflexivity.
Qed.

Lemma persist_record_replays (r : gmap string Value)
    (verbose row_number : Z) :
  replays (fun _ db => Db.open_session db)
    (fun db => run (persist_record date_str datetime_str r
                      (Db.open_session db) verbose row_number) db).
Proof.
  intros db db' b Hrun. rewrite run_persist_record in Hrun.
  destruct (complete r) eqn:Hc.
  - destruct (reconcile _ db) as [db2 [[]|e]] eqn:Hrec; [|discriminate].
    injection Hrun as <- <-. split; [done|].
    split; [by eapply reconcile_evolves|].
    intros db1 dbT Hev Htr.
    destruct (reconcile_replay _ db db2 db1 dbT
                (complete_valid date_str datetime_str r Hc) Hrec Hev Htr)
      as (dbT' & HrecT & HtrT).
    exists dbT'. split; [|done]. by rewrite run_persist_record, Hc, HrecT.
  - injection Hrun as <- <-. split; [done|]. split; [apply evolves_refl|].
    intros db1 dbT Hev Htr. exists dbT. split; [|done].
    by rewrite run_persist_record, Hc.
Qed.

Lemma ingest_rows_replays (cols : list (string * FieldParser))
    (sheet : Sheet.t) (config : gmap string Yaml)
    (col_map : list (nat * string)) (verbose row_offset : Z)
    (rows : list Row.t) (row_idx : nat) (last_record : gmap string Value) :
  replays (fun _ db => Db.open_session db)
    (fun db => run (ingest_rows strptime parse_date date_str datetime_str
                      cols sheet config col_map verbose row_offset rows
                      row_idx last_record (Db.open_session db)) db).
Proof.
  revert row_idx last_record.
  induction rows as [|row rows IH]; intros row_idx last_record.
  - intros db db' b [= <- <-]. split; [done|]. split; [apply evolves_refl|].
    intros db1 dbT _ Htr. by exists dbT.
  - apply (replays_ext _
             (and_then
                (fun db => (db, snd (parse_row strptime parse_date cols sheet
                                       row col_map verbose
                                       (seed_record config) last_record)))
                (fun r =>
                   and_then
                     (fun db => run (persist_record date_str datetime_str r
                                       (Db.open_session db) verbose
                                       (row_offset + Z.of_nat row_idx)) db)
                     (fun session db =>
                        run (ingest_rows strptime parse_date date_str
                               datetime_str cols sheet config col_map
                               verbose row_offset rows (S row_idx) r session)
                          db)))).
    + intros db. cbn [ingest_rows]. rewrite run_bind, run_lift.
      unfold and_then at 1. destruct (snd _); [|done].
      by rewrite run_bind.
    + apply replays_const. intros r.
      apply (replays_and_then (fun _ db => Db.open_session db));
        [apply persist_record_replays|].
      intros _. apply IH.
Qed.

Lemma ingest_sheet_replays (sheet : Sheet.t) (config : Config) (verbose : Z) :
  replays (fun (b : Config * Session) db => (fst b, Db.open_session db))
    (fun db => run (ingest_sheet strptime parse_date date_str datetime_str
                      column_index_from_string sheet config
                      (Db.open_session db) verbose) db).
Proof.
  unfold ingest_sheet.
  apply (replays_after_pure _ _ (fun _ db => _)); [apply pure_lift|].
  intros _.
  apply (replays_after_pure _ _ (fun col_map db => _)); [solve_pure|].
  intros [|mapped col_map].
  - apply (replays_after_pure _ _ (fun _ db => _)); [apply pure_lift|].
    intros _. apply replays_ret_session.
  - apply (replays_after_pure _ _ (fun _ db => _)); [apply pure_lift|].
    intros _.
    apply (replays_after_pure _ _ (fun cols db => _)); [solve_pure|].
    intros cols. cbv zeta.
    apply (replays_ext _
             (and_then
                (fun db =>
                   run (ingest_rows strptime parse_date date_str datetime_str
                          cols sheet (globals config) (mapped :: col_map)
                          verbose (heading_row (globals config) + 1)
                          (Sheet.rows sheet
                             (heading_row (globals config) + 1 - 1))
                          0 ∅ (Db.open_session db)) db)
                (fun session db =>
                   (db, Ok ({| globals := globals config; columns := cols |},
                            session))))).
    + intros db. by rewrite run_bind.
    + apply (replays_and_then (fun _ db => Db.open_session db));
        [apply ingest_rows_replays|].
      intros _ db db' b [= <- <-]. split; [done|].
      split; [apply evolves_refl|].
      intros db1 dbT _ Htr. by exists dbT.
Qed.

Lemma ingest_sheets_replays (config : Config) (sheets : list Sheet.t)
    (verbose : Z) :
  replays (fun u _ => u)
    (fun db => run (ingest_sheets strptime parse_date date_str datetime_str
                      column_index_from_string config sheets verbose) db).
Proof.
  revert config. induction sheets as [|sheet sheets IH]; intros config.
  - apply (replays_pure (Ok tt)).
  - cbn [ingest_sheets]. destruct (sheet_selected (globals config) sheet);
      [|apply IH].
    apply (replays_ext _
             (and_then
                (fun db =>
                   run (session_scope
                          (fun session =>
                             ingest_sheet strptime parse_date date_str
                               datetime_str column_index_from_string sheet
                               config session verbose)) db)
                (fun config' db =>
                   run (ingest_sheets strptime parse_date date_str
                          datetime_str column_index_from_string config'
                          sheets verbose) db))).
    + intros db. by rewrite run_bind.
    + apply (replays_and_then (fun a _ => a)).
      * apply session_scope_replays, ingest_sheet_replays.
      * intros config'. apply IH.
Qed.

Lemma ingest_file_replays (file_path config_file_path : string)
    (contents : Contents) (book : list Sheet.t) (verbose : Z) :
  replays (fun u _ => u)
    (fun db => run (ingest_file strptime parse_date date_str datetime_str
                      column_index_from_string file_path config_file_path
                      contents book verbose) db).
Proof.
  unfold ingest_file.
  apply (replays_after_pure _ _ (fun _ db => _)); [apply pure_lift|].
  intros _.
  apply (replays_after_pure _ _ (fun config db => _)); [apply pure_lift|].
  intros config. apply ingest_sheets_replays.
Qed.

(** C1.  Ingestion is idempotent with respect to the store: when a
    file with its configuration is ingested, from any database, and the
    ingestion ends normally with the database [db1], then ingesting the
    same file again on [db1] ends normally and leaves the database
    equal to [db1]: every procedure of the file is found by its natural
    key and updated in place, and no patient or procedure row is
    added. *)
Theorem ingestion_is_idempotent (file_path config_file_path : string)
    (contents : Contents) (book : list Sheet.t) (verbose : Z)
    (db db1 : Store) (out : list Output) :
  ingest_file strptime parse_date date_str datetime_str
    column_index_from_string file_path config_file_path contents book
    verbose db = (out, db1, Ok tt) ->
  exists out',
    ingest_file strptime parse_date date_str datetime_str
      column_index_from_string file_path config_file_path contents book
      verbose db1 = (out', db1, Ok tt).
Proof.
  intros Hfirst.
  assert (run (ingest_file strptime parse_date date_str datetime_str
                 column_index_from_string file_path config_file_path
                 contents book verbose) db = (db1, Ok tt)) as Hrun.
  { apply run_spec. by exists out. }
  destruct (ingest_file_replays file_path config_file_path contents book
              verbose db db1 tt Hrun) as (_ & _ & Hreplay).
  destruct (Hreplay db1 db1 (evolves_refl db1) (tracks_start db1 db))
    as (dbT' & Hsecond & Htracks).
  apply tracks_final in Htracks. subst dbT'.
  by apply run_spec in Hsecond.
Qed.

End Replay.


Lemma ingestion_is_idempotent_witness :
  exists out', sample_ingest sample_store = (out', sample_store, Ok tt).
Proof.
  apply (ingestion_is_idempotent
           Sample.strptime Sample.parse_date Sample.date_str
           Sample.datetime_str Sample.column_index_from_string
           "list.xlsx" "list.yaml" sample_contents sample_book 0
           empty_store sample_store (fst (fst (sample_ingest empty_store)))).
  vm_compute. reflexivity.
Defined.

(** * Further properties *)

#[local] Open Scope world_scope.

(** ** Colour codes *)

Definition all_ascii : list ascii := map ascii_of_nat (seq 0 256).

Lemma in_all_ascii (a : ascii) : In a all_ascii.
Proof.
  unfold all_ascii. rewrite <- (ascii_nat_embedding a). apply in_map.
  apply in_seq. pose proof (nat_ascii_bounded a). lia.
Qed.

Lemma forallb_seqZ (f : Z -> bool) (lo len : Z) :
  forallb f (seqZ lo len) = true ->
  forall n, lo <= n < lo + len -> f n = true.
Proof.
  intros H n Hn. rewrite forallb_forall in H. apply H.
  apply list_elem_of_In, elem_of_seqZ. lia.
Qed.

Lemma lower_text (l : list ascii) :
  Forall (fun a => Str.lower_char a = a) l ->
  Str.lower (Str.text l) = Str.text l.
Proof.
  intros H. unfold Str.lower. rewrite SplitFacts.chars_text. f_equal.
  induction H as [|a l Ha _ IH]; [done|]. simpl. by rewrite Ha, IH.
Qed.

Lemma hex_char_lower (d : Z) :
  0 <= d < 16 -> Str.lower_char (Common.hex_char d) = Common.hex_char d.
Proof.
  intros Hd.
  apply Ascii.eqb_eq.
  apply (forallb_seqZ
           (fun d => Ascii.eqb (Str.lower_char (Common.hex_char d))
                       (Common.hex_char d)) 0 16);
    [vm_compute; reflexivity | lia].
Qed.

Lemma hex_chars_lower (fuel : nat) (n : Z) (acc : list ascii) :
  Forall (fun a => Str.lower_char a = a) acc ->
  Forall (fun a => Str.lower_char a = a) (Common.hex_chars fuel n acc).
Proof.
  revert n acc. induction fuel as [|fuel IH]; intros n acc Hacc; [done|].
  simpl.
  assert (Forall (fun a => Str.lower_char a = a)
            (Common.hex_char (n mod 16) :: acc)) as Hacc'.
  { constructor; [|done]. apply hex_char_lower. apply Z.mod_pos_bound. lia. }
  destruct (n / 16 =? 0); [done|]. by apply IH.
Qed.

Lemma format_02x_lower (n : Z) :
  Forall (fun a => Str.lower_char a = a) (Common.format_02x n).
Proof.
  unfold Common.format_02x, Common.format_x.
  pose proof (hex_chars_lower (S (Z.to_nat (Z.log2 (- n)))) (- n) []
                (Forall_nil_2 _)) as Hneg.
  pose proof (hex_chars_lower (S (Z.to_nat (Z.log2 n))) n []
                (Forall_nil_2 _)) as Hpos.
  destruct (n <? 0).
  - constructor; [reflexivity | done].
  - destruct (Common.hex_chars _ n []) as [|d [|d' ds]]; [done| |done].
    constructor; [reflexivity | done].
Qed.

Lemma rgb2hex_lower (colour : Z * Z * Z) :
  Str.lower (Common.rgb2hex colour) = Common.rgb2hex colour.
Proof.
  destruct colour as [[r g] b]. unfold Common.rgb2hex.
  apply lower_text. rewrite !Forall_app.
  split; [|split]; apply format_02x_lower.
Qed.

(** X2.  [rgb2hex] gives a text in lower case, for every
    triple. *)
Theorem rgb2hex_is_lower_case (colour : Z * Z * Z) :
  Str.lower (Common.rgb2hex colour) = Common.rgb2hex colour.
Proof. apply rgb2hex_lower. Qed.

Definition byte_ok (n : Z) : bool :=
  match Common.format_02x n with
  | [a; b] =>
      match Common.int16 (String a (String b EmptyString)) with
      | Ok m => m =? n
      | Raise _ => false
      end
  | _ => false
  end.

Lemma format_02x_byte (n : Z) :
  0 <= n <= 255 ->
  exists a b,
    Common.format_02x n = [a; b]
    /\ Common.int16 (String a (String b EmptyString)) = Ok n.
Proof.
  intros Hn.
  assert (byte_ok n = true) as H.
  { apply (forallb_seqZ byte_ok 0 256); [vm_compute; reflexivity | lia]. }
  unfold byte_ok in H.
  destruct (Common.format_02x n) as [|a [|b [|c l]]]; try discriminate.
  exists a, b. split; [done|].
  destruct (Common.int16 _) as [m|e]; [|discriminate].
  apply Z.eqb_eq in H. by subst.
Qed.

(** X3.  [hex2rgb] undoes [rgb2hex] on components from 0 to 255,
    and the code of such a triple has six characters. *)
Theorem hex2rgb_rgb2hex (r g b : Z) :
  0 <= r <= 255 -> 0 <= g <= 255 -> 0 <= b <= 255 ->
  Common.hex2rgb (Common.rgb2hex (r, g, b)) = Ok (r, g, b)
  /\ String.length (Common.rgb2hex (r, g, b)) = 6%nat.
Proof.
  intros Hr Hg Hb.
  destruct (format_02x_byte r Hr) as (r1 & r2 & Hfr & Hir).
  destruct (format_02x_byte g Hg) as (g1 & g2 & Hfg & Hig).
  destruct (format_02x_byte b Hb) as (b1 & b2 & Hfb & Hib).
  unfold Common.rgb2hex. rewrite Hfr, Hfg, Hfb. split; [|reflexivity].
  unfold Common.hex2rgb, Common.slice. rewrite SplitFacts.chars_text.
  cbn [app drop take Nat.add Nat.sub Str.text string_of_list_ascii].
  rewrite Hir. cbn [rbind]. rewrite Hig. cbn [rbind]. rewrite Hib.
  reflexivity.
Qed.

Lemma hex2rgb_rgb2hex_witness :
  Common.hex2rgb (Common.rgb2hex (255, 0, 18)) = Ok (255, 0, 18)
  /\ String.length (Common.rgb2hex (255, 0, 18)) = 6%nat.
Proof. apply hex2rgb_rgb2hex; lia. Defined.

Definition pair_ok (a b : ascii) : bool :=
  match Common.hex_digit a, Common.hex_digit b with
  | Some _, Some _ =>
      match Common.int16 (String a (String b EmptyString)) with
      | Ok n =>
          bool_decide (Common.format_02x n
                       = [Str.lower_char a; Str.lower_char b])
      | Raise _ => false
      end
  | _, _ => true
  end.

Lemma pairs_ok : forallb (fun a => forallb (pair_ok a) all_ascii) all_ascii = true.
Proof. vm_compute. reflexivity. Qed.

Lemma hex_pair (a b : ascii) :
  is_Some (Common.hex_digit a) -> is_Some (Common.hex_digit b) ->
  exists n,
    Common.int16 (String a (String b EmptyString)) = Ok n
    /\ Common.format_02x n = [Str.lower_char a; Str.lower_char b].
Proof.
  intros [x Ha] [y Hb].
  pose proof pairs_ok as H. rewrite forallb_forall in H.
  specialize (H a (in_all_ascii a)). rewrite forallb_forall in H.
  specialize (H b (in_all_ascii b)). unfold pair_ok in H.
  rewrite Ha, Hb in H.
  destruct (Common.int16 _) as [n|e]; [|discriminate].
  exists n. split; [done|]. by apply bool_decide_eq_true in H.
Qed.

(** X4.  On a text that starts with six hexadecimal digits
    [hex2rgb] succeeds, and [rgb2hex] of its result is the lower-case
    form of the six digits. *)
Theorem rgb2hex_hex2rgb (a1 a2 a3 a4 a5 a6 : ascii) (rest : list ascii) :
  Forall (fun a => is_Some (Common.hex_digit a)) [a1; a2; a3; a4; a5; a6] ->
  exists colour,
    Common.hex2rgb (Str.text ([a1; a2; a3; a4; a5; a6] ++ rest)) = Ok colour
    /\ Common.rgb2hex colour = Str.lower (Str.text [a1; a2; a3; a4; a5; a6]).
Proof.
  intros H.
  apply Forall_cons in H as [H1 H]. apply Forall_cons in H as [H2 H].
  apply Forall_cons in H as [H3 H]. apply Forall_cons in H as [H4 H].
  apply Forall_cons in H as [H5 H]. apply Forall_cons in H as [H6 _].
  destruct (hex_pair a1 a2 H1 H2) as (r & Hr & Hfr).
  destruct (hex_pair a3 a4 H3 H4) as (g & Hg & Hfg).
  destruct (hex_pair a5 a6 H5 H6) as (b & Hb & Hfb).
  exists (r, g, b). split.
  - unfold Common.hex2rgb, Common.slice. rewrite SplitFacts.chars_text.
    cbn [app drop take Nat.add Nat.sub Str.text string_of_list_ascii].
    rewrite Hr. cbn [rbind]. rewrite Hg. cbn [rbind].
    rewrite take_0. cbn [string_of_list_ascii]. by rewrite Hb.
  - unfold Common.rgb2hex. rewrite Hfr, Hfg, Hfb.
    unfold Str.lower. by rewrite SplitFacts.chars_text.
Qed.

Lemma rgb2hex_hex2rgb_witness :
  exists colour,
    Common.hex2rgb "FF00aB" = Ok colour
    /\ Common.rgb2hex colour = Str.lower "FF00aB".
Proof.
  apply (rgb2hex_hex2rgb "F" "F" "0" "0" "a" "B" []).
  repeat constructor; vm_compute; eauto.
Defined.

(** ** Cancellation marks a backend cannot read *)

Lemma pbind_ok_inv {A B} (m : P A) (k : A -> P B) (out : list Output) (b : B) :
  pbind m k = (out, Ok b) ->
  exists out1 a out2,
    m = (out1, Ok a) /\ k a = (out2, Ok b) /\ out = out1 ++ out2.
Proof.
  unfold pbind. destruct m as [out1 [a|e]]; [|discriminate].
  destruct (k a) as [out2 res] eqn:Hk. intros [= <- ->].
  by exists out1, a, out2.
Qed.

Lemma plift_inv {A} (x : result A) (out : list Output) (res : result A) :
  plift x = (out, res) -> out = [] /\ x = res.
Proof. by intros [= <- <-]. Qed.

Section Marks.

Variable strptime : string -> string -> result (Z * Z).
Variable parse_date : string -> bool -> result (Z * Z).

Lemma recover_date_outcome (self : FieldParser) (value : Value)
    (out : list Output) (recovered : option Value) :
  recover_date strptime parse_date self value = (out, Ok recovered) ->
  (exists v, recovered = Some v /\ out = [])
  \/ (recovered = None /\ db_col_type self = "Date"
      /\ exists s, value = VStr s /\ out = [OutUnableToParseDate s]).
Proof.
  unfold recover_date.
  destruct value as [|b|n|s|d|d t];
    try (intros [= <- <-]; left; by eexists).
  destruct (String.eqb (db_col_type self) "Date") eqn:Htype;
    [|intros [= <- <-]; left; by eexists].
  apply String.eqb_eq in Htype. cbn [andb].
  destruct (truthy (VStr s)); [|intros [= <- <-]; left; by eexists].
  destruct (try_date_formats _ _ _) as [[d|]|e];
    [intros [= <- <-]; left; by eexists| |discriminate].
  destruct (parse_date s true) as [[d t]|e];
    [intros [= <- <-]; left; by eexists|].
  destruct (is_ValueError e); [|discriminate].
  intros [= <- <-]. right. split; [done|]. split; [done|]. by exists s.
Qed.

(** When the font cannot give the configured mark, [parse_cell] ends
    normally only through the early return for a date that cannot be
    parsed. *)
Lemma parse_cell_unreadable_mark (self : FieldParser) (sheet : Sheet.t)
    (cell : Cell.t) (r : gmap string Value)
    (previous_record : option (gmap string Value)) (m : Mark) (e : Exn)
    (out : list Output) (r' : gmap string Value) :
  cancellation_mark self = Some m ->
  font_attr (Cell.font cell) m = Raise e ->
  parse_cell strptime parse_date self sheet cell r previous_record
    = (out, Ok r') ->
  r' = r /\ db_col_type self = "Date"
  /\ exists s, out = [OutUnableToParseDate s].
Proof.
  intros Hm Hfont. unfold parse_cell. rewrite parse_cell_at_S.
  unfold parse_cell_body. intros H.
  apply pbind_ok_inv in H as (o1 & value & o2 & Ht & H & ->).
  apply plift_inv in Ht as [-> Ht].
  apply pbind_ok_inv in H as (o3 & recovered & o4 & Hrec & H & ->).
  apply recover_date_outcome in Hrec
    as [(v & -> & ->) | (-> & Htype & s & -> & ->)].
  - exfalso.
    apply pbind_ok_inv in H as (o5 & r1 & o6 & _ & H & ->).
    apply pbind_ok_inv in H as (o7 & r2 & o8 & _ & H & ->).
    apply pbind_ok_inv in H as (o9 & r3 & o10 & _ & H & ->).
    apply plift_inv in H as [_ H]. unfold detect_cancellation in H.
    by rewrite Hm, Hfont in H.
  - injection H as <- <-. split; [done|]. split; [done|]. by exists s.
Qed.

(** A parser without transformers, second column or propagation, on a
    value that needs no date recovery. *)
Lemma parse_cell_direct (self : FieldParser) (sheet : Sheet.t)
    (cell : Cell.t) (r r1 : gmap string Value)
    (previous_record : option (gmap string Value)) (v : Value) :
  transform_value self (Cell.value cell) = Ok v ->
  recover_date strptime parse_date self v = pret (Some v) ->
  assign_value self (coerce_boolean self (coerce_datetime self v)) r
    = Ok r1 ->
  extra_column_name self = None ->
  propagate_missing_values self = false ->
  parse_cell strptime parse_date self sheet cell r previous_record
  = plift (detect_cancellation self cell r1).
Proof.
  intros Ht Hrec Hassign Hextra Hprop.
  unfold parse_cell. rewrite parse_cell_at_S. unfold parse_cell_body.
  rewrite Ht, pbind_lift_ok, Hrec, pbind_ret. cbv zeta.
  rewrite Hassign, pbind_lift_ok. unfold split_value. rewrite Hextra.
  rewrite pbind_lift_ok, Hprop, pbind_ret. reflexivity.
Qed.

Lemma transform_value_none (self : FieldParser) (v : Value) :
  value_transformers self = ∅ -> transform_value self v = Ok v.
Proof.
  intros H. unfold transform_value. by rewrite (bool_decide_eq_true_2 _ H).
Qed.

Lemma recover_date_other (self : FieldParser) (v : Value) :
  db_col_type self <> "Date" ->
  recover_date strptime parse_date self v = pret (Some v).
Proof.
  intros H. apply String.eqb_neq in H. unfold recover_date.
  destruct v; try reflexivity. by rewrite H.
Qed.

Section Xlsx.

Variable COLOR_INDEX : list string.
Variable theme_colour : nat -> Z -> string.

(** X5.  On an [.xlsx] sheet the cancellation marks
    [background] and [red] cannot be read: [parse_cell] ends normally
    only through the early return for a date that cannot be parsed, and
    a parser without further options raises [NotImplementedError] on
    every cell. *)
Theorem xlsx_background_and_red_marks_fail (self : FieldParser)
    (sheet : Sheet.t) (row col : Z) (c : Xlsx.RawCell)
    (r : gmap string Value) (previous_record : option (gmap string Value))
    (m : Mark) :
  cancellation_mark self = Some m ->
  m = background \/ m = red ->
  (forall out r',
      parse_cell strptime parse_date self sheet
        (Xlsx.cell COLOR_INDEX theme_colour row col c) r previous_record
        = (out, Ok r') ->
      r' = r /\ db_col_type self = "Date"
      /\ exists s, out = [OutUnableToParseDate s])
  /\ (value_transformers self = ∅ ->
      db_col_type self <> "Date" ->
      data_insert_method self = replace ->
      extra_column_name self = None ->
      propagate_missing_values self = false ->
      parse_cell strptime parse_date self sheet
        (Xlsx.cell COLOR_INDEX theme_colour row col c) r previous_record
      = ([], Raise NotImplementedError)).
Proof.
  intros Hm Hmark.
  assert (font_attr (Cell.font (Xlsx.cell COLOR_INDEX theme_colour row col c))
            m = Raise NotImplementedError) as Hfont.
  { by destruct Hmark as [-> | ->]. }
  split.
  - intros out r'. by apply parse_cell_unreadable_mark with m NotImplementedError.
  - intros Htrans Htype Hmethod Hextra Hprop.
    rewrite (parse_cell_direct self sheet _ r
               (<[db_col_name self :=
                    coerce_boolean self
                      (coerce_datetime self (Xlsx.raw_value c))]> r)
               previous_record (Xlsx.raw_value c)).
    + unfold detect_cancellation. by rewrite Hm, Hfont.
    + by apply transform_value_none.
    + by apply recover_date_other.
    + unfold assign_value. by rewrite Hmethod.
    + done.
    + done.
Qed.

End Xlsx.

End Marks.

Lemma xlsx_background_and_red_marks_fail_witness :
  (∅ = (∅ : gmap string Value)
   /\ db_col_type shaded_date_parser = "Date"
   /\ exists s, [OutUnableToParseDate "next week"] = [OutUnableToParseDate s])
  /\ parse_cell Sample.strptime Sample.parse_date shaded_procedure_parser
       empty_sheet (Sample.xlsx_cell 1 0 (Sample.text_cell "Knee"))
       ∅ (Some ∅) = ([], Raise NotImplementedError).
Proof.
  split.
  - apply (proj1 (xlsx_background_and_red_marks_fail Sample.strptime
                    Sample.parse_date [] (fun _ _ => "000000")
                    shaded_date_parser empty_sheet 1 0
                    (Sample.text_cell "next week") ∅ (Some ∅) background
                    eq_refl (or_introl eq_refl))
             [OutUnableToParseDate "next week"] ∅).
    reflexivity.
  - apply (xlsx_background_and_red_marks_fail Sample.strptime
             Sample.parse_date [] (fun _ _ => "000000")
             shaded_procedure_parser empty_sheet 1 0
             (Sample.text_cell "Knee") ∅ (Some ∅) background);
      [reflexivity | by left | reflexivity | discriminate | reflexivity
      | reflexivity | reflexivity].
Defined.


Lemma FieldParser_init_inv (name : string) (args : ParserArgs)
    (self : FieldParser) :
  FieldParser_init name args = Ok self ->
  exists col method mark,
    (if has_column Procedure.columns name
     then get_column Procedure.columns name
     else get_column Patient.columns name) = Ok col
    /\ insert_method_of (arg_data_insert_method args) = Ok method
    /\ mark_of (arg_cancellation_mark args) = Ok mark
    /\ self = {| db_col_name := name;
                 db_col := col;
                 db_col_type := type_name (Column.type_ col);
                 extra_column_name := arg_extra_column args;
                 data_insert_method := method;
                 propagate_missing_values := arg_propagate_missing_values args;
                 check_next_first := arg_check_next_first args;
                 cancellation_mark := mark;
                 cancellation_colours :=
                   list_to_set (map Str.lower (arg_cancellation_colours args));
                 extra_date_formats := arg_extra_date_formats args;
                 day_offsets := arg_day_offsets args;
                 value_transformers := ∅ |}.
Proof.
  unfold FieldParser_init.
  destruct (if has_column Procedure.columns name then _ else _) as [col|e];
    [|discriminate].
  destruct (insert_method_of _) as [method|e]; [|discriminate].
  destruct (mark_of _) as [mark|e]; [|discriminate].
  intros [= <-]. by exists col, method, mark.
Qed.

Lemma hex_chars_nonempty (fuel : nat) (n : Z) (acc : list ascii) :
  acc <> [] -> Common.hex_chars fuel n acc <> [].
Proof.
  revert n acc. induction fuel as [|fuel IH]; intros n acc Hacc; [done|].
  simpl. destruct (n / 16 =? 0); [done|]. by apply IH.
Qed.

Lemma format_02x_nonempty (n : Z) : Common.format_02x n <> [].
Proof.
  unfold Common.format_02x. destruct (n <? 0); [done|].
  pose proof (hex_chars_nonempty (Z.to_nat (Z.log2 n)) (n / 16)
                [Common.hex_char (n mod 16)] ltac:(done)) as H.
  unfold Common.format_x. simpl.
  destruct (n / 16 =? 0); [done|].
  destruct (Common.hex_chars _ _ _) as [|d [|d' ds]]; done.
Qed.

Lemma rgb2hex_nonempty (colour : Z * Z * Z) : Common.rgb2hex colour <> "".
Proof.
  destruct colour as [[r g] b]. unfold Common.rgb2hex.
  pose proof (format_02x_nonempty r) as H.
  destruct (Common.format_02x r) as [|a l]; done.
Qed.

Section XlsBackend.

Variable strptime : string -> string -> result (Z * Z).
Variable parse_date : string -> bool -> result (Z * Z).
Variable xldate_as_tuple : Value -> Z -> result (Z * Z * Z).
Variable date : Z -> Z -> Z -> result Z.
Variable book : Xls.Book.

Lemma xls_cell_inv (c : Xls.RawCell) (cell : Cell.t) :
  Xls.cell xldate_as_tuple date book c = Ok cell ->
  Cell.row cell = Raise NotImplementedError
  /\ Cell.col cell = Raise NotImplementedError
  /\ Cell.font cell = Xls.font book c
  /\ Xls.value xldate_as_tuple date book c = Ok (Cell.value cell).
Proof.
  unfold Xls.cell. destruct (Xls.value _ _ _ c) as [v|e]; [|discriminate].
  by intros [= <-].
Qed.

Lemma xls_foreground_raises (c : Xls.RawCell) :
  exists e, Xls.foreground book c = Raise e.
Proof.
  unfold Xls.foreground. destruct (Xls.cell_font book c) as [font|e];
    [|by exists e].
  simpl. destruct (Xls.colour_at book _) as [colour|e]; [|by exists e].
  by exists NameError.
Qed.

(** X6.  On an [.xls] sheet the font property [foreground] never
    gives a value, because it calls a function that is not defined.
    With that mark [parse_cell] ends normally only through the early
    return, and a parser without further options raises [NameError]. *)
Theorem xls_foreground_mark_fails (self : FieldParser) (sheet : Sheet.t)
    (c : Xls.RawCell) (cell : Cell.t) (r : gmap string Value)
    (previous_record : option (gmap string Value)) :
  cancellation_mark self = Some foreground ->
  Xls.cell xldate_as_tuple date book c = Ok cell ->
  (forall v, Font.foreground (Cell.font cell) <> Ok v)
  /\ (forall out r',
        parse_cell strptime parse_date self sheet cell r previous_record
          = (out, Ok r') ->
        r' = r /\ db_col_type self = "Date"
        /\ exists s, out = [OutUnableToParseDate s])
  /\ (forall font colour,
        Xls.cell_font book c = Ok font ->
        Xls.colour_map book !! Xls.colour_index font = Some colour ->
        value_transformers self = ∅ ->
        db_col_type self <> "Date" ->
        data_insert_method self = replace ->
        extra_column_name self = None ->
        propagate_missing_values self = false ->
        parse_cell strptime parse_date self sheet cell r previous_record
        = ([], Raise NameError)).
Proof.
  intros Hm Hcell. apply xls_cell_inv in Hcell as (_ & _ & Hfont & _).
  destruct (xls_foreground_raises c) as [e He].
  split; [|split].
  - intros v. rewrite Hfont. cbn [Cell.font Xls.font Font.foreground].
    by rewrite He.
  - intros out r'. apply parse_cell_unreadable_mark with foreground e;
      [done|]. by rewrite Hfont.
  - intros font colour Hf Hc Htrans Htype Hmethod Hextra Hprop.
    rewrite (parse_cell_direct strptime parse_date self sheet _ r
               (<[db_col_name self :=
                    coerce_boolean self
                      (coerce_datetime self (Cell.value cell))]> r)
               previous_record (Cell.value cell)).
    + unfold detect_cancellation. rewrite Hm. cbn [font_attr].
      rewrite Hfont. cbn [Xls.font Font.foreground]. unfold Xls.foreground.
      rewrite Hf. cbn [rbind]. unfold Xls.colour_at. by rewrite Hc.
    + by apply transform_value_none.
    + by apply recover_date_other.
    + unfold assign_value. by rewrite Hmethod.
    + done.
    + done.
Qed.

(** X7.  On an [.xls] sheet a blank cell of a propagating column
    that looks at the next row first makes [parse_cell] raise
    [NotImplementedError]: the position of a cell is not implemented. *)
Theorem xls_check_next_first_fails (self : FieldParser) (sheet : Sheet.t)
    (c : Xls.RawCell) (cell : Cell.t) (r previous : gmap string Value) :
  propagate_missing_values self = true ->
  check_next_first self = true ->
  Xls.cell xldate_as_tuple date book c = Ok cell ->
  is_blank (Cell.value cell) = true ->
  parse_cell strptime parse_date self sheet cell r (Some previous)
  = ([], Raise NotImplementedError).
Proof.
  intros Hprop Hnext Hcell Hblank.
  apply xls_cell_inv in Hcell as (Hrow & _ & _ & _).
  rewrite (parse_cell_blank strptime parse_date self sheet cell r
             (Some previous) Hprop Hblank).
  rewrite Hnext. rewrite bool_decide_eq_true_2 by done. cbn [andb].
  unfold next_cell. rewrite Hrow. reflexivity.
Qed.

Lemma xls_background_text (c : Xls.RawCell) (v : Value) :
  Xls.background book c = Ok v ->
  exists s, v = VStr s /\ s <> "" /\ Str.lower s = s.
Proof.
  unfold Xls.background.
  destruct (Xls.item _ _) as [xf|e]; [|discriminate]. cbn [rbind].
  destruct (if _ =? 0 then _ else _) as [[rgb|]|e]; [| |discriminate];
    cbn [rbind]; intros [= <-].
  - exists (Common.rgb2hex rgb). split; [done|].
    split; [apply rgb2hex_nonempty | apply rgb2hex_lower].
  - by exists "ffffff".
Qed.

(** X8.  On an [.xls] sheet a background colour that equals
    a configured colour without regard to letter case sets the flag
    [cancelled]: the backend gives its colours in lower case. *)
Theorem xls_background_is_matched_ignoring_case (name : string)
    (args : ParserArgs) (self : FieldParser) (c : Xls.RawCell)
    (cell : Cell.t) (r : gmap string Value) (configured read : string) :
  FieldParser_init name args = Ok self ->
  arg_cancellation_mark args = Some "background" ->
  Xls.cell xldate_as_tuple date book c = Ok cell ->
  Xls.background book c = Ok (VStr read) ->
  In configured (arg_cancellation_colours args) ->
  Str.lower configured = Str.lower read ->
  detect_cancellation self cell r = Ok (<["cancelled" := VBool true]> r).
Proof.
  intros Hinit Hmark Hcell Hread Hin Hsame.
  apply FieldParser_init_inv in Hinit
    as (col & method & mark & _ & _ & Hm & ->).
  rewrite Hmark in Hm. injection Hm as <-.
  apply xls_cell_inv in Hcell as (_ & _ & Hfont & _).
  destruct (xls_background_text c _ Hread) as (s & [= <-] & Hne & Hlower).
  rewrite (detect_cancellation_colour _ cell r background read);
    [|done|done|by rewrite Hfont].
  cbn [cancellation_colours].
  assert (String.eqb read "" = false) as -> by by apply String.eqb_neq.
  rewrite bool_decide_eq_true_2; [done|].
  apply elem_of_list_to_set, list_elem_of_In. rewrite <- Hlower, <- Hsame.
  by apply in_map.
Qed.

End XlsBackend.

Lemma xls_foreground_mark_fails_witness :
  parse_cell Sample.strptime Sample.parse_date
    (Sample.parser "surgical_procedure" args_foreground_plain) empty_sheet
    (sample_xls_cell (xls_text_cell "Knee" 0)) ∅ (Some ∅)
  = ([], Raise NameError).
Proof.
  apply (proj2 (proj2
           (xls_foreground_mark_fails Sample.strptime Sample.parse_date
              (fun _ _ => Raise (ValueError "not a date"))
              (fun _ _ _ => Raise (ValueError "not a date")) sample_xls_book
              (Sample.parser "surgical_procedure" args_foreground_plain)
              empty_sheet (xls_text_cell "Knee" 0) _ ∅ (Some ∅)
              eq_refl eq_refl))
           {| Xls.struck_out := 0; Xls.colour_index := 8 |} (Some (0, 0, 0)));
    [reflexivity | reflexivity | reflexivity | discriminate | reflexivity
    | reflexivity | reflexivity].
Defined.

Lemma xls_check_next_first_fails_witness :
  parse_cell Sample.strptime Sample.parse_date (consultant_parser true)
    empty_sheet (sample_xls_cell (xls_text_cell "" 0)) ∅
    (Some {[ "surgical_consultant" := VStr "X" ]})
  = ([], Raise NotImplementedError).
Proof.
  apply (xls_check_next_first_fails Sample.strptime Sample.parse_date
           (fun _ _ => Raise (ValueError "not a date"))
           (fun _ _ _ => Raise (ValueError "not a date")) sample_xls_book
           (consultant_parser true) empty_sheet (xls_text_cell "" 0));
    reflexivity.
Defined.

Lemma xls_background_is_matched_ignoring_case_witness :
  detect_cancellation shaded_procedure_parser
    (sample_xls_cell (xls_text_cell "Knee" 1)) ∅
  = Ok {[ "cancelled" := VBool true ]}.
Proof.
  apply (xls_background_is_matched_ignoring_case
           (fun _ _ => Raise (ValueError "not a date"))
           (fun _ _ _ => Raise (ValueError "not a date")) sample_xls_book
           "surgical_procedure" args_background shaded_procedure_parser
           (xls_text_cell "Knee" 1) _ ∅ "FF0000" "ff0000");
    [reflexivity | reflexivity | reflexivity | reflexivity
    | by left | reflexivity].
Defined.

(** ** Constructing field parsers *)

Lemma has_column_all (name : string) :
  has_column all_db_columns name
  = has_column Procedure.columns name || has_column Patient.columns name.
Proof. unfold has_column, all_db_columns. apply existsb_app. Qed.

Lemma get_column_present (table : Table) (name : string) :
  has_column table name = true ->
  exists col, get_column table name = Ok col
              /\ Column.name col = name /\ In col table.
Proof.
  unfold has_column, get_column. intros H.
  destruct (find _ table) as [col|] eqn:Hfind.
  - apply find_some in Hfind as [Hin Hname]. apply String.eqb_eq in Hname.
    by exists col.
  - apply existsb_exists in H as (col & Hin & Hname).
    by rewrite (find_none _ _ Hfind col Hin) in Hname.
Qed.

Lemma get_column_absent (table : Table) (name : string) :
  has_column table name = false -> get_column table name = Raise KeyError.
Proof.
  unfold has_column, get_column. intros H.
  destruct (find _ table) as [col|] eqn:Hfind; [|done].
  apply find_some in Hfind as [Hin Hname].
  assert (existsb (fun c => String.eqb (Column.name c) name) table = true)
    as Hex by (apply existsb_exists; by exists col).
  congruence.
Qed.

(** X9.  [FieldParser.__init__] raises [KeyError] for a column name
    that neither table has, before any other check.  For a known column
    it raises [AssertionError] when the insertion method is not
    [replace] or [append], or when the cancellation mark is not one of
    the four modes.  Otherwise it gives a parser for the column of that
    name, without transformers; the name of the second column is taken
    as it is, whether or not a table has it. *)
Theorem field_parser_construction (name : string) (args : ParserArgs) :
  (has_column all_db_columns name = false ->
   FieldParser_init name args = Raise KeyError)
  /\ (has_column all_db_columns name = true ->
      ~ In (arg_data_insert_method args) ["replace"; "append"]
      \/ (exists mark,
            arg_cancellation_mark args = Some mark
            /\ ~ In mark ["strike"; "red"; "background"; "foreground"]) ->
      FieldParser_init name args = Raise AssertionError)
  /\ (has_column all_db_columns name = true ->
      In (arg_data_insert_method args) ["replace"; "append"] ->
      (forall mark, arg_cancellation_mark args = Some mark ->
         In mark ["strike"; "red"; "background"; "foreground"]) ->
      exists self,
        FieldParser_init name args = Ok self
        /\ db_col_name self = name
        /\ Column.name (db_col self) = name
        /\ In (db_col self) all_db_columns
        /\ db_col_type self = type_name (Column.type_ (db_col self))
        /\ extra_column_name self = arg_extra_column args
        /\ value_transformers self = ∅).
Proof.
  rewrite has_column_all.
  assert (has_column Procedure.columns name || has_column Patient.columns name
          = true ->
          exists col,
            (if has_column Procedure.columns name
             then get_column Procedure.columns name
             else get_column Patient.columns name) = Ok col
            /\ Column.name col = name /\ In col all_db_columns) as Hcol.
  { intros H. unfold all_db_columns.
    destruct (has_column Procedure.columns name) eqn:Hp.
    - destruct (get_column_present _ _ Hp) as (col & ? & ? & ?).
      exists col. rewrite in_app_iff. auto.
    - destruct (get_column_present _ _ H) as (col & ? & ? & ?).
      exists col. rewrite in_app_iff. auto. }
  split; [|split].
  - intros [Hp Hq]%orb_false_iff. unfold FieldParser_init.
    by rewrite Hp, (get_column_absent _ _ Hq).
  - intros Hhas Hbad. destruct (Hcol Hhas) as (col & Hget & _ & _).
    unfold FieldParser_init. rewrite Hget. cbn [rbind].
    assert (forall mark,
              arg_cancellation_mark args = Some mark ->
              ~ In mark ["strike"; "red"; "background"; "foreground"] ->
              mark_of (arg_cancellation_mark args) = Raise AssertionError)
      as Hmark.
    { intros mark -> Hnot. cbn [In] in Hnot. unfold mark_of.
      destruct (String.eqb_spec mark "strike") as [->|_];
        [exfalso; apply Hnot; auto|].
      destruct (String.eqb_spec mark "red") as [->|_];
        [exfalso; apply Hnot; auto|].
      destruct (String.eqb_spec mark "background") as [->|_];
        [exfalso; apply Hnot; auto|].
      destruct (String.eqb_spec mark "foreground") as [->|_];
        [exfalso; apply Hnot; auto 6|].
      done. }
    unfold insert_method_of.
    destruct (String.eqb_spec (arg_data_insert_method args) "replace")
      as [Hr|Hr].
    + destruct Hbad as [Hbad | (mark & Hsome & Hbad)];
        [exfalso; apply Hbad; rewrite Hr; by left|].
      cbn [rbind]. by rewrite (Hmark mark Hsome Hbad).
    + destruct (String.eqb_spec (arg_data_insert_method args) "append")
        as [Ha|Ha]; [|done].
      destruct Hbad as [Hbad | (mark & Hsome & Hbad)];
        [exfalso; apply Hbad; rewrite Ha; right; by left|].
      cbn [rbind]. by rewrite (Hmark mark Hsome Hbad).
  - intros Hhas Hmethod Hmark.
    destruct (Hcol Hhas) as (col & Hget & Hname & Hin).
    unfold FieldParser_init. rewrite Hget. cbn [rbind].
    assert (exists method,
              insert_method_of (arg_data_insert_method args) = Ok method)
      as [method ->].
    { unfold insert_method_of. cbn [In] in Hmethod.
      destruct Hmethod as [<- | [<- | []]]; by eexists. }
    cbn [rbind].
    assert (exists mark, mark_of (arg_cancellation_mark args) = Ok mark)
      as [mark ->].
    { unfold mark_of. destruct (arg_cancellation_mark args) as [m|];
        [|by eexists].
      specialize (Hmark m eq_refl). cbn [In] in Hmark.
      destruct Hmark as [<- | [<- | [<- | [<- | []]]]]; by eexists. }
    cbn [rbind]. eexists. split; [reflexivity|]. by cbn.
Qed.


Lemma field_parser_construction_witness :
  FieldParser_init "theatre" default_args = Raise KeyError
  /\ FieldParser_init "idmrn" args_bad_mark = Raise AssertionError
  /\ exists self,
       FieldParser_init "patient_given_name" args_unknown_extra = Ok self
       /\ db_col_name self = "patient_given_name"
       /\ Column.name (db_col self) = "patient_given_name"
       /\ In (db_col self) all_db_columns
       /\ db_col_type self = type_name (Column.type_ (db_col self))
       /\ extra_column_name self = Some "patient_surname"
       /\ value_transformers self = ∅.
Proof.
  split; [|split].
  - apply (field_parser_construction "theatre" default_args). reflexivity.
  - apply (field_parser_construction "idmrn" args_bad_mark);
      [reflexivity|].
    right. exists "bold". split; [reflexivity|].
    cbn [In]. intros [H | [H | [H | [H | []]]]]; discriminate.
  - apply (field_parser_construction "patient_given_name"
             args_unknown_extra); [reflexivity | | ].
    + right. by left.
    + intros mark H. discriminate.
Defined.

Lemma lower_char_idemp (a : ascii) :
  Str.lower_char (Str.lower_char a) = Str.lower_char a.
Proof.
  assert (forallb (fun a => Ascii.eqb (Str.lower_char (Str.lower_char a))
                              (Str.lower_char a)) all_ascii = true) as H
    by (vm_compute; reflexivity).
  rewrite forallb_forall in H. apply Ascii.eqb_eq, H, in_all_ascii.
Qed.

Lemma lower_idemp (s : string) : Str.lower (Str.lower s) = Str.lower s.
Proof.
  unfold Str.lower at 1 3. apply lower_text, Forall_forall.
  intros a (b & <- & _)%list_elem_of_In%in_map_iff. apply lower_char_idemp.
Qed.

(** X10.  The trigger colours of a parser are the lower-case forms
    of the configured colours: every one of them is its own lower-case
    form, and a colour with an upper-case letter is never among them. *)
Theorem cancellation_colours_are_lower_case (name : string)
    (args : ParserArgs) (self : FieldParser) :
  FieldParser_init name args = Ok self ->
  (forall colour,
      colour ∈ cancellation_colours self <->
      exists configured,
        In configured (arg_cancellation_colours args)
        /\ colour = Str.lower configured)
  /\ (forall colour,
        colour ∈ cancellation_colours self -> Str.lower colour = colour)
  /\ (forall read,
        Str.lower read <> read -> read ∉ cancellation_colours self).
Proof.
  intros Hinit.
  apply FieldParser_init_inv in Hinit as (col & method & mark & _ & _ & _ & ->).
  cbn [cancellation_colours].
  assert (forall colour,
            colour ∈ (list_to_set (map Str.lower
                                     (arg_cancellation_colours args))
                        : gset string) <->
            exists configured,
              In configured (arg_cancellation_colours args)
              /\ colour = Str.lower configured) as Hiff.
  { intros colour. rewrite elem_of_list_to_set, list_elem_of_In, in_map_iff.
    split; intros (c & ? & ?); exists c; by split. }
  assert (forall colour,
            colour ∈ (list_to_set (map Str.lower
                                     (arg_cancellation_colours args))
                        : gset string) ->
            Str.lower colour = colour) as Hlower.
  { intros colour (configured & _ & ->)%Hiff. apply lower_idemp. }
  split; [done|]. split; [done|].
  intros read Hne Hin. by apply Hne, Hlower.
Qed.

Lemma cancellation_colours_are_lower_case_witness :
  (forall colour,
      colour ∈ cancellation_colours red_text_parser <->
      exists configured,
        In configured (arg_cancellation_colours args_foreground)
        /\ colour = Str.lower configured)
  /\ (forall colour,
        colour ∈ cancellation_colours red_text_parser ->
        Str.lower colour = colour)
  /\ (forall read,
        Str.lower read <> read -> read ∉ cancellation_colours red_text_parser).
Proof.
  apply (cancellation_colours_are_lower_case "surgical_procedure"
           args_foreground red_text_parser).
  reflexivity.
Defined.

(** ** Day offsets *)

Lemma set_date_basis_inv (self self' : FieldParser) (start_date : Z) :
  set_date_basis self start_date = Ok self' ->
  map_Forall (fun _ offset => 1 <= start_date + offset <= 3652059)
    (day_offsets self)
  /\ day_offsets self' = day_offsets self
  /\ value_transformers self'
     = ((fun offset => VDate (start_date + offset)) <$> day_offsets self)
         ∪ value_transformers self.
Proof.
  unfold set_date_basis. destruct (bool_decide _) eqn:H; [|discriminate].
  apply bool_decide_eq_true in H. by intros [= <-].
Qed.

(** What [set_date_basis] gives. *)
Lemma set_date_basis_outcome (self : FieldParser) (start_date : Z) :
  ((exists key offset,
       day_offsets self !! key = Some offset
       /\ ~ 1 <= start_date + offset <= 3652059) ->
   set_date_basis self start_date = Raise OverflowError)
  /\ ((forall key offset,
         day_offsets self !! key = Some offset ->
         1 <= start_date + offset <= 3652059) ->
      exists self',
        set_date_basis self start_date = Ok self'
        /\ db_col_name self' = db_col_name self
        /\ day_offsets self' = day_offsets self
        /\ forall key,
             value_transformers self' !! key
             = match day_offsets self !! key with
               | Some offset => Some (VDate (start_date + offset))
               | None => value_transformers self !! key
               end).
Proof.
  split.
  - intros (key & offset & Hkey & Hrange). unfold set_date_basis.
    rewrite bool_decide_eq_false_2; [done|].
    intros Hall. apply Hrange. by apply (Hall key offset).
  - intros Hall. unfold set_date_basis.
    rewrite bool_decide_eq_true_2 by done.
    eexists. split; [reflexivity|]. cbn. split; [done|]. split; [done|].
    intros key. rewrite lookup_union, lookup_fmap.
    destruct (day_offsets self !! key) as [offset|]; cbn.
    + by destruct (value_transformers self !! key).
    + by destruct (value_transformers self !! key).
Qed.

Lemma set_date_basis_outcome_witness :
  exists self',
    set_date_basis (Sample.parser "surgical_date" args_day_offsets) 738886
      = Ok self'
    /\ db_col_name self' = "surgical_date"
    /\ day_offsets self' = arg_day_offsets args_day_offsets
    /\ forall key,
         value_transformers self' !! key
         = match arg_day_offsets args_day_offsets !! key with
           | Some offset => Some (VDate (738886 + offset))
           | None => None
           end.
Proof.
  destruct (proj2 (set_date_basis_outcome
                     (Sample.parser "surgical_date" args_day_offsets) 738886))
    as (self' & H1 & H2 & H3 & H4).
  - intros key offset H. cbn in H.
    apply (map_Forall_lookup_1
             (fun _ offset => 1 <= 738886 + offset <= 3652059)
             (arg_day_offsets args_day_offsets) key offset); [|done].
    apply (bool_decide_unpack _). vm_compute. exact I.
  - exists self'. split; [done|]. split; [done|]. split; [done|].
    intros key. rewrite H4. cbn. by destruct (_ !! key).
Defined.

(** X11.  Setting the base date a second time replaces the dates of
    the first time: the transformers are those of setting the second
    date alone. *)
Theorem set_date_basis_again (self self1 self2 : FieldParser)
    (first second : Z) :
  set_date_basis self first = Ok self1 ->
  set_date_basis self1 second = Ok self2 ->
  exists self2',
    set_date_basis self second = Ok self2'
    /\ value_transformers self2 = value_transformers self2'.
Proof.
  intros (_ & Hoff1 & Ht1)%set_date_basis_inv
         (Hall & _ & Ht2)%set_date_basis_inv.
  rewrite Hoff1 in Hall, Ht2.
  unfold set_date_basis at 1. rewrite bool_decide_eq_true_2 by done.
  eexists. split; [reflexivity|]. cbn [value_transformers].
  rewrite Ht2, Ht1. apply map_eq. intros key.
  rewrite !lookup_union, !lookup_fmap.
  by destruct (day_offsets self !! key), (value_transformers self !! key).
Qed.


Lemma set_date_basis_again_witness :
  exists self2',
    set_date_basis (Sample.parser "surgical_date" args_day_offsets) 738893
      = Ok self2'
    /\ value_transformers weekday_parser_next_week
       = value_transformers self2'.
Proof.
  apply (set_date_basis_again
           (Sample.parser "surgical_date" args_day_offsets)
           weekday_parser weekday_parser_next_week 738886 738893).
  - reflexivity.
  - reflexivity.
Defined.

(** ** What [parse_cell] leaves alone *)

Lemma changes_within_refl (self : FieldParser) (r : gmap string Value) :
  changes_within self r r.
Proof. intros key _ _. by left. Qed.

Lemma changes_within_trans (self : FieldParser)
    (r r' r'' : gmap string Value) :
  changes_within self r r' -> changes_within self r' r'' ->
  changes_within self r r''.
Proof.
  intros H1 H2 key Hcol Hextra.
  destruct (H2 key Hcol Hextra) as [-> | ?]; [|by right].
  by apply H1.
Qed.

Lemma assign_value_within (self : FieldParser) (value : Value)
    (r r' : gmap string Value) :
  assign_value self value r = Ok r' -> changes_within self r r'.
Proof.
  assert (changes_within self r (<[db_col_name self := value]> r)) as Hset.
  { intros key Hcol _. left. by rewrite lookup_insert_ne. }
  unfold assign_value. destruct (data_insert_method self).
  - by intros [= <-].
  - destruct (_ && _); [|by intros [= <-]].
    destruct (get r (db_col_name self)); try discriminate.
    destruct value; try discriminate.
    intros [= <-]. intros key Hcol _. left. by rewrite lookup_insert_ne.
Qed.

Lemma split_value_within (self : FieldParser) (value : Value)
    (r r' : gmap string Value) :
  split_value self value r = Ok r' -> changes_within self r r'.
Proof.
  unfold split_value.
  destruct (extra_column_name self) as [extra|] eqn:Hextra;
    [|intros [= <-]; intros key _ _; by left].
  destruct (_ && _); [|intros [= <-]; intros key _ _; by left].
  destruct value; try discriminate.
  destruct (_ !! 0%nat) as [part0|]; [|discriminate].
  destruct (_ !! 1%nat) as [part1|]; [|discriminate].
  intros [= <-]. intros key Hcol Hne. left.
  rewrite lookup_insert_ne by congruence. by rewrite lookup_insert_ne.
Qed.

Lemma copy_previous_within (self : FieldParser) (r r' : gmap string Value)
    (previous_record : option (gmap string Value)) :
  copy_previous self r previous_record = Ok r' -> changes_within self r r'.
Proof.
  unfold copy_previous.
  destruct (getitem r (db_col_name self)) as [v|e]; [|discriminate].
  cbn [rbind]. destruct previous_record as [previous|];
    [|intros [= <-]; apply changes_within_refl].
  destruct (_ && _); [|intros [= <-]; apply changes_within_refl].
  destruct (getitem previous _) as [pv|e]; [|discriminate].
  intros [= <-]. intros key Hcol _. left. by rewrite lookup_insert_ne.
Qed.

Lemma detect_cancellation_within (self : FieldParser) (cell : Cell.t)
    (r r' : gmap string Value) :
  detect_cancellation self cell r = Ok r' -> changes_within self r r'.
Proof.
  intros [-> | ->]%detect_cancellation_writes_true;
    [apply changes_within_refl|].
  intros key _ _. destruct (decide (key = "cancelled")) as [->|Hne].
  - right. by rewrite lookup_insert.
  - left. by rewrite lookup_insert_ne.
Qed.

Section Frame.

Variable strptime : string -> string -> result (Z * Z).
Variable parse_date : string -> bool -> result (Z * Z).

Lemma parse_cell_at_within (depth : nat) (self : FieldParser)
    (sheet : Sheet.t) (cell : Cell.t) (r : gmap string Value)
    (previous_record : option (gmap string Value)) (out : list Output)
    (r' : gmap string Value) :
  parse_cell_at strptime parse_date depth self sheet cell r previous_record
    = (out, Ok r') ->
  changes_within self r r'.
Proof.
  revert cell r previous_record out r'.
  induction depth as [|depth IH]; intros cell r previous_record out r';
    [discriminate|].
  rewrite parse_cell_at_S. unfold parse_cell_body. intros H.
  apply pbind_ok_inv in H as (o1 & value & o2 & _ & H & ->).
  apply pbind_ok_inv in H as (o3 & recovered & o4 & _ & H & ->).
  destruct recovered as [v|];
    [|injection H as <- <-; apply changes_within_refl].
  apply pbind_ok_inv in H as (o5 & r1 & o6 & H1 & H & ->).
  apply plift_inv in H1 as [_ H1]. apply assign_value_within in H1.
  apply pbind_ok_inv in H as (o7 & r2 & o8 & H2 & H & ->).
  apply plift_inv in H2 as [_ H2]. apply split_value_within in H2.
  apply pbind_ok_inv in H as (o9 & r3 & o10 & H3 & H & ->).
  apply plift_inv in H as [_ H]. apply detect_cancellation_within in H.
  apply (changes_within_trans self r r1 r'); [done|].
  apply (changes_within_trans self r1 r2 r'); [done|].
  apply (changes_within_trans self r2 r3 r'); [|done].
  clear H H1 H2. destruct (propagate_missing_values self);
    [|injection H3 as <- <-; apply changes_within_refl].
  apply pbind_ok_inv in H3 as (o11 & current & o12 & _ & H3 & ->).
  destruct (is_blank current);
    [|injection H3 as <- <-; apply changes_within_refl].
  apply pbind_ok_inv in H3 as (o13 & r4 & o14 & H4 & H3 & ->).
  apply plift_inv in H3 as [_ H3]. apply copy_previous_within in H3.
  apply (changes_within_trans self r2 r4 r3); [|done].
  destruct (_ && _); [|injection H4 as <- <-; apply changes_within_refl].
  apply pbind_ok_inv in H4 as (o15 & next & o16 & _ & H4 & ->).
  by apply IH in H4.
Qed.

(** X12.  [parse_cell] changes no entry of the record but the
    column of the parser, its second column and the flag [cancelled],
    and it does not take back a flag that is set. *)
Theorem parse_cell_touches_only_its_columns (self : FieldParser)
    (sheet : Sheet.t) (cell : Cell.t) (r : gmap string Value)
    (previous_record : option (gmap string Value)) (out : list Output)
    (r' : gmap string Value) (key : string) :
  parse_cell strptime parse_date self sheet cell r previous_record
    = (out, Ok r') ->
  key <> db_col_name self ->
  extra_column_name self <> Some key ->
  (key <> "cancelled" -> r' !! key = r !! key)
  /\ (r !! key = Some (VBool true) -> r' !! key = Some (VBool true)).
Proof.
  intros H Hcol Hextra. apply parse_cell_at_within in H.
  destruct (H key Hcol Hextra) as [Heq | [-> Htrue]].
  - split; intros; congruence.
  - split; [done|]. by intros _.
Qed.

Section Row.

Variable date_str : Z -> string.
Variable datetime_str : Z -> Z -> string.
Variable column_index_from_string : string -> result positive.

(** X13.  Over a whole row, an entry that no mapped parser has as
    its column or second column is left as it was, so the fixed values
    of the configuration survive, and a flag [cancelled] that is set
    stays set. *)
Theorem parse_row_keeps_what_no_column_writes
    (cols : list (string * FieldParser)) (sheet : Sheet.t) (row : Row.t)
    (col_map : list (nat * string)) (verbose : Z)
    (r last_record : gmap string Value) (out : list Output)
    (r' : gmap string Value) (key : string) :
  (forall name parser,
      dict_get cols name = Some parser ->
      db_col_name parser <> key /\ extra_column_name parser <> Some key) ->
  parse_row strptime parse_date cols sheet row col_map verbose r last_record
    = (out, Ok r') ->
  (key <> "cancelled" -> r' !! key = r !! key)
  /\ (r !! key = Some (VBool true) -> r' !! key = Some (VBool true)).
Proof.
  intros Hcols. revert r out.
  induction col_map as [|[col_idx name] col_map IH]; intros r out H.
  - injection H as <- <-. by split.
  - cbn [parse_row] in H. destruct (_ >=? _); [by apply IH in H|].
    destruct (dict_get cols name) as [parser|] eqn:Hparser; [|discriminate].
    apply pbind_ok_inv in H as (o1 & cell & o2 & _ & H & ->).
    apply pbind_ok_inv in H as (o3 & u & o4 & _ & H & ->).
    apply pbind_ok_inv in H as (o5 & r1 & o6 & Hcell & H & ->).
    destruct (Hcols name parser Hparser) as [Hcol Hextra].
    apply parse_cell_at_within in Hcell.
    apply IH in H as [Hsame Htrue].
    destruct (Hcell key ltac:(congruence) Hextra) as [Heq | [-> Hset]].
    + split.
      * intros Hne. rewrite <- Heq. by apply Hsame.
      * intros Hr. apply Htrue. by rewrite Heq.
    + split; [done|]. intros _. by apply Htrue.
Qed.

End Row.

End Frame.

Lemma parse_cell_touches_only_its_columns_witness :
  (({[ "patient_given_name" := VStr "John";
       "patient_family_name" := VStr "Smith";
       "surgical_pathway" := VStr "ortho" ]} : gmap string Value)
     !! "surgical_pathway"
   = ({[ "surgical_pathway" := VStr "ortho" ]} : gmap string Value)
       !! "surgical_pathway").
Proof.
  refine (proj1 (parse_cell_touches_only_its_columns Sample.strptime
                   Sample.parse_date name_parser empty_sheet
                   (Sample.xlsx_cell 1 0 (Sample.text_cell "Smith John"))
                   {[ "surgical_pathway" := VStr "ortho" ]} (Some ∅) []
                   _ "surgical_pathway" _ _ _) _).
  - vm_compute. reflexivity.
  - discriminate.
  - discriminate.
  - discriminate.
Defined.

(** ** Values on their way into the record *)

Lemma set_date_basis_fields (self self' : FieldParser) (start_date : Z) :
  set_date_basis self start_date = Ok self' ->
  self' = {| db_col_name := db_col_name self;
             db_col := db_col self;
             db_col_type := db_col_type self;
             extra_column_name := extra_column_name self;
             data_insert_method := data_insert_method self;
             propagate_missing_values := propagate_missing_values self;
             check_next_first := check_next_first self;
             cancellation_mark := cancellation_mark self;
             cancellation_colours := cancellation_colours self;
             extra_date_formats := extra_date_formats self;
             day_offsets := day_offsets self;
             value_transformers :=
               ((fun offset => VDate (start_date + offset))
                  <$> day_offsets self) ∪ value_transformers self |}.
Proof.
  unfold set_date_basis. destruct (bool_decide _); [|discriminate].
  by intros [= <-].
Qed.

Section Values.

Variable strptime : string -> string -> result (Z * Z).
Variable parse_date : string -> bool -> result (Z * Z).

(** X14.  After the base date is set on a parser without other
    transformers, a cell whose text is a day code is parsed as the base
    date plus the offset of the code, and a cell with any other text
    that is not empty makes [parse_cell] raise [KeyError]. *)
Theorem day_code_becomes_date (self0 self : FieldParser) (sheet : Sheet.t)
    (cell : Cell.t) (r : gmap string Value)
    (previous_record : option (gmap string Value)) (start_date : Z)
    (s : string) :
  set_date_basis self0 start_date = Ok self ->
  value_transformers self0 = ∅ ->
  day_offsets self0 <> ∅ ->
  Cell.value cell = VStr s ->
  s <> "" ->
  (forall offset,
      day_offsets self0 !! s = Some offset ->
      data_insert_method self0 = replace ->
      extra_column_name self0 = None ->
      propagate_missing_values self0 = false ->
      parse_cell strptime parse_date self sheet cell r previous_record
      = plift (detect_cancellation self cell
                 (<[db_col_name self0 := VDate (start_date + offset)]> r)))
  /\ (day_offsets self0 !! s = None ->
      parse_cell strptime parse_date self sheet cell r previous_record
      = ([], Raise KeyError)).
Proof.
  intros Hset Hempty Hoffsets Hvalue Hs.
  apply set_date_basis_fields in Hset. rewrite Hempty in Hset.
  assert (value_transformers self
          = (fun offset => VDate (start_date + offset)) <$> day_offsets self0)
    as Htrans.
  { rewrite Hset. cbn [value_transformers]. apply (right_id _ _). }
  assert (value_transformers self <> ∅) as Hne.
  { rewrite Htrans. intros H. by apply fmap_empty_inv in H. }
  split.
  - intros offset Hkey Hmethod Hextra Hprop.
    apply (parse_cell_direct strptime parse_date self sheet cell r _
             previous_record (VDate (start_date + offset))).
    + rewrite Hvalue, (transform_value_text self s Hne Hs), Htrans.
      by rewrite lookup_fmap, Hkey.
    + reflexivity.
    + unfold assign_value. rewrite Hset.
      cbn [data_insert_method db_col_name]. rewrite Hmethod.
      reflexivity.
    + rewrite Hset. exact Hextra.
    + rewrite Hset. exact Hprop.
  - intros Hkey.
    apply (parse_cell_unmatched_text strptime parse_date self sheet cell r
             previous_record s Hne Hvalue Hs).
    by rewrite Htrans, lookup_fmap, Hkey.
Qed.

(** X15.  With the insertion method [append] on a text column,
    two texts that are not empty are joined with one space; a cell
    without value, or the first value of a row, replaces the entry, so
    an empty later cell erases the text collected so far; any other
    pair of truthy values raises [TypeError]. *)
Theorem append_joins_or_overwrites (self : FieldParser) (sheet : Sheet.t)
    (cell : Cell.t) (r : gmap string Value)
    (previous_record : option (gmap string Value)) :
  data_insert_method self = append ->
  value_transformers self = ∅ ->
  db_col_type self <> "Date" ->
  db_col_type self <> "Boolean" ->
  extra_column_name self = None ->
  propagate_missing_values self = false ->
  cancellation_mark self = None ->
  (forall old s,
      r !! db_col_name self = Some (VStr old) -> old <> "" ->
      Cell.value cell = VStr s -> s <> "" ->
      parse_cell strptime parse_date self sheet cell r previous_record
      = ([], Ok (<[db_col_name self := VStr (old +:+ " " +:+ s)]> r)))
  /\ (truthy (Cell.value cell) = false
      \/ truthy (get r (db_col_name self)) = false ->
      parse_cell strptime parse_date self sheet cell r previous_record
      = ([], Ok (<[db_col_name self := Cell.value cell]> r)))
  /\ (forall old,
        r !! db_col_name self = Some old -> truthy old = true ->
        truthy (Cell.value cell) = true ->
        (forall s, old <> VStr s) \/ (forall s, Cell.value cell <> VStr s) ->
        parse_cell strptime parse_date self sheet cell r previous_record
        = ([], Raise TypeError)).
Proof.
  intros Hmethod Htrans Hdate Hbool Hextra Hprop Hmark.
  assert (forall v, coerce_boolean self (coerce_datetime self v) = v)
    as Hcoerce.
  { intros v. apply String.eqb_neq in Hdate, Hbool.
    unfold coerce_datetime, coerce_boolean. destruct v; try done.
    - by rewrite Hbool.
    - by rewrite Hdate. }
  assert (forall r1,
            assign_value self (Cell.value cell) r = Ok r1 ->
            parse_cell strptime parse_date self sheet cell r previous_record
            = ([], Ok r1)) as Hok.
  { intros r1 Hassign.
    rewrite (parse_cell_direct strptime parse_date self sheet cell r r1
               previous_record (Cell.value cell)).
    - unfold detect_cancellation. by rewrite Hmark.
    - by apply transform_value_none.
    - by apply recover_date_other.
    - by rewrite Hcoerce.
    - done.
    - done. }
  split; [|split].
  - intros old s Hold Hne Hvalue Hs. apply Hok.
    unfold assign_value, get. rewrite Hmethod, Hold, Hvalue. cbn [default from_option id].
    by rewrite (truthy_text old Hne), (truthy_text s Hs).
  - intros Hfalsy. apply Hok. unfold assign_value. rewrite Hmethod.
    destruct Hfalsy as [-> | ->]; [by rewrite andb_false_r | done].
  - intros old Hold Htold Htvalue Hnot.
    unfold parse_cell. rewrite parse_cell_at_S. unfold parse_cell_body.
    rewrite (transform_value_none self _ Htrans), pbind_lift_ok.
    rewrite (recover_date_other strptime parse_date self _ Hdate), pbind_ret.
    cbv zeta. rewrite Hcoerce.
    assert (assign_value self (Cell.value cell) r = Raise TypeError) as ->.
    { unfold assign_value, get. rewrite Hmethod, Hold. cbn [default from_option id].
      rewrite Htold, Htvalue. cbn [andb].
      destruct Hnot as [Hnot | Hnot].
      - destruct old as [| | |s| |]; try done. by destruct (Hnot s).
      - destruct old as [| | |s| |]; try done.
        destruct (Cell.value cell) as [| | |s'| |]; try done.
        by destruct (Hnot s'). }
    reflexivity.
Qed.

Section Booleans.

Variable date_str : Z -> string.
Variable datetime_str : Z -> Z -> string.

Lemma constructor_pacu_request (r : gmap string Value) (v : Value) :
  r !! "pacu_request" = Some v -> v <> VNone ->
  attrs (procedure_constructor date_str datetime_str r) !! "pacu_request"
  = Some (VBool (truthy v)).
Proof.
  intros Hr Hv. unfold procedure_constructor. cbn [attrs].
  rewrite map_lookup_imap, lookup_insert_ne by done.
  rewrite lookup_insert, Hr. cbn [default from_option id option_bind mbind].
  by destruct v.
Qed.

(** X16.  A text in the column [pacu_request] is stored in the
    record as [False] for n or no and as [True] for y or yes, in any
    letter case, and as the text itself otherwise;
    [procedure_constructor] then makes [True] of every text that is not
    empty and is not n or no. *)
Theorem boolean_text_ends_as_boolean (self : FieldParser) (sheet : Sheet.t)
    (cell : Cell.t) (r : gmap string Value)
    (previous_record : option (gmap string Value)) (s : string) :
  db_col_name self = "pacu_request" ->
  db_col_type self = "Boolean" ->
  value_transformers self = ∅ ->
  data_insert_method self = replace ->
  extra_column_name self = None ->
  propagate_missing_values self = false ->
  cancellation_mark self = None ->
  Cell.value cell = VStr s ->
  exists r',
    parse_cell strptime parse_date self sheet cell r previous_record
      = ([], Ok r')
    /\ r' !! "pacu_request"
       = Some (if bool_decide (Str.lower s ∈ ["n"; "no"]) then VBool false
               else if bool_decide (Str.lower s ∈ ["y"; "yes"]) then VBool true
               else VStr s)
    /\ attrs (procedure_constructor date_str datetime_str r')
         !! "pacu_request"
       = Some (VBool (negb (bool_decide (Str.lower s ∈ ["n"; "no"]))
                      && negb (String.eqb s ""))).
Proof.
  intros Hname Htype Htrans Hmethod Hextra Hprop Hmark Hvalue.
  set (v := if bool_decide (Str.lower s ∈ ["n"; "no"]) then VBool false
            else if bool_decide (Str.lower s ∈ ["y"; "yes"]) then VBool true
            else VStr s).
  exists (<["pacu_request" := v]> r).
  assert (<["pacu_request" := v]> r !! "pacu_request" = Some v) as Hlookup
    by apply lookup_insert_eq.
  split; [|split].
  - rewrite (parse_cell_direct strptime parse_date self sheet cell r
               (<["pacu_request" := v]> r) previous_record (VStr s)).
    + unfold detect_cancellation. by rewrite Hmark.
    + rewrite Hvalue. by apply transform_value_none.
    + apply recover_date_other. by rewrite Htype.
    + unfold assign_value, coerce_datetime, coerce_boolean.
      by rewrite Hmethod, Hname, Htype.
    + done.
    + done.
  - done.
  - rewrite (constructor_pacu_request _ v Hlookup).
    + f_equal. f_equal. unfold v.
      destruct (bool_decide (Str.lower s ∈ ["n"; "no"])) eqn:Hn; [done|].
      destruct (bool_decide (Str.lower s ∈ ["y"; "yes"])) eqn:Hy; [|done].
      cbn [truthy negb andb]. symmetry. apply negb_true_iff, String.eqb_neq.
      intros ->. apply bool_decide_eq_true, list_elem_of_In in Hy.
      destruct Hy as [Hy | [Hy | []]]; vm_compute in Hy; discriminate.
    + unfold v. by repeat destruct (bool_decide _).
Qed.

End Booleans.

End Values.


Lemma day_code_becomes_date_witness :
  parse_cell Sample.strptime Sample.parse_date weekday_parser empty_sheet
    (Sample.xlsx_cell 1 0 (Sample.text_cell "Tue")) ∅ (Some ∅)
  = plift (detect_cancellation weekday_parser
             (Sample.xlsx_cell 1 0 (Sample.text_cell "Tue"))
             (<["surgical_date" := VDate (738886 + 1)]> ∅)).
Proof.
  refine (proj1 (day_code_becomes_date Sample.strptime Sample.parse_date
                   (Sample.parser "surgical_date" args_day_offsets)
                   weekday_parser empty_sheet
                   (Sample.xlsx_cell 1 0 (Sample.text_cell "Tue")) ∅ (Some ∅)
                   738886 "Tue" _ _ _ _ _) 1 _ _ _ _).
  - reflexivity.
  - reflexivity.
  - intros H. apply (f_equal (fun m => m !! "Mon")) in H. vm_compute in H.
    discriminate.
  - reflexivity.
  - discriminate.
  - vm_compute. reflexivity.
  - reflexivity.
  - reflexivity.
  - reflexivity.
Defined.

Lemma append_joins_or_overwrites_witness :
  parse_cell Sample.strptime Sample.parse_date notes_parser empty_sheet
    (Sample.xlsx_cell 1 1 (Sample.text_cell "on aspirin"))
    {[ "surgical_notes" := VStr "left knee" ]} (Some ∅)
  = ([], Ok (<["surgical_notes" := VStr ("left knee" +:+ " " +:+ "on aspirin")]>
               {[ "surgical_notes" := VStr "left knee" ]}))
  /\ parse_cell Sample.strptime Sample.parse_date notes_parser empty_sheet
       (Sample.xlsx_cell 1 1 (Sample.text_cell ""))
       {[ "surgical_notes" := VStr "left knee" ]} (Some ∅)
     = ([], Ok (<["surgical_notes" := VStr ""]>
                  {[ "surgical_notes" := VStr "left knee" ]})).
Proof.
  split.
  - refine (proj1 (append_joins_or_overwrites Sample.strptime
                     Sample.parse_date notes_parser empty_sheet
                     (Sample.xlsx_cell 1 1 (Sample.text_cell "on aspirin"))
                     {[ "surgical_notes" := VStr "left knee" ]} (Some ∅)
                     _ _ _ _ _ _ _) "left knee" "on aspirin" _ _ _ _);
      try reflexivity; discriminate.
  - refine (proj1 (proj2 (append_joins_or_overwrites Sample.strptime
                     Sample.parse_date notes_parser empty_sheet
                     (Sample.xlsx_cell 1 1 (Sample.text_cell ""))
                     {[ "surgical_notes" := VStr "left knee" ]} (Some ∅)
                     _ _ _ _ _ _ _)) _);
      try reflexivity; try discriminate. by left.
Defined.

Lemma boolean_text_ends_as_boolean_witness :
  exists r',
    parse_cell Sample.strptime Sample.parse_date pacu_parser empty_sheet
      (Sample.xlsx_cell 1 0 (Sample.text_cell "maybe")) ∅ (Some ∅)
      = ([], Ok r')
    /\ r' !! "pacu_request"
       = Some (if bool_decide (Str.lower "maybe" ∈ ["n"; "no"])
               then VBool false
               else if bool_decide (Str.lower "maybe" ∈ ["y"; "yes"])
               then VBool true
               else VStr "maybe")
    /\ attrs (procedure_constructor Sample.date_str Sample.datetime_str r')
         !! "pacu_request"
       = Some (VBool (negb (bool_decide (Str.lower "maybe" ∈ ["n"; "no"]))
                      && negb (String.eqb "maybe" ""))).
Proof.
  apply (boolean_text_ends_as_boolean Sample.strptime Sample.parse_date
           Sample.date_str Sample.datetime_str pacu_parser empty_sheet
           (Sample.xlsx_cell 1 0 (Sample.text_cell "maybe")) ∅ (Some ∅)
           "maybe"); reflexivity.
Defined.

Lemma split_value_last_token_witness :
  split_value name_parser (VStr "Smith  John ") ∅
  = Ok (<["patient_family_name" := VStr "Smith"]>
          (<["patient_given_name" := VStr "John"]> ∅)).
Proof.
  apply (split_value_last_token name_parser "patient_family_name" ∅
           (Str.chars "Smith") (Str.chars "  ") (Str.chars "John")
           (Str.chars " ")); try reflexivity; try discriminate.
  right. split; [discriminate | reflexivity].
Defined.

(** ** The configuration that [read_config] builds *)

Lemma read_globals_lookup (contents : gmap string Yaml)
    (todo : list (string * PyType)) (config config' : gmap string Yaml) :
  NoDup (map fst todo) ->
  read_globals contents todo config = Ok config' ->
  (forall setting typ y,
      In (setting, typ) todo -> contents !! setting = Some y ->
      isinstance y typ = true /\ config' !! setting = Some y)
  /\ (forall setting,
        ~ In setting (map fst todo) \/ contents !! setting = None ->
        config' !! setting = config !! setting).
Proof.
  revert config. induction todo as [|[setting0 typ0] todo IH];
    intros config Hnodup Hread.
  - cbn [read_globals] in Hread. injection Hread as <-.
    split.
    + intros setting typ y H. destruct H.
    + done.
  - cbn [map fst] in Hnodup. apply NoDup_cons in Hnodup as [Hfresh Hnodup].
    rewrite list_elem_of_In in Hfresh. cbn [read_globals] in Hread.
    destruct (contents !! setting0) as [y0|] eqn:Hy0.
    + destruct (isinstance y0 typ0) eqn:Htyp; [|discriminate].
      destruct (IH _ Hnodup Hread) as [IH1 IH2]. split.
      * intros setting typ y [[= <- <-] | Hin] Hy.
        -- rewrite Hy0 in Hy. injection Hy as <-. split; [done|].
           rewrite IH2 by by left. apply lookup_insert_eq.
        -- by apply (IH1 setting typ y).
      * intros setting Hsetting.
        assert (setting0 <> setting) as Hne.
        { intros <-. destruct Hsetting as [Hnot | Hnone]; [|congruence].
          apply Hnot. by left. }
        rewrite IH2, lookup_insert_ne; [done|done|].
        destruct Hsetting as [Hnot | Hnone]; [|by right].
        left. intros Hin. apply Hnot. by right.
    + destruct (IH _ Hnodup Hread) as [IH1 IH2]. split.
      * intros setting typ y [[= <- <-] | Hin] Hy; [congruence|].
        by apply (IH1 setting typ y).
      * intros setting Hsetting.
        destruct (decide (setting = setting0)) as [->|Hne];
          [apply IH2; by right|].
        apply IH2. destruct Hsetting as [Hnot | Hnone]; [|by right].
        left. intros Hin. apply Hnot. by right.
Qed.

Lemma read_config_inv (contents : Contents) (config : Config) :
  read_config contents = Ok config ->
  read_globals (settings contents) global_settings {["sheets" := YList []]}
    = Ok (globals config)
  /\ read_columns (heading_row (globals config) =? 0) (column_defs contents) []
     = Ok (columns config).
Proof.
  unfold read_config.
  destruct (read_globals _ _ _) as [g|e]; [|discriminate]. cbn [rbind].
  destruct (read_columns _ _ _) as [cols|e] eqn:Hcols; [|discriminate].
  by intros [= <-].
Qed.

Lemma global_settings_nodup : NoDup (map fst global_settings).
Proof.
  apply NoDup_ListNoDup. repeat constructor; cbn; intros H;
    repeat (destruct H as [H|H]; [discriminate|]); done.
Qed.

(** X17.  In the configuration that [read_config] gives, a
    recognised setting of the file is present with its value, which has
    the declared type; nothing else is present but the default of
    [sheets]; and [sheets] always holds a list. *)
Theorem read_config_globals (contents : Contents) (config : Config) :
  read_config contents = Ok config ->
  (forall setting typ y,
      In (setting, typ) global_settings ->
      settings contents !! setting = Some y ->
      isinstance y typ = true /\ globals config !! setting = Some y)
  /\ (forall setting y,
        globals config !! setting = Some y ->
        settings contents !! setting = Some y
        \/ (setting = "sheets" /\ y = YList []))
  /\ (forall setting,
        is_Some (globals config !! setting) ->
        In setting (map fst global_settings))
  /\ exists items, globals config !! "sheets" = Some (YList items).
Proof.
  intros [Hglobals _]%read_config_inv.
  destruct (read_globals_lookup _ _ _ _ global_settings_nodup Hglobals)
    as [H1 H2].
  assert (forall setting y,
            globals config !! setting = Some y ->
            In setting (map fst global_settings)
            /\ (settings contents !! setting = Some y
                \/ (setting = "sheets" /\ y = YList []))) as H3.
  { intros setting y Hy.
    destruct (decide (In setting (map fst global_settings))) as [Hin|Hnot].
    - split; [done|].
      destruct (settings contents !! setting) as [y'|] eqn:Hy'.
      + left. apply in_map_iff in Hin as ([s typ] & <- & Hin).
        destruct (H1 _ _ _ Hin Hy') as [_ H]. cbn [fst] in Hy. congruence.
      + right. rewrite H2 in Hy by by right.
        apply lookup_singleton_Some in Hy as [<- <-]. done.
    - rewrite H2 in Hy by by left.
      apply lookup_singleton_Some in Hy as [<- <-].
      exfalso. apply Hnot. cbn. auto. }
  split; [done|]. split; [intros s y Hy; by destruct (H3 s y Hy)|].
  split; [intros s [y Hy]; by destruct (H3 s y Hy)|].
  destruct (settings contents !! "sheets") as [y|] eqn:Hy.
  - destruct (H1 "sheets" py_list_type y) as [Htyp Hget]; [cbn; auto|done|].
    destruct y; try discriminate. by eexists.
  - exists []. rewrite H2 by by right. done.
Qed.

Lemma read_config_globals_witness :
  (forall setting typ y,
      In (setting, typ) global_settings ->
      settings sample_contents !! setting = Some y ->
      isinstance y typ = true /\ globals sample_config !! setting = Some y)
  /\ (forall setting y,
        globals sample_config !! setting = Some y ->
        settings sample_contents !! setting = Some y
        \/ (setting = "sheets" /\ y = YList []))
  /\ (forall setting,
        is_Some (globals sample_config !! setting) ->
        In setting (map fst global_settings))
  /\ exists items, globals sample_config !! "sheets" = Some (YList items).
Proof.
  apply (read_config_globals sample_contents sample_config).
  vm_compute. reflexivity.
Defined.

(** *** Stripping and the dictionary of columns *)

Lemma skip_space_idemp (l : list ascii) :
  Str.skip_space (Str.skip_space l) = Str.skip_space l.
Proof.
  induction l as [|a l IH]; [done|]. simpl.
  destruct (Str.isspace a) eqn:Ha; [done|]. simpl. by rewrite Ha.
Qed.

Lemma skip_space_snoc (l : list ascii) (a : ascii) :
  Str.isspace a = false ->
  Str.skip_space (l ++ [a]) = Str.skip_space l ++ [a].
Proof.
  intros Ha. induction l as [|b l IH]; simpl.
  - by rewrite Ha.
  - by destruct (Str.isspace b).
Qed.

Lemma skip_space_head (l : list ascii) :
  Str.skip_space l = []
  \/ exists a l', Str.skip_space l = a :: l' /\ Str.isspace a = false.
Proof.
  induction l as [|a l IH]; [by left|]. simpl.
  destruct (Str.isspace a) eqn:Ha; [done|]. right. by exists a, l.
Qed.

Lemma strip_idemp (s : string) : Str.strip (Str.strip s) = Str.strip s.
Proof.
  unfold Str.strip. rewrite SplitFacts.chars_text.
  set (Y := Str.skip_space (Str.chars s)).
  assert (Str.skip_space (rev (Str.skip_space (rev Y)))
          = rev (Str.skip_space (rev Y))) as ->.
  { destruct (skip_space_head (Str.chars s)) as [H | (a & l' & H & Ha)];
      fold Y in H; rewrite H; [done|].
    cbn [rev]. rewrite (skip_space_snoc _ a Ha), rev_app_distr.
    simpl. by rewrite Ha. }
  by rewrite rev_involutive, skip_space_idemp.
Qed.

Lemma dict_get_set_eq {K A} `{EqDecision K} (d : list (K * A)) (key : K)
    (v : A) :
  dict_get (dict_set d key v) key = Some v.
Proof.
  induction d as [|[k x] d IH]; simpl.
  - by rewrite decide_True.
  - destruct (decide (k = key)) as [->|Hne]; simpl.
    + by rewrite decide_True.
    + by rewrite decide_False.
Qed.

Lemma dict_get_set_ne {K A} `{EqDecision K} (d : list (K * A)) (key key' : K)
    (v : A) :
  key <> key' -> dict_get (dict_set d key v) key' = dict_get d key'.
Proof.
  intros Hne. induction d as [|[k x] d IH]; simpl.
  - by rewrite decide_False.
  - destruct (decide (k = key)) as [->|Hk]; simpl.
    + by rewrite !decide_False.
    + destruct (decide (k = key')); [done|]. exact IH.
Qed.

Lemma dict_set_keys {K A} `{EqDecision K} (d : list (K * A)) (key : K)
    (v : A) :
  map fst (dict_set d key v)
  = if bool_decide (key ∈ map fst d) then map fst d else map fst d ++ [key].
Proof.
  induction d as [|[k x] d IH]; cbn [dict_set map fst].
  - by rewrite bool_decide_eq_false_2 by apply not_elem_of_nil.
  - destruct (decide (k = key)) as [->|Hne]; cbn [map fst].
    + rewrite bool_decide_eq_true_2; [done|]. apply list_elem_of_here.
    + rewrite IH. destruct (bool_decide (key ∈ map fst d)) eqn:Hin.
      * apply bool_decide_eq_true in Hin.
        rewrite bool_decide_eq_true_2; [done|]. by apply list_elem_of_further.
      * apply bool_decide_eq_false in Hin.
        rewrite bool_decide_eq_false_2; [done|].
        intros [?|?]%elem_of_cons; congruence.
Qed.

Lemma dict_set_nodup {K A} `{EqDecision K} (d : list (K * A)) (key : K)
    (v : A) :
  NoDup (map fst d) -> NoDup (map fst (dict_set d key v)).
Proof.
  intros Hd. rewrite dict_set_keys.
  destruct (bool_decide (key ∈ map fst d)) eqn:Hin; [done|].
  apply bool_decide_eq_false in Hin. apply NoDup_app.
  split; [done|]. split; [|apply NoDup_singleton].
  intros k Hk ->%list_elem_of_singleton. done.
Qed.

Lemma dict_get_is_Some {K A} `{EqDecision K} (d : list (K * A)) (key : K) :
  is_Some (dict_get d key) <-> key ∈ map fst d.
Proof.
  induction d as [|[k x] d IH]; simpl.
  - split; [by intros [? ?] | by intros ?%not_elem_of_nil].
  - destruct (decide (k = key)) as [->|Hne].
    + split; [intros _; apply list_elem_of_here | by eexists].
    + rewrite IH. split; [apply list_elem_of_further|].
      intros [?|?]%elem_of_cons; congruence.
Qed.

Lemma read_columns_lookup (headerless : bool) (defs : list ColumnDef)
    (cols cols' : list (string * FieldParser)) :
  read_columns headerless defs cols = Ok cols' ->
  (forall before col_def after,
      defs = before ++ col_def :: after ->
      (forall later, In later after ->
         excel_name headerless later <> excel_name headerless col_def) ->
      exists name db_name parser,
        excel_name headerless col_def = Some name
        /\ column_name col_def = Some db_name
        /\ FieldParser_init db_name (parser_args col_def) = Ok parser
        /\ dict_get cols' name = Some parser)
  /\ (forall name,
        (forall col_def, In col_def defs ->
           excel_name headerless col_def <> Some name) ->
        dict_get cols' name = dict_get cols name)
  /\ (NoDup (map fst cols) -> NoDup (map fst cols')).
Proof.
  revert cols. induction defs as [|d defs IH]; intros cols Hread.
  - cbn [read_columns] in Hread. injection Hread as <-.
    split; [|done]. intros [|? ?] ? ? H; discriminate.
  - cbn [read_columns] in Hread.
    destruct (if headerless then excel_column d else excel_heading d)
      as [raw|] eqn:Hraw; [|discriminate].
    destruct (column_name d) as [db_name|] eqn:Hdb; [|discriminate].
    destruct (FieldParser_init db_name (parser_args d)) as [parser|e]
      eqn:Hinit; [|discriminate].
    cbn [rbind] in Hread. destruct (IH _ Hread) as (IH1 & IH2 & IH3).
    assert (excel_name headerless d = Some (Str.strip raw)) as Hkey.
    { unfold excel_name. by rewrite Hraw. }
    split; [|split].
    + intros [|d0 before] col_def after Hdefs Hlater.
      * injection Hdefs as <- <-.
        exists (Str.strip raw), db_name, parser.
        split; [done|]. split; [done|]. split; [done|].
        rewrite IH2; [apply dict_get_set_eq|].
        intros later Hin. rewrite <- Hkey. by apply Hlater.
      * injection Hdefs as <- ->. by apply (IH1 before col_def after).
    + intros name Hname. rewrite IH2.
      * apply dict_get_set_ne. intros <-. apply (Hname d); [by left|done].
      * intros col_def Hin. apply Hname. by right.
    + intros Hnodup. by apply IH3, dict_set_nodup.
Qed.

(** X18.  When [read_config] succeeds, every column definition
    has its name fields and a valid parser, and is found under its
    stripped name unless a later definition has the same name; every
    key is the stripped name of a definition; no key occurs twice. *)
Theorem read_config_columns (contents : Contents) (config : Config) :
  read_config contents = Ok config ->
  let headerless := heading_row (globals config) =? 0 in
  (forall before col_def after,
      column_defs contents = before ++ col_def :: after ->
      (forall later, In later after ->
         excel_name headerless later <> excel_name headerless col_def) ->
      exists name db_name parser,
        excel_name headerless col_def = Some name
        /\ column_name col_def = Some db_name
        /\ FieldParser_init db_name (parser_args col_def) = Ok parser
        /\ dict_get (columns config) name = Some parser)
  /\ (forall name,
        is_Some (dict_get (columns config) name) ->
        Str.strip name = name
        /\ exists col_def,
             In col_def (column_defs contents)
             /\ excel_name headerless col_def = Some name)
  /\ NoDup (map fst (columns config)).
Proof.
  intros [_ Hcols]%read_config_inv headerless. fold headerless in Hcols.
  destruct (read_columns_lookup _ _ _ _ Hcols) as (H1 & H2 & H3).
  split; [done|]. split; [|apply H3; constructor].
  intros name Hsome.
  destruct (decide (Exists (fun col_def =>
                              excel_name headerless col_def = Some name)
                      (column_defs contents))) as [Hex|Hnot].
  - apply Exists_exists in Hex as (col_def & Hin%list_elem_of_In & Hkey).
    split; [|by exists col_def].
    unfold excel_name in Hkey.
    destruct (if headerless then _ else _) as [raw|]; [|discriminate].
    injection Hkey as <-. apply strip_idemp.
  - rewrite H2 in Hsome; [by destruct Hsome|].
    intros col_def Hin Hkey. apply Hnot, Exists_exists.
    exists col_def. by rewrite list_elem_of_In.
Qed.

Lemma read_config_columns_witness :
  exists name db_name parser,
    excel_name false (column_def "Name" "patient_given_name" args_split)
      = Some name
    /\ column_name (column_def "Name" "patient_given_name" args_split)
       = Some db_name
    /\ FieldParser_init db_name args_split = Ok parser
    /\ dict_get (columns sample_config) name = Some parser.
Proof.
  refine (proj1 (read_config_columns sample_contents sample_config _)
            [] (column_def "Name" "patient_given_name" args_split) _ _ _).
  - vm_compute. reflexivity.
  - reflexivity.
  - intros later Hin. cbn in Hin.
    destruct Hin as [<- | [<- | [<- | [<- | []]]]]; vm_compute; discriminate.
Defined.

(** ** Mapping the columns of a sheet *)

Lemma dict_set_fresh {K A} `{EqDecision K} (d : list (K * A)) (key : K)
    (v : A) :
  key ∉ map fst d -> dict_set d key v = d ++ [(key, v)].
Proof.
  induction d as [|[k x] d IH]; cbn [dict_set map fst app]; [done|].
  intros Hnot. apply not_elem_of_cons in Hnot as [Hne Hnot].
  rewrite decide_False by done. by rewrite IH.
Qed.

Lemma dict_get_app {K A} `{EqDecision K} (d d' : list (K * A)) (key : K) :
  dict_get (d ++ d') key
  = match dict_get d key with
    | Some x => Some x
    | None => dict_get d' key
    end.
Proof.
  induction d as [|[k x] d IH]; cbn [dict_get app]; [done|].
  by destruct (decide (k = key)).
Qed.

Section Headings.

Variable date_str : Z -> string.
Variable datetime_str : Z -> Z -> string.

Lemma heading_entries_bound (cols : list (string * FieldParser))
    (cells : list Cell.t) (col_idx : nat) :
  Forall (fun entry => (col_idx <= fst entry)%nat)
    (heading_entries date_str datetime_str cols cells col_idx).
Proof.
  revert col_idx. induction cells as [|cell cells IH]; intros col_idx;
    cbn [heading_entries]; [constructor|].
  apply Forall_app. split.
  - destruct (bool_decide _); repeat constructor.
  - eapply Forall_impl; [apply IH|]. cbn. intros entry H. lia.
Qed.

Lemma heading_entries_sorted (cols : list (string * FieldParser))
    (cells : list Cell.t) (col_idx : nat) :
  StronglySorted lt (map fst (heading_entries date_str datetime_str cols cells col_idx)).
Proof.
  revert col_idx. induction cells as [|cell cells IH]; intros col_idx;
    cbn [heading_entries]; [constructor|].
  destruct (bool_decide _); cbn [app map fst]; [|apply IH].
  constructor; [apply IH|].
  apply Forall_forall.
  intros i (entry & <- & Hin%list_elem_of_In)%list_elem_of_In%in_map_iff.
  pose proof (heading_entries_bound cols cells (S col_idx)) as Hb.
  rewrite Forall_forall in Hb. specialize (Hb entry Hin). cbn in Hb. lia.
Qed.

Lemma heading_entries_lookup (cols : list (string * FieldParser))
    (cells : list Cell.t) (col_idx i : nat) (name : string) :
  dict_get (heading_entries date_str datetime_str cols cells col_idx) i = Some name <->
  exists cell,
    (col_idx <= i)%nat /\ cells !! (i - col_idx)%nat = Some cell
    /\ heading_text date_str datetime_str cell = name /\ is_Some (dict_get cols name).
Proof.
  revert col_idx i name.
  induction cells as [|cell cells IH]; intros col_idx i name;
    cbn [heading_entries].
  - split; [done|]. by intros (cell & _ & H & _).
  - assert (forall known : list (nat * string),
              (known = [] \/ known = [(col_idx, heading_text date_str datetime_str cell)]) ->
              dict_get (known ++ heading_entries date_str datetime_str cols cells (S col_idx)) i
              = if decide (col_idx = i)
                then match known with
                     | [] => None
                     | _ => Some (heading_text date_str datetime_str cell)
                     end
                else dict_get (heading_entries date_str datetime_str cols cells (S col_idx)) i)
      as Hget.
    { intros known [-> | ->]; cbn [app dict_get fst].
      - destruct (decide (col_idx = i)) as [<-|]; [|done].
        destruct (dict_get _ col_idx) as [x|] eqn:Hx; [|done].
        apply IH in Hx as (? & ? & _). lia.
      - by destruct (decide (col_idx = i)). }
    rewrite Hget by (destruct (bool_decide _); auto).
    destruct (decide (col_idx = i)) as [<-|Hne].
    + replace (col_idx - col_idx)%nat with 0%nat by lia. cbn [lookup list_lookup].
      destruct (bool_decide _) eqn:Hknown.
      * apply bool_decide_eq_true in Hknown. split.
        -- intros [= <-]. by exists cell.
        -- by intros (c & _ & [= <-] & <- & _).
      * apply bool_decide_eq_false in Hknown. split; [done|].
        intros (c & _ & [= <-] & <- & Hsome). done.
    + rewrite IH. split.
      * intros (c & Hle & Hc & Hrest). exists c. split; [lia|].
        split; [|done].
        replace (i - col_idx)%nat with (S (i - S col_idx))%nat by lia. done.
      * intros (c & Hle & Hc & Hrest). exists c. split; [lia|].
        split; [|done].
        replace (i - col_idx)%nat with (S (i - S col_idx))%nat in Hc by lia.
        done.
Qed.

Lemma map_headings_run (cols : list (string * FieldParser))
    (cells : list Cell.t) (col_idx : nat) (verbose : Z)
    (col_map : list (nat * string)) :
  Forall (fun i => (i < col_idx)%nat) (map fst col_map) ->
  exists out,
    map_headings date_str datetime_str cols cells col_idx verbose col_map
    = (out, Ok (col_map ++ heading_entries date_str datetime_str cols cells col_idx))
    /\ (verbose < 2 -> out = []).
Proof.
  revert col_idx col_map.
  induction cells as [|cell cells IH]; intros col_idx col_map Hbound.
  - exists []. cbn [map_headings heading_entries]. by rewrite app_nil_r.
  - cbn [map_headings heading_entries]. fold (heading_text date_str datetime_str cell).
    set (known := bool_decide (is_Some (dict_get cols (heading_text date_str datetime_str cell)))).
    destruct (IH (S col_idx)
                (if known then dict_set col_map col_idx (heading_text date_str datetime_str cell)
                 else col_map)) as (out & Hrun & Hquiet).
    { destruct known.
      - rewrite dict_set_fresh.
        + rewrite map_app, Forall_app. split.
          * eapply Forall_impl; [exact Hbound|]. cbn. lia.
          * repeat constructor.
        + intros Hin. rewrite Forall_forall in Hbound.
          specialize (Hbound _ Hin). lia.
      - eapply Forall_impl; [exact Hbound|]. cbn. lia. }
    rewrite Hrun.
    assert ((if known then dict_set col_map col_idx (heading_text date_str datetime_str cell)
             else col_map) ++ heading_entries date_str datetime_str cols cells (S col_idx)
            = col_map
              ++ (if known then [(col_idx, heading_text date_str datetime_str cell)] else [])
              ++ heading_entries date_str datetime_str cols cells (S col_idx)) as ->.
    { destruct known; [|done]. rewrite dict_set_fresh.
      - by rewrite <- app_assoc.
      - intros Hin. rewrite Forall_forall in Hbound.
        specialize (Hbound _ Hin). lia. }
    unfold print_if. destruct (2 <=? verbose) eqn:Hv.
    + eexists. split; [reflexivity|]. intros ?. lia.
    + exists out. split; [reflexivity|done].
Qed.

(** X19.  The loop over the heading row maps a column exactly
    when the stripped text of its heading cell is a configured name,
    in the order of the columns; it prints nothing below verbosity 2. *)
Theorem map_headings_result (cols : list (string * FieldParser))
    (cells : list Cell.t) (verbose : Z) :
  exists out col_map,
    map_headings date_str datetime_str cols cells 0 verbose []
    = (out, Ok col_map)
    /\ (forall i name,
          dict_get col_map i = Some name <->
          exists cell,
            cells !! i = Some cell
            /\ Str.strip (py_str date_str datetime_str (Cell.value cell))
               = name
            /\ is_Some (dict_get cols name))
    /\ StronglySorted lt (map fst col_map)
    /\ (verbose < 2 -> out = []).
Proof.
  destruct (map_headings_run cols cells 0 verbose []) as (out & Hrun & Hquiet);
    [constructor|].
  exists out, (heading_entries date_str datetime_str cols cells 0). split; [done|].
  split; [|split; [apply heading_entries_sorted | done]].
  intros i name. rewrite heading_entries_lookup.
  replace (i - 0)%nat with i by lia.
  split; intros (cell & H); exists cell; [tauto|].
  split; [lia|tauto].
Qed.

End Headings.

(** ** Sheets and rows that give nothing to store *)

Lemma mbind_ok {A B} (m : M A) (k : A -> M B) (db db' : Store)
    (out : list Output) (a : A) :
  m db = (out, db', Ok a) ->
  mbind_ m k db = (let '(out', db'', r) := k a db' in (out ++ out', db'', r)).
Proof. intros H. unfold mbind_. by rewrite H. Qed.

Lemma mbind_raise {A B} (m : M A) (k : A -> M B) (db db' : Store)
    (out : list Output) (e : Exn) :
  m db = (out, db', Raise e) -> mbind_ m k db = (out, db', Raise e).
Proof. intros H. unfold mbind_. by rewrite H. Qed.

Lemma seed_record_lookup (config : gmap string Yaml) (key : string) :
  key <> "surgical_pathway" -> key <> "surgical_consultant" ->
  seed_record config !! key = None.
Proof.
  intros H1 H2. unfold seed_record. cbn [fold_left].
  destruct (config !! "surgical_pathway") as [[| | | |s| | | |]|];
    destruct (config !! "surgical_consultant") as [[| | | |s'| | | |]|];
    rewrite ?lookup_insert_ne by done; apply lookup_empty.
Qed.

Lemma seed_record_incomplete (config : gmap string Yaml) (verbose : Z) :
  exists out, has_required_fields (seed_record config) verbose
              = (out, Ok false).
Proof.
  pose proof (has_required_fields_complete (seed_record config) verbose) as H.
  destruct (has_required_fields _ _) as [out res]. cbn [snd] in H.
  exists out. rewrite H. f_equal. f_equal.
  destruct (complete (seed_record config)) eqn:Hc; [|done].
  destruct (complete_required _ "idmrn" Hc) as (v & Hv & _).
  - cbn. auto.
  - by rewrite seed_record_lookup in Hv.
Qed.

Section Sheets.

Variable strptime : string -> string -> result (Z * Z).
Variable parse_date : string -> bool -> result (Z * Z).
Variable date_str : Z -> string.
Variable datetime_str : Z -> Z -> string.
Variable column_index_from_string : string -> result positive.

Lemma parse_row_short (cols : list (string * FieldParser)) (sheet : Sheet.t)
    (row : Row.t) (col_map : list (nat * string)) (verbose : Z)
    (r last_record : gmap string Value) :
  Forall (fun entry => Row.len row <= Z.of_nat (fst entry)) col_map ->
  parse_row strptime parse_date cols sheet row col_map verbose r last_record
  = pret r.
Proof.
  induction 1 as [|[col_idx name] col_map Hshort _ IH]; [done|].
  cbn [parse_row]. cbn [fst] in Hshort.
  by rewrite (proj2 (Z.geb_le _ _) Hshort).
Qed.

(** X20.  Rows that end before the first mapped column, empty
    rows among them, store nothing: the session and the database stay
    as they are, and only missing fields are reported. *)
Theorem short_rows_are_skipped (cols : list (string * FieldParser))
    (sheet : Sheet.t) (config : gmap string Yaml)
    (col_map : list (nat * string)) (verbose row_offset : Z)
    (rows : list Row.t) (row_idx : nat) (last_record : gmap string Value)
    (session : Session) (db : Store) :
  Forall (fun row =>
            Forall (fun entry => Row.len row <= Z.of_nat (fst entry)) col_map)
    rows ->
  exists out,
    ingest_rows strptime parse_date date_str datetime_str cols sheet config
      col_map verbose row_offset rows row_idx last_record session db
    = (out, db, Ok session)
    /\ forall o, In o out -> exists field, o = OutMissingRequiredField field.
Proof.
  intros Hrows. revert row_idx last_record.
  induction Hrows as [|row rows Hshort _ IH]; intros row_idx last_record.
  - exists []. split; [done|]. intros o [].
  - cbn [ingest_rows].
    rewrite (parse_row_short cols sheet row col_map verbose _ _ Hshort).
    destruct (seed_record_incomplete config verbose) as [out1 Hseed].
    destruct (IH (S row_idx) (seed_record config)) as (out2 & Hrest & Hout2).
    exists (out1 ++ out2). split.
    + rewrite (mbind_ok _ _ db db [] (seed_record config)) by done.
      rewrite (mbind_ok _ _ db db out1 session);
        [|by apply persist_record_incomplete].
      rewrite Hrest. reflexivity.
    + intros o [Hin | Hin]%in_app_iff; [|by apply Hout2].
      clear -Hseed Hin. unfold has_required_fields in Hseed.
      revert Hseed. generalize all_db_columns. intros fields.
      induction fields as [|field fields IH]; cbn [check_required_fields].
      * intros Heq. injection Heq as Heq. subst out1. destruct Hin.
      * destruct (_ && _); [|exact IH].
        destruct (3 <=? verbose); intros Heq; injection Heq as Heq;
          subst out1; [|destruct Hin].
        destruct Hin as [<- | []]. by eexists.
Qed.

Lemma heading_entries_none (cols : list (string * FieldParser))
    (cells : list Cell.t) (col_idx : nat) :
  (forall cell,
      In cell cells ->
      dict_get cols
        (Str.strip (py_str date_str datetime_str (Cell.value cell))) = None) ->
  heading_entries date_str datetime_str cols cells col_idx = [].
Proof.
  revert col_idx. induction cells as [|cell cells IH];
    intros col_idx Hunknown; [done|].
  cbn [heading_entries]. unfold heading_text.
  rewrite (Hunknown cell) by by left.
  rewrite bool_decide_eq_false_2 by by intros [? ?].
  apply IH. intros c Hc. apply Hunknown. by right.
Qed.

Lemma print_if_run (condition : bool) (o : Output) :
  print_if condition o = (if condition then [o] else [], Ok tt).
Proof. by destruct condition. Qed.

(** X21.  A sheet none of whose heading cells is a
    configured name is passed over: the warning is printed last, and
    the database, the session and the configuration stay as they
    are. *)
Theorem sheet_without_recognised_columns (sheet : Sheet.t) (config : Config)
    (session : Session) (verbose : Z) (db : Store) (header_row : Row.t) :
  0 < heading_row (globals config) ->
  Sheet.row sheet (heading_row (globals config) - 1) = Ok header_row ->
  (forall cell,
      In cell (Row.cells header_row) ->
      dict_get (columns config)
        (Str.strip (py_str date_str datetime_str (Cell.value cell))) = None) ->
  exists out,
    ingest_sheet strptime parse_date date_str datetime_str
      column_index_from_string sheet config session verbose db
    = (out ++ [OutNoRecognisedColumns (Sheet.title sheet)], db,
       Ok (config, session)).
Proof.
  intros Hrow Hheader Hunknown.
  destruct (map_headings_run date_str datetime_str (columns config)
              (Row.cells header_row) 0 verbose []) as (out1 & Hrun & _);
    [constructor|].
  rewrite heading_entries_none in Hrun by done. cbn [app] in Hrun.
  exists ((if 1 <=? verbose then [OutIngestingSheet (Sheet.title sheet)]
           else []) ++ out1).
  unfold ingest_sheet.
  rewrite (mbind_ok _ _ db db
             (if 1 <=? verbose then [OutIngestingSheet (Sheet.title sheet)]
              else []) tt)
    by (unfold lift; by rewrite print_if_run).
  rewrite (proj2 (Z.ltb_lt _ _) Hrow).
  rewrite (mbind_ok _ _ db db out1 []).
  - cbn. by rewrite <- !app_assoc.
  - rewrite (mbind_ok _ _ db db [] header_row)
      by (unfold lift, plift; by rewrite Hheader).
    unfold lift. by rewrite Hrun.
Qed.

(** X22.  When the start-of-week cell holds a value that
    is truthy and is not a text, a date for example, [ingest_sheet]
    raises before any row is read and the database stays as it is. *)
Theorem week_start_cell_must_hold_text (sheet : Sheet.t) (config : Config)
    (session : Session) (verbose : Z) (db : Store) (header_row : Row.t)
    (out1 : list Output) (entry : nat * string)
    (col_map : list (nat * string)) (name : string) (cell : Cell.t) :
  0 < heading_row (globals config) ->
  Sheet.row sheet (heading_row (globals config) - 1) = Ok header_row ->
  map_headings date_str datetime_str (columns config)
    (Row.cells header_row) 0 verbose [] = (out1, Ok (entry :: col_map)) ->
  globals config !! "week_start_date_cell" = Some (YStr name) ->
  Sheet.cell_named sheet name = Ok cell ->
  truthy (Cell.value cell) = true ->
  (forall s, Cell.value cell <> VStr s) ->
  exists out e,
    ingest_sheet strptime parse_date date_str datetime_str
      column_index_from_string sheet config session verbose db
    = (out, db, Raise e).
Proof.
  intros Hrow Hheader Hmap Hname Hcell Htruthy Hnot.
  unfold ingest_sheet.
  rewrite (mbind_ok _ _ db db
             (if 1 <=? verbose then [OutIngestingSheet (Sheet.title sheet)]
              else []) tt)
    by (unfold lift; by rewrite print_if_run).
  rewrite (proj2 (Z.ltb_lt _ _) Hrow).
  rewrite (mbind_ok _ _ db db out1 (entry :: col_map)).
  2:{ rewrite (mbind_ok _ _ db db [] header_row)
        by (unfold lift, plift; by rewrite Hheader).
      unfold lift. by rewrite Hmap. }
  rewrite (mbind_ok _ _ db db
             (if 1 <=? verbose then [OutFoundColumns (entry :: col_map)]
              else []) tt)
    by (unfold lift; by rewrite print_if_run).
  rewrite Hname.
  rewrite (mbind_raise _ _ db db [] TypeError).
  - cbn. by eexists _, _.
  - rewrite (mbind_ok _ _ db db [] cell)
      by (unfold lift, plift; by rewrite Hcell).
    rewrite Htruthy.
    destruct (Cell.value cell) as [| | |s| |] eqn:Hv; try done.
    by destruct (Hnot s).
Qed.

(** X23.  An ingestion that ends normally keeps every
    stored procedure at its position, with its patient key, its
    procedure and its date. *)
Theorem ingestion_keeps_stored_procedures (file_path config_file_path : string)
    (contents : Contents) (book : list Sheet.t) (verbose : Z)
    (db db1 : Store) (out : list Output) :
  ingest_file strptime parse_date date_str datetime_str
    column_index_from_string file_path config_file_path contents book
    verbose db = (out, db1, Ok tt) ->
  (length (procedures db) <= length (procedures db1))%nat
  /\ forall i row,
       procedures db !! i = Some row ->
       exists row',
         procedures db1 !! i = Some row'
         /\ getattr row' "idmrn" = getattr row "idmrn"
         /\ getattr row' "surgical_procedure"
            = getattr row "surgical_procedure"
         /\ getattr row' "surgical_date" = getattr row "surgical_date".
Proof.
  intros Hrun.
  assert (run (ingest_file strptime parse_date date_str datetime_str
                 column_index_from_string file_path config_file_path
                 contents book verbose) db = (db1, Ok tt)) as H
    by (apply run_spec; by exists out).
  destruct (ingest_file_replays strptime parse_date date_str datetime_str
              column_index_from_string file_path config_file_path contents
              book verbose db db1 tt H) as (_ & [[extra Hkeys] _ _] & _).
  split.
  - apply (f_equal length) in Hkeys.
    rewrite length_app, !length_map in Hkeys. lia.
  - intros i row Hrow.
    assert (map key_of (procedures db1) !! i = Some (key_of row)) as Hi.
    { rewrite Hkeys. apply lookup_app_l_Some.
      by rewrite list_lookup_fmap, Hrow. }
    change (map key_of (procedures db1)) with (key_of <$> procedures db1)
      in Hi.
    rewrite list_lookup_fmap in Hi.
    destruct (procedures db1 !! i) as [row'|]; [|discriminate].
    cbn in Hi. unfold key_of in Hi. injection Hi as H1 H2 H3.
    by exists row'.
Qed.

End Sheets.

(** ** Candidates and stored rows *)

Lemma check_required_fields_output (fields : Table) (r : gmap string Value)
    (verbose : Z) (out : list Output) (b : bool) :
  check_required_fields fields r verbose = (out, Ok b) ->
  (forall o, In o out -> exists field, o = OutMissingRequiredField field)
  /\ (verbose < 3 -> out = [])
  /\ (b = true -> out = []).
Proof.
  induction fields as [|field fields IH]; cbn [check_required_fields].
  - intros Heq. injection Heq as <- <-. split; [|done]. intros o [].
  - destruct (_ && _); [|exact IH].
    destruct (3 <=? verbose) eqn:Hv; intros Heq; injection Heq as <- <-.
    + split; [|split; [lia|done]]. intros o [<- | []]. by eexists.
    + split; [|done]. intros o [].
Qed.


Section Candidate.

Variable date_str : Z -> string.
Variable datetime_str : Z -> Z -> string.

Lemma augment_argument_map_fits (name : string) (value v : Value)
    (table : Table) :
  value <> VNone ->
  augment_argument_map date_str datetime_str name value table = Some v ->
  exists col,
    In col table /\ Column.name col = name
    /\ value_fits (Column.type_ col) v = true.
Proof.
  intros Hvalue. unfold augment_argument_map.
  destruct (find _ table) as [col|] eqn:Hfind; [|discriminate].
  apply find_some in Hfind as [Hin Hname%String.eqb_eq].
  intros Hv. exists col. split; [done|]. split; [done|].
  destruct (Column.type_ col); cbn in Hv |- *.
  - by injection Hv as <-.
  - by injection Hv as <-.
  - destruct value; cbn in Hv; by injection Hv as <-.
  - by injection Hv as <-.
  - injection Hv as <-. by destruct value.
Qed.

Lemma constructor_lookup (r : gmap string Value) (table : Table)
    (name : string) (v : Value) :
  map_imap (fun name value =>
              if is_none value then None
              else augment_argument_map date_str datetime_str name value table)
    (<["cancelled" := default (VBool false) (r !! "cancelled")]>
       (<["pacu_request" := default VNone (r !! "pacu_request")]> r))
    !! name = Some v ->
  exists col,
    In col table /\ Column.name col = name
    /\ value_fits (Column.type_ col) v = true.
Proof.
  rewrite map_lookup_imap.
  destruct (_ !! name) as [value|]; [|discriminate]. cbn.
  destruct (is_none value) eqn:Hnone; [discriminate|].
  apply augment_argument_map_fits. by destruct value.
Qed.

(** X25.  [procedure_constructor] gives each table
    only attributes that are columns of the table, with values of the
    type of the column: texts for text columns, booleans for boolean
    columns, a date or [None] for date columns. *)
Theorem procedure_constructor_fits_the_tables (r : gmap string Value)
    (name : string) (v : Value) :
  (attrs (procedure_constructor date_str datetime_str r) !! name = Some v ->
   exists col,
     In col Procedure.columns /\ Column.name col = name
     /\ value_fits (Column.type_ col) v = true)
  /\ (patient (procedure_constructor date_str datetime_str r) !! name
        = Some v ->
      exists col,
        In col Patient.columns /\ Column.name col = name
        /\ value_fits (Column.type_ col) v = true).
Proof.
  split; unfold procedure_constructor; cbn [attrs patient];
    apply constructor_lookup.
Qed.

Lemma constructor_cancelled_lookup (r : gmap string Value) :
  attrs (procedure_constructor date_str datetime_str r) !! "cancelled"
  = match default (VBool false) (r !! "cancelled") with
    | VNone => None
    | v => Some (VBool (truthy v))
    end.
Proof.
  unfold procedure_constructor. cbn [attrs].
  rewrite map_lookup_imap, lookup_insert_eq. cbn.
  by destruct (default (VBool false) (r !! "cancelled")).
Qed.

Lemma constructor_pacu_lookup (r : gmap string Value) :
  attrs (procedure_constructor date_str datetime_str r) !! "pacu_request"
  = match default VNone (r !! "pacu_request") with
    | VNone => None
    | v => Some (VBool (truthy v))
    end.
Proof.
  unfold procedure_constructor. cbn [attrs].
  rewrite map_lookup_imap, lookup_insert_ne, lookup_insert_eq by done. cbn.
  by destruct (default VNone (r !! "pacu_request")).
Qed.

(** X26.  Updating a stored procedure with
    a later record writes the flag [cancelled] of the record, which is
    [False] when the record has none, so that a cancellation is taken
    back; every other attribute that the record does not give is kept,
    and so is the identity. *)
Theorem update_resets_cancelled_and_keeps_the_rest (row : obj)
    (r : gmap string Value) :
  (r !! "cancelled" = None ->
   getattr (update row (attrs (procedure_constructor date_str datetime_str r)))
     "cancelled" = VBool false)
  /\ (forall v,
        r !! "cancelled" = Some v -> v <> VNone ->
        getattr (update row
                   (attrs (procedure_constructor date_str datetime_str r)))
          "cancelled" = VBool (truthy v))
  /\ (forall name,
        name <> "cancelled" ->
        r !! name = None \/ r !! name = Some VNone ->
        getattr (update row
                   (attrs (procedure_constructor date_str datetime_str r)))
          name = getattr row name)
  /\ getattr (update row
                (attrs (procedure_constructor date_str datetime_str r)))
       "procedure_id" = getattr row "procedure_id".
Proof.
  split; [|split; [|split]].
  - intros Hr. rewrite getattr_update. unfold getattr at 1 2.
    rewrite constructor_cancelled_lookup, Hr. reflexivity.
  - intros v Hr Hv. rewrite getattr_update. unfold getattr at 1 2.
    rewrite constructor_cancelled_lookup, Hr. cbn [default from_option id].
    by destruct v.
  - intros name Hname Hr. rewrite getattr_update.
    assert (getattr (attrs (procedure_constructor date_str datetime_str r))
              name = VNone) as ->; [|by rewrite andb_false_r].
    unfold getattr. destruct (decide (name = "pacu_request")) as [->|Hpacu].
    + rewrite constructor_pacu_lookup. by destruct Hr as [-> | ->].
    + rewrite constructor_attrs_lookup by done. by destruct Hr as [-> | ->].
  - by rewrite getattr_update.
Qed.

End Candidate.

(** X27.  Updating a row twice with the same candidate is
    updating it once. *)
Theorem update_is_idempotent (row other : obj) :
  update (update row other) other = update row other.
Proof.
  apply map_eq. intros name. rewrite !update_lookup.
  by destruct (_ && _).
Qed.

(** X28.  When two stored procedures have the natural key of
    the candidate, [find_existing] raises [MultipleResultsFound] and
    changes nothing. *)
Theorem duplicated_key_raises (self : ProcedureObj) (session : Session)
    (db : Store) (i j : nat) (row_i row_j : obj) :
  i <> j ->
  procedures (work session) !! i = Some row_i ->
  procedures (work session) !! j = Some row_j ->
  same_procedure self.(attrs) row_i = true ->
  same_procedure self.(attrs) row_j = true ->
  find_existing self session db = ([], db, Raise MultipleResultsFound).
Proof.
  intros Hne Hi Hj Hsi Hsj.
  assert (i ∈ matching_rows self.(attrs) (procedures (work session)) 0) as Hin_i.
  { apply matching_rows_elem. exists row_i.
    replace (i - 0)%nat with i by lia. split; [lia|done]. }
  assert (j ∈ matching_rows self.(attrs) (procedures (work session)) 0) as Hin_j.
  { apply matching_rows_elem. exists row_j.
    replace (j - 0)%nat with j by lia. split; [lia|done]. }
  unfold find_existing.
  destruct (matching_rows _ _ _) as [|a [|b l]]; [| |done].
  - by apply not_elem_of_nil in Hin_i.
  - apply list_elem_of_singleton in Hin_i, Hin_j. congruence.
Qed.

(** ** Records the database turns down *)


Section Rejected.

Variable date_str : Z -> string.
Variable datetime_str : Z -> Z -> string.


(** X30.  The branch of [ingest_sheet] that reports
    a new record is never taken: [find_existing] gives a procedure
    whenever it returns, so that message is never printed. *)
Theorem adding_new_record_is_never_reported (r : gmap string Value)
    (session : Session) (verbose row_number : Z) (db : Store) :
  Forall (fun o => o <> OutAddingNew)
    (fst (fst (persist_record date_str datetime_str r session verbose
                 row_number db))).
Proof.
  apply Forall_forall. intros o Hin%list_elem_of_In ->. revert Hin.
  unfold persist_record, mbind_, lift.
  destruct (has_required_fields r verbose) as [out0 [b|e]] eqn:Hreq;
    cbn [fst snd].
  2:{ pose proof (has_required_fields_complete r verbose) as Hc.
      by rewrite Hreq in Hc. }
  unfold has_required_fields in Hreq.
  destruct (check_required_fields_output _ _ _ _ _ Hreq) as (Hout0 & _ & _).
  assert (~ In OutAddingNew out0) as Hnot0.
  { intros Hin. by destruct (Hout0 _ Hin). }
  destruct b.
  2:{ unfold mret_. cbn [fst]. by rewrite app_nil_r. }
  set (c := procedure_constructor date_str datetime_str r).
  assert (exists res',
            find_existing c session db = ([], db, res')
            /\ forall s existing, res' = Ok (s, existing) ->
                 exists i, existing = Some i) as (res' & -> & Hfound).
  { unfold find_existing.
    destruct (matching_rows _ _ _) as [|i [|j l]].
    - destruct (Db.merge _ _ _) as [s i]. eexists. split; [reflexivity|].
      intros ? ? [= <- <-]. by eexists.
    - eexists. split; [reflexivity|]. intros ? ? [= <- <-]. by eexists.
    - eexists. split; [reflexivity|]. discriminate. }
  destruct res' as [[s existing]|e].
  2:{ cbn [fst]. by rewrite app_nil_r. }
  destruct (Hfound s existing eq_refl) as [i ->].
  unfold try_except, mret_, Db.commit, Db.rollback, print_if, print, pret.
  cbn [fst snd].
  destruct (1 <=? verbose); cbn [fst snd app];
    destruct (forallb _ _); cbn [fst app];
    rewrite ?app_nil_r, ?in_app_iff; cbn [In];
    intuition discriminate.
Qed.

End Rejected.

Lemma dict_get_In {K A} `{EqDecision K} (d : list (K * A)) (key : K)
    (x : A) :
  dict_get d key = Some x -> In (key, x) d.
Proof.
  induction d as [|[k y] d IH]; cbn [dict_get]; [done|].
  destruct (decide (k = key)) as [->|_].
  - intros [= ->]. by left.
  - intros H. right. by apply IH.
Qed.

Lemma parse_row_keeps_what_no_column_writes_witness :
  ({[ "idmrn" := VStr "001"; "patient_given_name" := VStr "Alice";
      "patient_family_name" := VStr "Smith";
      "surgical_date" := VDate 738890; "surgical_procedure" := VStr "Knee";
      "surgical_notes" := VStr "first";
      "surgical_pathway" := VStr "ortho" ]} : gmap string Value)
    !! "surgical_pathway"
  = ({[ "surgical_pathway" := VStr "ortho" ]} : gmap string Value)
      !! "surgical_pathway".
Proof.
  refine (proj1 (parse_row_keeps_what_no_column_writes Sample.strptime
                   Sample.parse_date (columns sample_config) empty_sheet
                   (sample_row 1 ["Smith Alice"; "001"; "2024-01-05"; "Knee";
                                  "first"])
                   sample_col_map 0 {[ "surgical_pathway" := VStr "ortho" ]}
                   ∅ [] _ "surgical_pathway" _ _) _).
  - intros name parser Hget%dict_get_In.
    assert (forallb (fun entry =>
                       negb (String.eqb (db_col_name (snd entry))
                               "surgical_pathway")
                       && negb (bool_decide (extra_column_name (snd entry)
                                             = Some "surgical_pathway")))
              (columns sample_config) = true) as Hall
      by (vm_compute; reflexivity).
    rewrite forallb_forall in Hall. specialize (Hall _ Hget). cbn [snd] in Hall.
    apply andb_true_iff in Hall as [H1 H2].
    apply negb_true_iff in H1, H2. apply String.eqb_neq in H1.
    by apply bool_decide_eq_false in H2.
  - apply (bool_decide_unpack _). vm_compute. exact I.
  - discriminate.
Defined.

Lemma short_rows_are_skipped_witness :
  exists out,
    ingest_rows Sample.strptime Sample.parse_date Sample.date_str
      Sample.datetime_str (columns sample_config) empty_sheet
      (globals sample_config) sample_col_map 3 2
      [sample_row 1 []; sample_row 2 []] 0 ∅
      (Db.open_session sample_store) sample_store
    = (out, sample_store, Ok (Db.open_session sample_store))
    /\ forall o, In o out -> exists field, o = OutMissingRequiredField field.
Proof.
  apply (short_rows_are_skipped Sample.strptime Sample.parse_date
           Sample.date_str Sample.datetime_str).
  apply Forall_cons_2; [|apply Forall_cons_2; [|apply Forall_nil_2]];
    apply Forall_forall; intros [i name] _; unfold Row.len; cbn; lia.
Defined.

Lemma sheet_without_recognised_columns_witness :
  exists out,
    ingest_sheet Sample.strptime Sample.parse_date Sample.date_str
      Sample.datetime_str Sample.column_index_from_string
      unknown_headings_sheet sample_config (Db.open_session sample_store) 1
      sample_store
    = (out ++ [OutNoRecognisedColumns "Notes"], sample_store,
       Ok (sample_config, Db.open_session sample_store)).
Proof.
  apply (sheet_without_recognised_columns Sample.strptime Sample.parse_date
           Sample.date_str Sample.datetime_str
           Sample.column_index_from_string unknown_headings_sheet
           sample_config (Db.open_session sample_store) 1 sample_store
           (sample_row 0 ["Ward"; "Bed"])).
  - reflexivity.
  - reflexivity.
  - intros cell [<- | [<- | []]]; vm_compute; reflexivity.
Defined.

Lemma week_start_cell_must_hold_text_witness :
  exists out e,
    ingest_sheet Sample.strptime Sample.parse_date Sample.date_str
      Sample.datetime_str Sample.column_index_from_string
      weekly_sheet weekly_config (Db.open_session empty_store) 0 empty_store
    = (out, empty_store, Raise e).
Proof.
  apply (week_start_cell_must_hold_text Sample.strptime Sample.parse_date
           Sample.date_str Sample.datetime_str
           Sample.column_index_from_string weekly_sheet weekly_config
           (Db.open_session empty_store) 0 empty_store
           (sample_row 1 ["MRN"; "Day"]) [] (0%nat, "MRN") [(1%nat, "Day")]
           "A1"
           (Sample.xlsx_cell 0 0
              {| Xlsx.raw_value := VDate 738886;
                 Xlsx.font_strike := VNone;
                 Xlsx.font_color := None |})).
  - reflexivity.
  - reflexivity.
  - vm_compute. reflexivity.
  - reflexivity.
  - reflexivity.
  - reflexivity.
  - discriminate.
Defined.

Lemma ingestion_keeps_stored_procedures_witness :
  (length (procedures sample_store) <= length (procedures sample_store))%nat
  /\ forall i row,
       procedures sample_store !! i = Some row ->
       exists row',
         procedures sample_store !! i = Some row'
         /\ getattr row' "idmrn" = getattr row "idmrn"
         /\ getattr row' "surgical_procedure"
            = getattr row "surgical_procedure"
         /\ getattr row' "surgical_date" = getattr row "surgical_date".
Proof.
  apply (ingestion_keeps_stored_procedures Sample.strptime Sample.parse_date
           Sample.date_str Sample.datetime_str
           Sample.column_index_from_string "list.xlsx" "list.yaml"
           sample_contents sample_book 0 sample_store sample_store
           (fst (fst (sample_ingest sample_store)))).
  apply (bool_decide_unpack _). vm_compute. exact I.
Defined.

Lemma duplicated_key_raises_witness :
  find_existing knee_candidate (Db.open_session twin_store) twin_store
  = ([], twin_store, Raise MultipleResultsFound).
Proof.
  refine (duplicated_key_raises knee_candidate (Db.open_session twin_store)
            twin_store 0%nat 1%nat knee_row knee_row _ _ _ _ _).
  - discriminate.
  - reflexivity.
  - reflexivity.
  - vm_compute. reflexivity.
  - vm_compute. reflexivity.
Defined.


Lemma procedure_constructor_fits_the_tables_witness :
  exists col,
    In col Procedure.columns /\ Column.name col = "surgical_date"
    /\ value_fits (Column.type_ col) VNone = true.
Proof.
  apply (proj1 (procedure_constructor_fits_the_tables Sample.date_str
                  Sample.datetime_str numeric_date_record "surgical_date"
                  VNone)).
  vm_compute. reflexivity.
Defined.

Lemma update_resets_cancelled_and_keeps_the_rest_witness :
  getattr
    (update {[ "cancelled" := VBool true; "pacu_request" := VBool true ]}
       (attrs (procedure_constructor Sample.date_str Sample.datetime_str
                 knee_record)))
    "cancelled" = VBool false
  /\ getattr
       (update {[ "cancelled" := VBool true; "pacu_request" := VBool true ]}
          (attrs (procedure_constructor Sample.date_str Sample.datetime_str
                    knee_record)))
       "pacu_request"
     = getattr ({[ "cancelled" := VBool true; "pacu_request" := VBool true ]}
                  : gmap string Value) "pacu_request".
Proof.
  pose proof (update_resets_cancelled_and_keeps_the_rest Sample.date_str
                Sample.datetime_str
                {[ "cancelled" := VBool true; "pacu_request" := VBool true ]}
                knee_record) as (Hcancelled & _ & Hrest & _).
  split.
  - apply Hcancelled. vm_compute. reflexivity.
  - apply Hrest; [discriminate|]. left. vm_compute. reflexivity.
Defined.

